(** * Airplane Management System: seat map, booking and persistence

    A shallow embedding of the seat-code decoder, the flight seat grid, the
    aircraft geometry, the seat pricing, the booking, rebooking and
    cancellation services, the payments and their strategies, the
    administration of aircraft and flights and the JSON (de)serialisation of
    the C++ sources, with the properties of the specification and further
    properties of the code stated and proved against it.

    Conventions.
    - [std::string] is [string] (a list of bytes).
    - C++ [int] is [Z]; where the source can leave the [int] range the
      wrap-around or the exception is written out ([stoi], [get_int]).
    - C++ [float] is an IEEE-754 binary32 value, [spec_float] with
      precision 24 and exponent bound 128, computed with the operations
      of the standard library's [SpecFloat].
    - [std::unordered_map<std::string, std::shared_ptr<T>>] is
      [gmap string T]; an update through a [shared_ptr] obtained from a
      repository is written back under the key it was found at.
    - a call either returns, throws, runs into undefined behaviour
      (unchecked [vector] indexing outside its bounds) or does not come
      back (the identifier loop never drawing a free identifier):
      [outcome]. *)

From Stdlib Require Import ZArith Lia Bool Ascii String List.
From Stdlib Require Import DecimalString DecimalPos Floats.SpecFloat.
From stdpp Require Import gmap strings list fin_maps.

Local Open Scope string_scope.
Local Open Scope Z_scope.

(** ** Outcomes of a call *)

Inductive exn : Type :=
| invalid_argument      (* std::invalid_argument *)
| out_of_range          (* std::out_of_range *)
| length_error          (* std::length_error *)
| json_type_error       (* nlohmann::json::type_error *)
| json_out_of_range.    (* nlohmann::json::out_of_range *)

Inductive outcome (A : Type) : Type :=
| Ok (a : A)
| Throw (e : exn)
| Undefined
| Diverge.

Arguments Ok {A} a.
Arguments Throw {A} e.
Arguments Undefined {A}.
Arguments Diverge {A}.

Definition obind {A B : Type} (x : outcome A) (k : A -> outcome B) : outcome B :=
  match x with
  | Ok a => k a
  | Throw e => Throw e
  | Undefined => Undefined
  | Diverge => Diverge
  end.

Declare Scope outcome_scope.
Delimit Scope outcome_scope with outcome.
Notation "'let?' x ':=' c 'in' k" := (obind c (fun x => k))
  (at level 10, x name, c at level 100, k at level 200) : outcome_scope.
Local Open Scope outcome_scope.

(** [if (cond) throw std::invalid_argument(...)]. *)
Definition throw_if (cond : bool) (e : exn) : outcome unit :=
  if cond then Throw e else Ok tt.

(** ** C and C++ library functions on strings and integers *)

Definition INT_MAX : Z := 2147483647.
Definition INT_MIN : Z := -2147483648.

(** The value of a [char] as an [int]: [char] is signed on the targets of
    the repository (x86 Linux and Windows). *)
Definition char_to_int (c : ascii) : Z :=
  let n := Z.of_N (N_of_ascii c) in
  if n <? 128 then n else n - 256.

Definition str_empty (s : string) : bool :=
  match s with EmptyString => true | _ => false end.

Definition str_size (s : string) : nat := String.length s.

(** [std::isdigit] on the bytes '0'..'9'. *)
Definition isdigit (c : ascii) : bool :=
  let n := N_of_ascii c in ((48 <=? n) && (n <=? 57))%N.

(** [std::isspace] in the C locale. *)
Definition isspace (c : ascii) : bool :=
  let n := N_of_ascii c in ((n =? 32) || ((9 <=? n) && (n <=? 13)))%N.

Fixpoint str_mem (c : ascii) (set : string) : bool :=
  match set with
  | EmptyString => false
  | String d set' => if Ascii.eqb c d then true else str_mem c set'
  end.

Fixpoint str_forall (p : ascii -> bool) (s : string) : bool :=
  match s with
  | EmptyString => true
  | String c s' => p c && str_forall p s'
  end.

(** [s.find_first_not_of(set)]; [None] is [std::string::npos]. *)
Fixpoint find_first_not_of (s set : string) : option nat :=
  match s with
  | EmptyString => None
  | String c s' =>
      if str_mem c set then option_map S (find_first_not_of s' set)
      else Some O
  end.

(** [s.find(c, from)]; [None] is [std::string::npos]. *)
Fixpoint find_char_from (s : string) (c : ascii) (from : nat) : option nat :=
  match s with
  | EmptyString => None
  | String d s' =>
      match from with
      | O => if Ascii.eqb c d then Some O
             else option_map S (find_char_from s' c O)
      | S from' => option_map S (find_char_from s' c from')
      end
  end.

(** [s.back()] of a non-empty string. *)
Fixpoint str_back (s : string) : option ascii :=
  match s with
  | EmptyString => None
  | String c EmptyString => Some c
  | String _ s' => str_back s'
  end.

(** [s.substr(pos, len)]: throws [std::out_of_range] when [pos > size()]. *)
Definition substr (s : string) (pos len : nat) : outcome string :=
  if (str_size s <? pos)%nat then Throw out_of_range
  else Ok (String.substring pos len s).

(** [s.substr(pos)]. *)
Definition substr_from (s : string) (pos : nat) : outcome string :=
  substr s pos (str_size s - pos).

(** The longest prefix of decimal digits and what follows it. *)
Fixpoint span_digits (s : string) : string * string :=
  match s with
  | EmptyString => (EmptyString, EmptyString)
  | String c s' =>
      if isdigit c then let (ds, rest) := span_digits s' in (String c ds, rest)
      else (EmptyString, s)
  end.

Fixpoint skip_spaces (s : string) : string :=
  match s with
  | String c s' => if isspace c then skip_spaces s' else s
  | EmptyString => EmptyString
  end.

Definition digit_value (c : ascii) : Z := Z.of_N (N_of_ascii c) - 48.

(** The number written by a string of decimal digits, most significant
    digit first. *)
Fixpoint digits_value_acc (acc : Z) (ds : string) : Z :=
  match ds with
  | EmptyString => acc
  | String c ds' => digits_value_acc (10 * acc + digit_value c) ds'
  end.

Definition digits_value (ds : string) : Z := digits_value_acc 0 ds.

(** [std::stoi(s)] (base 10): leading white space is skipped, one optional
    sign is read, then the longest run of digits; what follows is ignored.
    No digit: [std::invalid_argument]. A value outside [int]:
    [std::out_of_range]. *)
Definition read_sign (s : string) : bool * string :=
  match s with
  | String "-" r => (true, r)
  | String "+" r => (false, r)
  | _ => (false, s)
  end.

Definition stoi (s : string) : outcome Z :=
  let (neg, s2) := read_sign (skip_spaces s) in
  let (ds, _) := span_digits s2 in
  if str_empty ds then Throw invalid_argument
  else
    let v := if neg then - digits_value ds else digits_value ds in
    if (INT_MIN <=? v) && (v <=? INT_MAX) then Ok v else Throw out_of_range.

(** [std::to_string(int)]. *)
Definition to_string (n : Z) : string :=
  DecimalString.NilZero.string_of_int (Z.to_int n).

(** [IDGenerator::generateUniqueID] draws a number between 10000 and 99999
    from a freshly seeded generator and prints it. The numbers it will draw
    are given as a list; the loop
    [id = prefix + gen(); while (repository has id) id = prefix + gen();]
    of the constructors consumes them, and does not come back when none of
    them is free. *)
Fixpoint generate_fresh_id (prefix : string) (taken : string -> bool)
    (draws : list Z) : outcome string * list Z :=
  match draws with
  | [] => (Diverge, [])
  | d :: draws' =>
      let id := prefix ++ to_string d in
      if taken id then generate_fresh_id prefix taken draws'
      else (Ok id, draws')
  end.

(** ** Single and double precision numbers *)

(** A C++ [float]; a [double] is the same type of value with precision 53
    and exponent bound 1024, and every [float] is a [double]. *)
Definition float : Type := spec_float.

Definition f32_of_int (n : Z) : float := binary_normalize 24 128 n 0 false.
Definition f64_of_int (n : Z) : float := binary_normalize 53 1024 n 0 false.

(** Rounding a [double] to a [float] ([static_cast<float>]). *)
Definition f32_of_f64 (x : float) : float :=
  match x with
  | S754_finite s m e => binary_round 24 128 s m e
  | _ => x
  end.

Definition fmul32 : float -> float -> float := SFmul 24 128.
Definition fadd32 : float -> float -> float := SFadd 24 128.
Definition fsub32 : float -> float -> float := SFsub 24 128.
Definition flt (a b : float) : bool := SFltb a b.      (* a < b *)
Definition fgt (a b : float) : bool := SFltb b a.      (* a > b *)
Definition fle (a b : float) : bool := SFleb a b.      (* a <= b *)

(** [std::min(a, b)] is [(b < a) ? b : a]. *)
Definition std_min (a b : float) : float := if flt b a then b else a.

(** The literals of the source. *)
Definition f0_3 : float := S754_finite false 10066330 (-25).   (* 0.3f *)
Definition f0_1 : float := S754_finite false 13421773 (-27).   (* 0.1f *)
Definition f0 : float := S754_zero false.                      (* 0.0f *)
Definition f10 : float := f32_of_int 10.
Definition f20 : float := f32_of_int 20.
Definition f100 : float := f32_of_int 100.
Definition f150 : float := f32_of_int 150.
Definition f200 : float := f32_of_int 200.

(** Truncation of a finite number towards zero. *)
Definition float_trunc (x : float) : option Z :=
  match x with
  | S754_zero _ => Some 0
  | S754_finite s m e =>
      let a := if 0 <=? e then Z.pos m * 2 ^ e else Z.pos m / 2 ^ (- e) in
      Some (if s then - a else a)
  | _ => None
  end.

(** ** JSON values (nlohmann::json)

    The library is third-party code outside the repository; the accessors
    the models call are written here after its documented behaviour. An
    object is a list of members with distinct keys; every object the
    models build has distinct keys. *)

#[warnings="-register-all"]
Inductive JSON : Type :=
| JNull
| JBool (b : bool)
| JInt (n : Z)
| JFloat (x : float)
| JString (s : string)
| JArray (items : list JSON)
| JObject (members : list (string * JSON)).

Fixpoint members_find (k : string) (members : list (string * JSON)) : option JSON :=
  match members with
  | [] => None
  | (k', v) :: rest => if String.eqb k k' then Some v else members_find k rest
  end.

(** [json.contains(key)]: false on anything that is not an object. *)
Definition json_contains (j : JSON) (k : string) : bool :=
  match j with
  | JObject ms => match members_find k ms with Some _ => true | None => false end
  | _ => false
  end.

(** [json.at(key)]. *)
Definition json_at (j : JSON) (k : string) : outcome JSON :=
  match j with
  | JObject ms =>
      match members_find k ms with
      | Some v => Ok v
      | None => Throw json_out_of_range
      end
  | _ => Throw json_type_error
  end.

(** [json[key] = v] on an object. *)
Definition json_set (j : JSON) (k : string) (v : JSON) : JSON :=
  match j with
  | JObject ms =>
      JObject (if json_contains j k
               then map (fun kv => if String.eqb k (fst kv) then (k, v) else kv) ms
               else ms ++ [(k, v)])
  | JNull => JObject [(k, v)]
  | _ => j
  end.

Definition get_string (j : JSON) : outcome string :=
  match j with JString s => Ok s | _ => Throw json_type_error end.

Definition get_bool (j : JSON) : outcome bool :=
  match j with JBool b => Ok b | _ => Throw json_type_error end.

(** Conversion of a 64-bit integer to [int]. *)
Definition wrap_int (n : Z) : Z := (n + 2 ^ 31) mod 2 ^ 32 - 2 ^ 31.

(** [get<int>()]: numbers and booleans convert; a floating-point number is
    truncated, which is undefined when the result is not an [int]. *)
Definition get_int (j : JSON) : outcome Z :=
  match j with
  | JInt n => Ok (wrap_int n)
  | JBool b => Ok (if b then 1 else 0)
  | JFloat x =>
      match float_trunc x with
      | Some n => if (INT_MIN <=? n) && (n <=? INT_MAX) then Ok n else Undefined
      | None => Undefined
      end
  | _ => Throw json_type_error
  end.

(** [get<double>()]: [double] is the library's own floating-point type,
    for which only numbers convert; a boolean is a type error. *)
Definition get_double (j : JSON) : outcome float :=
  match j with
  | JInt n => Ok (f64_of_int n)
  | JFloat x => Ok x
  | _ => Throw json_type_error
  end.

(** [get<float>()]: as for [get<int>()], numbers and booleans convert. *)
Definition get_float (j : JSON) : outcome float :=
  match j with
  | JInt n => Ok (f32_of_int n)
  | JBool b => Ok (f32_of_int (if b then 1 else 0))
  | JFloat x => Ok (f32_of_f64 x)
  | _ => Throw json_type_error
  end.

Fixpoint mapM {A B : Type} (f : A -> outcome B) (l : list A) : outcome (list B) :=
  match l with
  | [] => Ok []
  | a :: l' => let? b := f a in let? bs := mapM f l' in Ok (b :: bs)
  end.

(** [get<std::vector<T>>()]. *)
Definition get_vector {A : Type} (get : JSON -> outcome A) (j : JSON) : outcome (list A) :=
  match j with
  | JArray items => mapM get items
  | _ => Throw json_type_error
  end.

(** The loop [for key in required: if (!json.contains(key)) throw]. *)
Definition require_keys (j : JSON) (keys : list string) : outcome unit :=
  throw_if (negb (forallb (json_contains j) keys)) invalid_argument.

(** [s.substr(0, n) != prefix]. *)
Definition lacks_prefix (s prefix : string) : bool :=
  negb (String.eqb (String.substring 0 (String.length prefix) s) prefix).

(** ** AircraftModel *)

Module AircraftModel.

Record t : Type := mk {
  aircraftId : string;
  model : string;
  capacity : Z;
  numOfRowSeats : Z;
  numOfRows : Z
}.

(** Based on letters of the alphabet for seat designation. *)
Definition MAX_SEATS_PER_ROW : Z := 26.

(** [AircraftModel(model, capacity, numOfRowSeats)]; [aircrafts] is the
    content of the AircraftRepository. *)
Definition ctor (aircrafts : gmap string t) (draws : list Z)
    (model : string) (capacity numOfRowSeats : Z) : outcome t * list Z :=
  let checks :=
    let? _ := throw_if (str_empty model) invalid_argument in
    let? _ := throw_if (capacity <=? 0) invalid_argument in
    let? _ := throw_if (numOfRowSeats <=? 0) invalid_argument in
    let? _ := throw_if (numOfRowSeats >? MAX_SEATS_PER_ROW) invalid_argument in
    throw_if (negb (Z.rem capacity numOfRowSeats =? 0)) invalid_argument in
  match checks with
  | Ok _ =>
      let (r, draws') :=
        generate_fresh_id "AC-" (fun id => bool_decide (is_Some (aircrafts !! id))) draws in
      (let? newAircraftId := r in
       Ok (mk newAircraftId model capacity numOfRowSeats (Z.quot capacity numOfRowSeats)),
       draws')
  | Throw e => (Throw e, draws)
  | Undefined => (Undefined, draws)
  | Diverge => (Diverge, draws)
  end.

(** [AircraftModel(const JSON&)]. *)
Definition from_json (json : JSON) : outcome t :=
  let? _ := require_keys json ["id"; "model"; "capacity"; "numOfRowSeats"] in
  let? aircraftId := (let? j := json_at json "id" in get_string j) in
  let? _ := throw_if (lacks_prefix aircraftId "AC-") invalid_argument in
  let? model := (let? j := json_at json "model" in get_string j) in
  let? capacity := (let? j := json_at json "capacity" in get_int j) in
  let? numOfRowSeats := (let? j := json_at json "numOfRowSeats" in get_int j) in
  let? _ := throw_if (str_empty model) invalid_argument in
  let? _ := throw_if (capacity <=? 0) invalid_argument in
  let? _ := throw_if (numOfRowSeats <=? 0) invalid_argument in
  let? _ := throw_if (numOfRowSeats >? MAX_SEATS_PER_ROW) invalid_argument in
  let? _ := throw_if (negb (Z.rem capacity numOfRowSeats =? 0)) invalid_argument in
  Ok (mk aircraftId model capacity numOfRowSeats (Z.quot capacity numOfRowSeats)).

Definition to_json (self : t) : JSON :=
  JObject [("id", JString (aircraftId self));
           ("model", JString (model self));
           ("capacity", JInt (capacity self));
           ("numOfRowSeats", JInt (numOfRowSeats self))].

Definition setModel (self : t) (model : string) : t :=
  mk (aircraftId self) model (capacity self) (numOfRowSeats self) (numOfRows self).

Definition setCapacity (self : t) (capacity : Z) : outcome t :=
  let? _ := throw_if (capacity <=? 0) invalid_argument in
  let? _ := throw_if (negb (Z.rem capacity (numOfRowSeats self) =? 0)) invalid_argument in
  Ok (mk (aircraftId self) (model self) capacity (numOfRowSeats self)
         (Z.quot capacity (numOfRowSeats self))).

Definition setNumOfRowSeats (self : t) (numOfRowSeats : Z) : outcome t :=
  let? _ := throw_if (numOfRowSeats <=? 0) invalid_argument in
  let? _ := throw_if (numOfRowSeats >? MAX_SEATS_PER_ROW) invalid_argument in
  let? _ := throw_if (negb (Z.rem (capacity self) numOfRowSeats =? 0)) invalid_argument in
  Ok (mk (aircraftId self) (model self) (capacity self) numOfRowSeats
         (Z.quot (capacity self) numOfRowSeats)).

(** The invariant of the specification. *)
Definition invariant (a : t) : Prop :=
  capacity a > 0 /\ 1 <= numOfRowSeats a <= 26 /\
  capacity a mod numOfRowSeats a = 0 /\
  numOfRows a = capacity a / numOfRowSeats a.

End AircraftModel.

(** ** CrewMemberModel (the fields; flights only ask whether an id exists) *)

Module CrewMemberModel.

Inductive CrewType : Type := Pilot | FlightAttendant.

Record t : Type := mk {
  crewId : string;
  name : string;
  role : CrewType
}.

(** [CrewMemberModel(name, role)]; [crewMembers] is the content of the
    CrewMemberRepository. *)
Definition ctor (crewMembers : gmap string t) (draws : list Z) (name : string)
    (role : CrewType) : outcome t * list Z :=
  if str_empty name then (Throw invalid_argument, draws)
  else
    let (r, draws') :=
      generate_fresh_id "CM-" (fun id => bool_decide (is_Some (crewMembers !! id))) draws in
    (let? crewId := r in Ok (mk crewId name role), draws').

(** [CrewMemberModel(const JSON&)]. *)
Definition from_json (json : JSON) : outcome t :=
  let? _ := require_keys json ["id"; "name"; "role"] in
  let? crewId := (let? j := json_at json "id" in get_string j) in
  let? _ := throw_if (lacks_prefix crewId "CM-") invalid_argument in
  let? name := (let? j := json_at json "name" in get_string j) in
  let? _ := throw_if (str_empty name) invalid_argument in
  let? roleStr := (let? j := json_at json "role" in get_string j) in
  if String.eqb roleStr "Pilot" then Ok (mk crewId name Pilot)
  else if String.eqb roleStr "Flight Attendant" then Ok (mk crewId name FlightAttendant)
  else Throw invalid_argument.

Definition to_json (self : t) : JSON :=
  JObject [("id", JString (crewId self));
           ("name", JString (name self));
           ("role", JString (match role self with
                             | Pilot => "Pilot"
                             | FlightAttendant => "Flight Attendant"
                             end))].

Definition setName (self : t) (name : string) : t := mk (crewId self) name (role self).
Definition setRole (self : t) (role : CrewType) : t := mk (crewId self) (name self) role.

End CrewMemberModel.

(** ** DateTime *)

Module DateTime.

Record t : Type := mk {
  year : Z;
  month : Z;
  day : Z;
  hour : Z;
  minute : Z
}.

Definition isValid (d : t) : bool :=
  if (year d <? 0) || (month d <? 1) || (month d >? 12) || (day d <? 1) ||
     (day d >? 31) || (hour d <? 0) || (hour d >? 23) || (minute d <? 0) ||
     (minute d >? 59)
  then false
  else if ((month d =? 4) || (month d =? 6) || (month d =? 9) || (month d =? 11))
          && (day d >? 30)
  then false
  else if month d =? 2 then
    let isLeap := ((Z.rem (year d) 4 =? 0) && negb (Z.rem (year d) 100 =? 0))
                  || (Z.rem (year d) 400 =? 0) in
    if (isLeap && (day d >? 29)) || (negb isLeap && (day d >? 28)) then false
    else true
  else true.

(** [operator<=] as the source defines it. *)
Definition le (a b : t) : bool :=
  if negb (year a =? year b) then year a <? year b
  else if negb (month a =? month b) then month a <? month b
  else if negb (day a =? day b) then day a <? day b
  else if negb (hour a =? hour b) then hour a <? hour b
  else minute a <? minute b.

Definition sameDay (a b : t) : bool :=
  (year a =? year b) && (month a =? month b) && (day a =? day b).

Definition pad2 (n : Z) : string :=
  (if n <? 10 then "0" else "") ++ to_string n.

Definition toString (d : t) : string :=
  to_string (year d) ++ "-" ++ pad2 (month d) ++ "-" ++ pad2 (day d) ++ " " ++
  pad2 (hour d) ++ ":" ++ pad2 (minute d).

(** A [std::exception] thrown by [stoi] or [substr] inside the [try]
    block is rethrown as [std::invalid_argument]. *)
Definition rethrow_invalid {A : Type} (x : outcome A) : outcome A :=
  match x with
  | Throw _ => Throw invalid_argument
  | _ => x
  end.

Definition parseDateOnly (dateStr : string) : outcome (Z * Z * Z) :=
  let firstDash := find_char_from dateStr "-" 0 in
  (* [firstDash + 1] wraps to 0 when [firstDash] is [npos] *)
  let secondDash :=
    find_char_from dateStr "-" (match firstDash with Some i => S i | None => 0 end) in
  match firstDash, secondDash with
  | Some firstDash, Some secondDash =>
      rethrow_invalid
        (let? y := (let? s := substr dateStr 0 firstDash in stoi s) in
         let? m := (let? s := substr dateStr (firstDash + 1)
                                (secondDash - firstDash - 1) in stoi s) in
         let? d := (let? s := substr_from dateStr (secondDash + 1) in stoi s) in
         Ok (y, m, d))
  | _, _ => Throw invalid_argument
  end.

Definition parseTimeOnly (timeStr : string) : outcome (Z * Z) :=
  match find_char_from timeStr ":" 0 with
  | None => Throw invalid_argument
  | Some colonPos =>
      rethrow_invalid
        (let? h := (let? s := substr timeStr 0 colonPos in stoi s) in
         let? mi := (let? s := substr_from timeStr (colonPos + 1) in stoi s) in
         Ok (h, mi))
  end.

Definition is_blank (c : ascii) : bool := str_mem c " 	".

Fixpoint trim_left (s : string) : string :=
  match s with
  | String c s' => if is_blank c then trim_left s' else s
  | EmptyString => EmptyString
  end.

Fixpoint trim_right (s : string) : string :=
  match s with
  | EmptyString => EmptyString
  | String c s' =>
      match trim_right s' with
      | EmptyString => if is_blank c then EmptyString else String c EmptyString
      | r => String c r
      end
  end.

(** [DateTime(const std::string&)]. *)
Definition from_string (dateTimeStr : string) : outcome t :=
  let trimmed := trim_right (trim_left dateTimeStr) in
  let? d :=
    match find_char_from trimmed " " 0 with
    | None =>
        let? date := parseDateOnly trimmed in
        let '(y, m, d) := date in
        Ok (mk y m d 0 0)
    | Some spacePos =>
        let? datePart := substr trimmed 0 spacePos in
        let? timePart := substr_from trimmed (spacePos + 1) in
        let? date := parseDateOnly datePart in
        let? time := parseTimeOnly timePart in
        let '(y, m, d) := date in
        let '(h, mi) := time in
        Ok (mk y m d h mi)
    end in
  let? _ := throw_if (negb (isValid d)) invalid_argument in
  Ok d.

End DateTime.

(** ** FlightModel *)

Module FlightModel.

Record t : Type := mk {
  flightId : string;
  origin : string;
  destination : string;
  departureTime : DateTime.t;
  arrivalTime : DateTime.t;
  aircraftId : string;
  crewMemberIds : list string;
  seatMap : list (list bool)
}.

Definition with_seatMap (self : t) (seatMap : list (list bool)) : t :=
  mk (flightId self) (origin self) (destination self) (departureTime self)
     (arrivalTime self) (aircraftId self) (crewMemberIds self) seatMap.

(** The pair [{-1, -1}] returned for a seat that does not decode. *)
Definition invalid_indices : Z * Z := (-1, -1).

(** [getSeatIndices]; [aircrafts] is the content of the
    AircraftRepository. *)
Definition getSeatIndices (aircrafts : gmap string AircraftModel.t) (self : t)
    (seatNumber : string) : Z * Z :=
  match aircrafts !! aircraftId self with
  | None => invalid_indices
  | Some aircraft =>
      if str_empty seatNumber then invalid_indices
      else
        match find_first_not_of seatNumber "0123456789" with
        | None => invalid_indices
        | Some colIndex =>
            if (colIndex =? 0)%nat || negb (str_size seatNumber - colIndex =? 1)%nat
            then invalid_indices
            else
              match String.get colIndex seatNumber with
              | None => invalid_indices (* not reached: colIndex < size *)
              | Some c =>
                  let colChar := char_to_int c in
                  if (colChar <? 65) ||
                     (colChar >? AircraftModel.numOfRowSeats aircraft + 65 - 1)
                  then invalid_indices
                  else
                    match (let? rowStr := substr seatNumber 0 colIndex in stoi rowStr) with
                    | Ok rowNum =>
                        if (rowNum <=? 0) || (rowNum >? AircraftModel.numOfRows aircraft)
                        then invalid_indices
                        else (rowNum - 1, colChar - 65)
                    | _ => invalid_indices (* catch (...) *)
                    end
              end
        end
  end.

Definition is_invalid (seatIndices : Z * Z) : bool :=
  (fst seatIndices =? -1) || (snd seatIndices =? -1).

Definition isValidSeat (aircrafts : gmap string AircraftModel.t) (self : t)
    (seatNumber : string) : bool :=
  let seatIndices := getSeatIndices aircrafts self seatNumber in
  negb (fst seatIndices =? -1) && negb (snd seatIndices =? -1).

(** [seatMap[i][j]]: indexing a vector outside its bounds is undefined. *)
Definition grid_get (seatMap : list (list bool)) (i j : Z) : outcome bool :=
  if (i <? 0) || (j <? 0) then Undefined
  else
    match seatMap !! Z.to_nat i with
    | Some row =>
        match row !! Z.to_nat j with
        | Some b => Ok b
        | None => Undefined
        end
    | None => Undefined
    end.

(** [seatMap[i][j] = status]. *)
Definition grid_set (seatMap : list (list bool)) (i j : Z) (status : bool)
    : outcome (list (list bool)) :=
  if (i <? 0) || (j <? 0) then Undefined
  else
    match seatMap !! Z.to_nat i with
    | Some row =>
        if (Z.to_nat j <? length row)%nat
        then Ok (<[Z.to_nat i := <[Z.to_nat j := status]> row]> seatMap)
        else Undefined
    | None => Undefined
    end.

Definition setSeatStatus (aircrafts : gmap string AircraftModel.t) (self : t)
    (seatNumber : string) (status : bool) : outcome t :=
  let seatIndices := getSeatIndices aircrafts self seatNumber in
  if is_invalid seatIndices then Throw invalid_argument
  else
    let? seatMap' := grid_set (seatMap self) (fst seatIndices) (snd seatIndices) status in
    Ok (with_seatMap self seatMap').

Definition getSeatStatus (aircrafts : gmap string AircraftModel.t) (self : t)
    (seatNumber : string) : outcome bool :=
  let seatIndices := getSeatIndices aircrafts self seatNumber in
  if is_invalid seatIndices then Throw invalid_argument
  else grid_get (seatMap self) (fst seatIndices) (snd seatIndices).

(** [std::vector<std::vector<bool>>(rows, std::vector<bool>(cols, false))];
    a negative count converts to a size no vector can have. *)
Definition empty_grid (rows cols : Z) : outcome (list (list bool)) :=
  if (rows <? 0) || (cols <? 0) then Throw length_error
  else Ok (replicate (Z.to_nat rows) (replicate (Z.to_nat cols) false)).

Definition all_exist {V : Type} (repo : gmap string V) (ids : list string) : bool :=
  forallb (fun id => bool_decide (is_Some (repo !! id))) ids.

(** [FlightModel(origin, destination, departureTime, arrivalTime,
    aircraftId, crewMemberIds)]. *)
Definition ctor (aircrafts : gmap string AircraftModel.t)
    (crewMembers : gmap string CrewMemberModel.t) (flights : gmap string t)
    (draws : list Z) (origin destination : string)
    (departureTime arrivalTime : DateTime.t) (aircraftId : string)
    (crewMemberIds : list string) : outcome t * list Z :=
  let checks :=
    let? _ := throw_if (str_empty origin || str_empty destination) invalid_argument in
    let? _ := throw_if (DateTime.le arrivalTime departureTime) invalid_argument in
    match aircrafts !! aircraftId with
    | None => Throw invalid_argument
    | Some aircraft =>
        let? _ := throw_if (negb (all_exist crewMembers crewMemberIds)) invalid_argument in
        empty_grid (AircraftModel.numOfRows aircraft) (AircraftModel.numOfRowSeats aircraft)
    end in
  match checks with
  | Ok seatMap =>
      let (r, draws') :=
        generate_fresh_id "FL-" (fun id => bool_decide (is_Some (flights !! id))) draws in
      (let? flightId := r in
       Ok (mk flightId origin destination departureTime arrivalTime aircraftId
              crewMemberIds seatMap),
       draws')
  | Throw e => (Throw e, draws)
  | Undefined => (Undefined, draws)
  | Diverge => (Diverge, draws)
  end.

(** [FlightModel(const JSON&)]. *)
Definition from_json (aircrafts : gmap string AircraftModel.t)
    (crewMembers : gmap string CrewMemberModel.t) (json : JSON) : outcome t :=
  let? _ := require_keys json ["id"; "origin"; "destination"; "departureTime";
                               "arrivalTime"; "aircraftId"; "crewMemberIds"] in
  let? flightId := (let? j := json_at json "id" in get_string j) in
  let? _ := throw_if (lacks_prefix flightId "FL-") invalid_argument in
  let? origin := (let? j := json_at json "origin" in get_string j) in
  let? destination := (let? j := json_at json "destination" in get_string j) in
  let? _ := throw_if (str_empty origin || str_empty destination) invalid_argument in
  let? departureTime :=
    (let? j := json_at json "departureTime" in
     let? s := get_string j in DateTime.from_string s) in
  let? _ := throw_if (negb (DateTime.isValid departureTime)) invalid_argument in
  let? arrivalTime :=
    (let? j := json_at json "arrivalTime" in
     let? s := get_string j in DateTime.from_string s) in
  let? _ := throw_if (negb (DateTime.isValid arrivalTime)) invalid_argument in
  let? _ := throw_if (DateTime.le arrivalTime departureTime) invalid_argument in
  let? aircraftId := (let? j := json_at json "aircraftId" in get_string j) in
  match aircrafts !! aircraftId with
  | None => Throw invalid_argument
  | Some aircraft =>
      let? crewMemberIds :=
        (let? j := json_at json "crewMemberIds" in get_vector get_string j) in
      let? _ := throw_if (negb (all_exist crewMembers crewMemberIds)) invalid_argument in
      let? seatMap :=
        (let? j := json_at json "seatMap" in get_vector (get_vector get_bool) j) in
      let rowSize := Z.of_nat (length seatMap) in
      match seatMap with
      | [] => Undefined (* seatMap[0] of an empty vector *)
      | row0 :: _ =>
          let colSize := Z.of_nat (length row0) in
          let? _ := throw_if (negb (colSize =? AircraftModel.numOfRowSeats aircraft) ||
                              negb (rowSize =? AircraftModel.numOfRows aircraft))
                             invalid_argument in
          Ok (mk flightId origin destination departureTime arrivalTime aircraftId
                 crewMemberIds seatMap)
      end
  end.

Definition to_json (self : t) : JSON :=
  JObject [("id", JString (flightId self));
           ("origin", JString (origin self));
           ("destination", JString (destination self));
           ("departureTime", JString (DateTime.toString (departureTime self)));
           ("arrivalTime", JString (DateTime.toString (arrivalTime self)));
           ("aircraftId", JString (aircraftId self));
           ("crewMemberIds", JArray (map JString (crewMemberIds self)));
           ("seatMap", JArray (map (fun row => JArray (map JBool row)) (seatMap self)))].

(** The inline setters; none of them checks anything. *)
Definition setOrigin (self : t) (origin : string) : t :=
  mk (flightId self) origin (destination self) (departureTime self) (arrivalTime self)
     (aircraftId self) (crewMemberIds self) (seatMap self).
Definition setDestination (self : t) (destination : string) : t :=
  mk (flightId self) (origin self) destination (departureTime self) (arrivalTime self)
     (aircraftId self) (crewMemberIds self) (seatMap self).
Definition setDepartureTime (self : t) (time : DateTime.t) : t :=
  mk (flightId self) (origin self) (destination self) time (arrivalTime self)
     (aircraftId self) (crewMemberIds self) (seatMap self).
Definition setArrivalTime (self : t) (time : DateTime.t) : t :=
  mk (flightId self) (origin self) (destination self) (departureTime self) time
     (aircraftId self) (crewMemberIds self) (seatMap self).
Definition setAircraftId (self : t) (id : string) : t :=
  mk (flightId self) (origin self) (destination self) (departureTime self)
     (arrivalTime self) id (crewMemberIds self) (seatMap self).
Definition setCrewMemberIds (self : t) (ids : list string) : t :=
  mk (flightId self) (origin self) (destination self) (departureTime self)
     (arrivalTime self) (aircraftId self) ids (seatMap self).

(** [crewMemberIds.push_back(id)]. *)
Definition addCrewMemberId (self : t) (id : string) : t :=
  setCrewMemberIds self (crewMemberIds self ++ [id]).

(** [std::find] then [erase]: the list without the first occurrence of
    [id], when there is one. *)
Fixpoint erase_first (id : string) (ids : list string) : option (list string) :=
  match ids with
  | [] => None
  | x :: rest =>
      if String.eqb x id then Some rest
      else option_map (cons x) (erase_first id rest)
  end.

(** [removeCrewMemberId]: the returned flag and the object afterwards. *)
Definition removeCrewMemberId (self : t) (id : string) : bool * t :=
  match erase_first id (crewMemberIds self) with
  | Some ids => (true, setCrewMemberIds self ids)
  | None => (false, self)
  end.

End FlightModel.

(** ** Users *)

Module UserModel.

Inductive UserType : Type := Passenger | BookingManager | Admin | INVALID.

(** The class of the object behind a [shared_ptr<UserModel>]; only a
    [Passenger] carries loyalty points. *)
Inductive Class : Type :=
| PassengerClass (loyaltyPoints : float)
| BookingManagerClass
| AdminClass.

Record t : Type := mk {
  userId : string;
  username : string;
  password : string;
  role : UserType;
  class : Class
}.

Definition UserType_eqb (a b : UserType) : bool :=
  match a, b with
  | Passenger, Passenger | BookingManager, BookingManager
  | Admin, Admin | INVALID, INVALID => true
  | _, _ => false
  end.

(** [std::dynamic_pointer_cast<Passenger>(user)] followed by
    [getLoyaltyPoints()]; [None] is the null pointer. *)
Definition as_Passenger (u : t) : option float :=
  match class u with
  | PassengerClass loyaltyPoints => Some loyaltyPoints
  | _ => None
  end.

(** [passenger->setLoyaltyPoints(points)] on an object that is a
    [Passenger]. *)
Definition setLoyaltyPoints (u : t) (points : float) : t :=
  match class u with
  | PassengerClass _ =>
      mk (userId u) (username u) (password u) (role u) (PassengerClass points)
  | _ => u
  end.

End UserModel.

(** ** Payment strategies *)

Module PaymentStrategy.

Inductive t : Type :=
| CashPayment
| CreditPayment (creditCardNumber expirationDate cvv : string)
| PaypalPayment (paypalEmail : string).

Definition getType (s : t) : string :=
  match s with
  | CashPayment => "cash"
  | CreditPayment _ _ _ => "credit"
  | PaypalPayment _ => "paypal"
  end.

Definition getDetails (s : t) : JSON :=
  match s with
  | CashPayment => JNull
  | CreditPayment number expiry cvv =>
      JObject [("cardNumber", JString number);
               ("expirationDate", JString expiry);
               ("cvv", JString cvv)]
  | PaypalPayment email => JObject [("email", JString email)]
  end.

(** [PaypalPayment(email)]. *)
Definition PaypalPayment_ctor (email : string) : outcome t :=
  let? _ := throw_if (str_empty email) invalid_argument in
  match find_char_from email "@" 0 with
  | None => Throw invalid_argument
  | Some atPos =>
      let? domainString := substr_from email (atPos + 1) in
      let? _ := throw_if (negb (String.eqb domainString "paypal.com")) invalid_argument in
      Ok (PaypalPayment email)
  end.

(** [CreditPayment(number, expiry, cvv)]. *)
Definition CreditPayment_ctor (number expiry cvv_code : string) : outcome t :=
  let? _ := throw_if (str_empty number || str_empty expiry || str_empty cvv_code)
                     invalid_argument in
  let? _ := throw_if (negb (str_size number =? 16)%nat) invalid_argument in
  let? _ := throw_if (negb (str_size expiry =? 5)%nat ||
                      negb (bool_decide (String.get 2 expiry = Some "/"%char)))
                     invalid_argument in
  let? _ := throw_if (negb (str_size cvv_code =? 3)%nat) invalid_argument in
  let? _ := throw_if (negb (str_forall isdigit cvv_code)) invalid_argument in
  let? _ := throw_if (negb (str_forall (fun c => isdigit c || Ascii.eqb c "/") expiry))
                     invalid_argument in
  let? _ := throw_if (negb (str_forall isdigit number)) invalid_argument in
  Ok (CreditPayment number expiry cvv_code).

(** [PaymentStrategyFactory::createPaymentStrategy(type, details)]; a
    returned pointer is never null. *)
Definition createPaymentStrategy (type : string) (details : JSON) : outcome t :=
  if String.eqb type "paypal" then
    let? _ := throw_if (negb (json_contains details "email")) invalid_argument in
    let? email := (let? j := json_at details "email" in get_string j) in
    let? _ := throw_if (str_empty email) invalid_argument in
    PaypalPayment_ctor email
  else if String.eqb type "credit" then
    let? _ := throw_if (negb (json_contains details "cardNumber") ||
                        negb (json_contains details "expirationDate") ||
                        negb (json_contains details "cvv")) invalid_argument in
    let? cardNumber := (let? j := json_at details "cardNumber" in get_string j) in
    let? expirationDate := (let? j := json_at details "expirationDate" in get_string j) in
    let? cvv := (let? j := json_at details "cvv" in get_string j) in
    let? _ := throw_if (str_empty cardNumber || str_empty expirationDate || str_empty cvv)
                       invalid_argument in
    CreditPayment_ctor cardNumber expirationDate cvv
  else if String.eqb type "cash" then Ok CashPayment
  else Throw invalid_argument.

(** [CreditPayment::maskCardNumber]: [substr(length() - 4)] throws when
    the number has fewer than four characters. *)
Definition maskCardNumber (creditCardNumber : string) : outcome string :=
  if (str_size creditCardNumber <? 4)%nat then Throw out_of_range
  else
    let? tail := substr_from creditCardNumber (str_size creditCardNumber - 4) in
    Ok ("****-****-****-" ++ tail).

Section Messages.

(** [std::to_string(double)], which the C++ library defines. *)
Variable to_string_double : float -> string.

Definition processPayment (s : t) (amount : float) : outcome string :=
  match s with
  | CashPayment =>
      Ok ("Cash payment of " ++ to_string_double amount ++ " processed successfully.")
  | CreditPayment number _ _ =>
      let? masked := maskCardNumber number in
      Ok ("Credit card payment of " ++ to_string_double amount
          ++ " using credit card number " ++ masked ++ " processed successfully.")
  | PaypalPayment email =>
      Ok ("PayPal payment of " ++ to_string_double amount ++ " using " ++ email
          ++ " processed successfully.")
  end.

Definition refundPayment (s : t) (amount : float) : outcome string :=
  match s with
  | CashPayment =>
      Ok ("Cash payment of " ++ to_string_double amount ++ " refunded successfully.")
  | CreditPayment number _ _ =>
      let? masked := maskCardNumber number in
      Ok ("Credit card refund of " ++ to_string_double amount
          ++ " to credit card number " ++ masked ++ " processed successfully.")
  | PaypalPayment email =>
      Ok ("PayPal payment of " ++ to_string_double amount ++ " using " ++ email
          ++ " refunded successfully.")
  end.

End Messages.

End PaymentStrategy.

(** ** PaymentModel *)

Module PaymentModel.

Inductive PaymentStatus : Type := COMPLETED | PENDING | REFUNDED.

Record t : Type := mk {
  paymentId : string;
  passengerId : string;
  amount : float;                                  (* double *)
  paymentStrategy : option PaymentStrategy.t;      (* shared_ptr, may be null *)
  paymentDate : DateTime.t;
  status : PaymentStatus
}.

(** [PaymentModel(passengerId, amount, strategy, status, paymentDate)];
    [now] is what [DateTime::now()] reads. *)
Definition ctor (users : gmap string UserModel.t) (payments : gmap string t)
    (draws : list Z) (now : DateTime.t) (passengerId : string) (amount : float)
    (strategy : option PaymentStrategy.t) (status : PaymentStatus)
    (paymentDate : DateTime.t) : outcome t * list Z :=
  if str_empty passengerId || fle amount f0 ||
     match strategy with None => true | Some _ => false end
  then (Throw invalid_argument, draws)
  else if negb (bool_decide (is_Some (users !! passengerId)))
  then (Throw invalid_argument, draws)
  else
    let (r, draws') :=
      generate_fresh_id "PAY-" (fun id => bool_decide (is_Some (payments !! id))) draws in
    (let? id := r in
     Ok (mk id passengerId amount strategy
            (if DateTime.isValid paymentDate then paymentDate else now) status),
     draws').

(** [PaymentModel(const JSON&)]. *)
Definition from_json (users : gmap string UserModel.t) (json : JSON) : outcome t :=
  let? _ := require_keys json ["id"; "passengerId"; "amount"; "method";
                               "paymentDate"; "status"] in
  let? paymentId := (let? j := json_at json "id" in get_string j) in
  let? _ := throw_if (lacks_prefix paymentId "PAY-") invalid_argument in
  let? passengerId := (let? j := json_at json "passengerId" in get_string j) in
  let? _ := throw_if (negb (bool_decide (is_Some (users !! passengerId))))
                     invalid_argument in
  let? amount := (let? j := json_at json "amount" in get_double j) in
  let? _ := throw_if (fle amount f0) invalid_argument in
  let? strategyType := (let? j := json_at json "method" in get_string j) in
  let? paymentStrategy :=
    (let? details := json_at json "details" in
     PaymentStrategy.createPaymentStrategy strategyType details) in
  let? paymentDate :=
    (let? j := json_at json "paymentDate" in
     let? s := get_string j in DateTime.from_string s) in
  let? _ := throw_if (negb (DateTime.isValid paymentDate)) invalid_argument in
  let? statusStr := (let? j := json_at json "status" in get_string j) in
  if String.eqb statusStr "COMPLETED" then
    Ok (mk paymentId passengerId amount (Some paymentStrategy) paymentDate COMPLETED)
  else if String.eqb statusStr "REFUNDED" then
    Ok (mk paymentId passengerId amount (Some paymentStrategy) paymentDate REFUNDED)
  else Throw invalid_argument.

Definition to_json (self : t) : JSON :=
  let json :=
    JObject [("id", JString (paymentId self));
             ("passengerId", JString (passengerId self));
             ("amount", JFloat (amount self));
             ("method", JString (match paymentStrategy self with
                                 | Some s => PaymentStrategy.getType s
                                 | None => "UNKNOWN"
                                 end));
             ("paymentDate", JString (DateTime.toString (paymentDate self)));
             ("details", match paymentStrategy self with
                         | Some s => PaymentStrategy.getDetails s
                         | None => JNull
                         end)] in
  match status self with
  | COMPLETED => json_set json "status" (JString "COMPLETED")
  | REFUNDED => json_set json "status" (JString "REFUNDED")
  | _ => json_set json "status" (JString "UNKNOWN")
  end.

Definition with_status (self : t) (status : PaymentStatus) : t :=
  mk (paymentId self) (passengerId self) (amount self) (paymentStrategy self)
     (paymentDate self) status.

(** [processPayment]: the status is set first, then the strategy is
    called through its pointer; the pair is what the call gives and the
    object afterwards. *)
Definition processPayment (to_string_double : float -> string) (self : t)
    : outcome string * t :=
  let self' := with_status self COMPLETED in
  match paymentStrategy self with
  | Some s => (PaymentStrategy.processPayment to_string_double s (amount self), self')
  | None => (Undefined, self')
  end.

Definition refundPayment (to_string_double : float -> string) (self : t)
    : outcome string * t :=
  let self' := with_status self REFUNDED in
  match paymentStrategy self with
  | Some s => (PaymentStrategy.refundPayment to_string_double s (amount self), self')
  | None => (Undefined, self')
  end.

End PaymentModel.

(** ** ReservationModel *)

Module ReservationModel.

Inductive ReservationStatus : Type := CONFIRMED | CANCELLED.

Record t : Type := mk {
  reservationId : string;
  flightId : string;
  passengerId : string;
  seatNumber : string;
  status : ReservationStatus;
  paymentId : string
}.

Definition is_confirmed (s : ReservationStatus) : bool :=
  match s with CONFIRMED => true | CANCELLED => false end.

(** [ReservationModel(flightId, passengerId, seatNumber, status,
    paymentId)]. *)
Definition ctor (users : gmap string UserModel.t)
    (flights : gmap string FlightModel.t) (reservations : gmap string t)
    (payments : gmap string PaymentModel.t) (draws : list Z)
    (flightId passengerId seatNumber : string) (status : ReservationStatus)
    (paymentId : string) : outcome t * list Z :=
  if negb (bool_decide (is_Some (users !! passengerId)))
  then (Throw invalid_argument, draws)
  else if negb (bool_decide (is_Some (flights !! flightId)))
  then (Throw invalid_argument, draws)
  else if negb (bool_decide (is_Some (payments !! paymentId)))
  then (Throw invalid_argument, draws)
  else
    let (r, draws') :=
      generate_fresh_id "RES-" (fun id => bool_decide (is_Some (reservations !! id)))
                        draws in
    (let? reservationId := r in
     Ok (mk reservationId flightId passengerId seatNumber status paymentId),
     draws').

(** [ReservationModel(const JSON&)]. The flight found in the
    FlightRepository is updated in place, so the call returns the content
    of the FlightRepository as it leaves it, also when it throws. *)
Definition from_json (aircrafts : gmap string AircraftModel.t)
    (users : gmap string UserModel.t) (flights : gmap string FlightModel.t)
    (payments : gmap string PaymentModel.t) (json : JSON)
    : outcome t * gmap string FlightModel.t :=
  let before :=
    let? _ := require_keys json ["id"; "flightId"; "passengerId"; "seatNumber";
                                 "status"; "paymentId"] in
    let? reservationId := (let? j := json_at json "id" in get_string j) in
    let? _ := throw_if (lacks_prefix reservationId "RES-") invalid_argument in
    let? flightId := (let? j := json_at json "flightId" in get_string j) in
    let? _ := throw_if (negb (bool_decide (is_Some (flights !! flightId))))
                       invalid_argument in
    let? passengerId := (let? j := json_at json "passengerId" in get_string j) in
    let? _ := throw_if (negb (bool_decide (is_Some (users !! passengerId))))
                       invalid_argument in
    let? statusStr := (let? j := json_at json "status" in get_string j) in
    let? status :=
      (if String.eqb statusStr "CONFIRMED" then Ok CONFIRMED
       else if String.eqb statusStr "CANCELLED" then Ok CANCELLED
       else Throw invalid_argument) in
    let? seatNumber := (let? j := json_at json "seatNumber" in get_string j) in
    match flights !! flightId with
    | None => Throw invalid_argument
    | Some flight =>
        let? flight' :=
          FlightModel.setSeatStatus aircrafts flight seatNumber (is_confirmed status) in
        Ok (reservationId, flightId, passengerId, status, seatNumber, flight')
    end in
  match before with
  | Ok (reservationId, flightId, passengerId, status, seatNumber, flight') =>
      let flights' := <[flightId := flight']> flights in
      (let? paymentId := (let? j := json_at json "paymentId" in get_string j) in
       let? _ := throw_if (negb (bool_decide (is_Some (payments !! paymentId))))
                          invalid_argument in
       Ok (mk reservationId flightId passengerId seatNumber status paymentId),
       flights')
  | Throw e => (Throw e, flights)
  | Undefined => (Undefined, flights)
  | Diverge => (Diverge, flights)
  end.

Definition to_json (self : t) : JSON :=
  JObject [("id", JString (reservationId self));
           ("flightId", JString (flightId self));
           ("passengerId", JString (passengerId self));
           ("seatNumber", JString (seatNumber self));
           ("status", JString (if is_confirmed (status self)
                               then "CONFIRMED" else "CANCELLED"));
           ("paymentId", JString (paymentId self))].

(** [setSeatNumber]: the old seat is freed, the field is assigned, the new
    seat is marked. The triple is what the call gives, the reservation
    afterwards and the content of the FlightRepository afterwards: a throw
    of the second [setSeatStatus] leaves the first one and the assignment
    done. *)
Definition setSeatNumber (aircrafts : gmap string AircraftModel.t)
    (flights : gmap string FlightModel.t) (self : t) (seatNumber : string)
    : outcome unit * t * gmap string FlightModel.t :=
  match flights !! flightId self with
  | None => (Throw invalid_argument, self, flights)
  | Some flight =>
      match FlightModel.setSeatStatus aircrafts flight (ReservationModel.seatNumber self)
              false with
      | Ok flight1 =>
          let self' := mk (reservationId self) (flightId self) (passengerId self)
                          seatNumber (status self) (paymentId self) in
          match FlightModel.setSeatStatus aircrafts flight1 seatNumber true with
          | Ok flight2 => (Ok tt, self', <[flightId self := flight2]> flights)
          | Throw e => (Throw e, self', <[flightId self := flight1]> flights)
          | Undefined => (Undefined, self', <[flightId self := flight1]> flights)
          | Diverge => (Diverge, self', <[flightId self := flight1]> flights)
          end
      | Throw e => (Throw e, self, flights)
      | Undefined => (Undefined, self, flights)
      | Diverge => (Diverge, self, flights)
      end
  end.

End ReservationModel.

(** ** The state of the process

    The singleton repositories after they have loaded their files, the
    numbers [IDGenerator] is going to draw and what [DateTime::now()] reads
    (one reading for the calls modelled here, none of which depends on
    the time passing). *)

Record World : Type := mkWorld {
  users : gmap string UserModel.t;
  flights : gmap string FlightModel.t;
  aircrafts : gmap string AircraftModel.t;
  crewMembers : gmap string CrewMemberModel.t;
  reservations : gmap string ReservationModel.t;
  payments : gmap string PaymentModel.t;
  draws : list Z;
  now : DateTime.t
}.

Definition with_users (w : World) (us : gmap string UserModel.t) : World :=
  mkWorld us (flights w) (aircrafts w) (crewMembers w) (reservations w)
          (payments w) (draws w) (now w).
Definition with_flights (w : World) (fs : gmap string FlightModel.t) : World :=
  mkWorld (users w) fs (aircrafts w) (crewMembers w) (reservations w)
          (payments w) (draws w) (now w).
Definition with_reservations (w : World) (rs : gmap string ReservationModel.t) : World :=
  mkWorld (users w) (flights w) (aircrafts w) (crewMembers w) rs
          (payments w) (draws w) (now w).
Definition with_payments (w : World) (ps : gmap string PaymentModel.t) : World :=
  mkWorld (users w) (flights w) (aircrafts w) (crewMembers w) (reservations w)
          ps (draws w) (now w).
Definition with_draws (w : World) (ds : list Z) : World :=
  mkWorld (users w) (flights w) (aircrafts w) (crewMembers w) (reservations w)
          (payments w) ds (now w).
Definition with_aircrafts (w : World) (acs : gmap string AircraftModel.t) : World :=
  mkWorld (users w) (flights w) acs (crewMembers w) (reservations w)
          (payments w) (draws w) (now w).
Definition with_crewMembers (w : World) (cms : gmap string CrewMemberModel.t) : World :=
  mkWorld (users w) (flights w) (aircrafts w) cms (reservations w)
          (payments w) (draws w) (now w).

(** A call that reads and updates the state; what it changed before it
    threw stays changed. *)
Definition M (A : Type) : Type := World -> outcome A * World.

Definition ret {A : Type} (a : A) : M A := fun w => (Ok a, w).

Definition bind {A B : Type} (m : M A) (k : A -> M B) : M B :=
  fun w =>
    match m w with
    | (Ok a, w') => k a w'
    | (Throw e, w') => (Throw e, w')
    | (Undefined, w') => (Undefined, w')
    | (Diverge, w') => (Diverge, w')
    end.

Definition lift {A : Type} (x : outcome A) : M A := fun w => (x, w).

(** [try { body } catch (const std::exception&) { handler }]. *)
Definition try_catch {A : Type} (body : M A) (handler : M A) : M A :=
  fun w =>
    match body w with
    | (Throw _, w') => handler w'
    | r => r
    end.

Declare Scope world_scope.
Delimit Scope world_scope with world.
Notation "'let!' x ':=' c 'in' k" := (bind c (fun x => k))
  (at level 10, x name, c at level 100, k at level 200) : world_scope.
Local Open Scope world_scope.

(** ** Repositories *)

Module UserRepository.
Definition findUserById (userId : string) : M (option UserModel.t) :=
  fun w => (Ok (users w !! userId), w).
End UserRepository.

Module FlightRepository.
Definition findFlightById (flightId : string) : M (option FlightModel.t) :=
  fun w => (Ok (flights w !! flightId), w).

Definition addFlight (newFlight : FlightModel.t) : M bool :=
  fun w =>
    match flights w !! FlightModel.flightId newFlight with
    | Some _ => (Ok false, w)
    | None =>
        (Ok true, with_flights w (<[FlightModel.flightId newFlight := newFlight]> (flights w)))
    end.

Definition updateFlight (flight : FlightModel.t) : M bool :=
  fun w =>
    match flights w !! FlightModel.flightId flight with
    | None => (Ok false, w)
    | Some _ =>
        (Ok true, with_flights w (<[FlightModel.flightId flight := flight]> (flights w)))
    end.

Definition deleteFlight (flightId : string) : M bool :=
  fun w =>
    match flights w !! flightId with
    | None => (Ok false, w)
    | Some _ => (Ok true, with_flights w (delete flightId (flights w)))
    end.

End FlightRepository.

Module AircraftRepository.
Definition findAircraftById (aircraftId : string) : M (option AircraftModel.t) :=
  fun w => (Ok (aircrafts w !! aircraftId), w).

(** Flights that use the aircraft are not looked at. *)
Definition deleteAircraft (aircraftId : string) : M bool :=
  fun w =>
    match aircrafts w !! aircraftId with
    | None => (Ok false, w)
    | Some _ =>
        (Ok true,
         mkWorld (users w) (flights w) (delete aircraftId (aircrafts w)) (crewMembers w)
                 (reservations w) (payments w) (draws w) (now w))
    end.

Definition addAircraft (newAircraft : AircraftModel.t) : M bool :=
  fun w =>
    match aircrafts w !! AircraftModel.aircraftId newAircraft with
    | Some _ => (Ok false, w)
    | None =>
        (Ok true,
         with_aircrafts w (<[AircraftModel.aircraftId newAircraft := newAircraft]>
                             (aircrafts w)))
    end.

Definition updateAircraft (aircraft : AircraftModel.t) : M bool :=
  fun w =>
    match aircrafts w !! AircraftModel.aircraftId aircraft with
    | None => (Ok false, w)
    | Some _ =>
        (Ok true,
         with_aircrafts w (<[AircraftModel.aircraftId aircraft := aircraft]> (aircrafts w)))
    end.

End AircraftRepository.

Module PaymentRepository.
Definition findPaymentById (paymentId : string) : M (option PaymentModel.t) :=
  fun w => (Ok (payments w !! paymentId), w).

Definition addPayment (newPayment : PaymentModel.t) : M bool :=
  fun w =>
    match payments w !! PaymentModel.paymentId newPayment with
    | Some _ => (Ok false, w)
    | None =>
        (Ok true,
         with_payments w (<[PaymentModel.paymentId newPayment := newPayment]> (payments w)))
    end.

Definition updatePayment (payment : PaymentModel.t) : M bool :=
  fun w =>
    match payments w !! PaymentModel.paymentId payment with
    | None => (Ok false, w)
    | Some _ =>
        (Ok true,
         with_payments w (<[PaymentModel.paymentId payment := payment]> (payments w)))
    end.

(** As the source has it: [false] when the payment is found, and
    otherwise [erase] of an identifier that is not there. *)
Definition deletePayment (paymentId : string) : M bool :=
  fun w =>
    match payments w !! paymentId with
    | Some _ => (Ok false, w)
    | None => (Ok true, with_payments w (delete paymentId (payments w)))
    end.

End PaymentRepository.

Module ReservationRepository.
Definition findReservationById (reservationId : string) : M (option ReservationModel.t) :=
  fun w => (Ok (reservations w !! reservationId), w).

Definition addReservation (newReservation : ReservationModel.t) : M bool :=
  fun w =>
    match reservations w !! ReservationModel.reservationId newReservation with
    | Some _ => (Ok false, w)
    | None =>
        (Ok true,
         with_reservations w
           (<[ReservationModel.reservationId newReservation := newReservation]>
              (reservations w)))
    end.

Definition deleteReservation (reservationId : string) : M bool :=
  fun w =>
    match reservations w !! reservationId with
    | None => (Ok false, w)
    | Some _ => (Ok true, with_reservations w (delete reservationId (reservations w)))
    end.

Definition updateReservation (reservation : ReservationModel.t) : M bool :=
  fun w =>
    match reservations w !! ReservationModel.reservationId reservation with
    | None => (Ok false, w)
    | Some _ =>
        (Ok true,
         with_reservations w
           (<[ReservationModel.reservationId reservation := reservation]>
              (reservations w)))
    end.

End ReservationRepository.

(** [flight->setSeatStatus(seatNumber, status)] on the flight the
    FlightRepository returned for [key]: the object in the repository is
    the one updated. [flight] is that object as it was returned; no call
    modelled here changes a flight between fetching it and updating it. *)
Definition flight_ptr_setSeatStatus (key : string) (flight : FlightModel.t)
    (seatNumber : string) (status : bool) : M unit :=
  fun w =>
    match FlightModel.setSeatStatus (aircrafts w) flight seatNumber status with
    | Ok flight' => (Ok tt, with_flights w (<[key := flight']> (flights w)))
    | Throw e => (Throw e, w)
    | Undefined => (Undefined, w)
    | Diverge => (Diverge, w)
    end.

(** [flight->getSeatStatus(seatNumber)]. *)
Definition flight_ptr_getSeatStatus (flight : FlightModel.t) (seatNumber : string) : M bool :=
  fun w => (FlightModel.getSeatStatus (aircrafts w) flight seatNumber, w).

(** [passenger->setLoyaltyPoints(points)] on the user the UserRepository
    returned for [key]. *)
Definition passenger_ptr_setLoyaltyPoints (key : string) (user : UserModel.t)
    (points : float) : M unit :=
  fun w => (Ok tt, with_users w (<[key := UserModel.setLoyaltyPoints user points]> (users w))).

(** ** PaymentService *)

Module PaymentService.

(** [std::make_shared<PaymentModel>(passengerId, amount, paymentStrategy)]
    with the default status [PENDING] and the default date
    [DateTime::now()]. *)
Definition make_payment (passengerId : string) (amount : float)
    (strategy : PaymentStrategy.t) : M PaymentModel.t :=
  fun w =>
    let (r, draws') :=
      PaymentModel.ctor (users w) (payments w) (draws w) (now w) passengerId amount
                        (Some strategy) PaymentModel.PENDING (now w) in
    (r, with_draws w draws').

Definition createPayment (passengerId : string) (amount : float) (method : string)
    (paymentDetails : JSON) : M (option PaymentModel.t) :=
  try_catch
    (let! paymentStrategy := lift (PaymentStrategy.createPaymentStrategy method paymentDetails) in
     let! payment := make_payment passengerId amount paymentStrategy in
     let! added := PaymentRepository.addPayment payment in
     if negb added then ret None
     else PaymentRepository.findPaymentById (PaymentModel.paymentId payment))
    (ret None).

(** [processPayment]: the payment in the repository is the one whose
    status changes. *)
Definition processPayment (to_string_double : float -> string) (paymentId : string)
    : M string :=
  let! paymentOpt := PaymentRepository.findPaymentById paymentId in
  match paymentOpt with
  | None => ret "Payment not found"
  | Some payment =>
      fun w =>
        let (r, payment') := PaymentModel.processPayment to_string_double payment in
        (r, with_payments w (<[paymentId := payment']> (payments w)))
  end.

Definition refundPayment (to_string_double : float -> string) (paymentId : string)
    : M string :=
  let! paymentOpt := PaymentRepository.findPaymentById paymentId in
  match paymentOpt with
  | None => ret "Payment not found"
  | Some payment =>
      fun w =>
        let (r, payment') := PaymentModel.refundPayment to_string_double payment in
        (r, with_payments w (<[paymentId := payment']> (payments w)))
  end.

End PaymentService.

(** ** ReservationService *)

Module ReservationService.

Definition getSeatPrice (seatNumber : string) (loyaltyPoints : float) : outcome float :=
  let? basePrice :=
    (if negb (str_empty seatNumber) then
       let? rowStr := substr seatNumber 0 (str_size seatNumber - 1) in
       let? row := stoi rowStr in
       match str_back seatNumber with
       | None => Undefined (* not reached: the string is not empty *)
       | Some col =>
           let basePrice :=
             if (1 <=? row) && (row <=? 5) then f200
             else if (6 <=? row) && (row <=? 15) then f150
             else f100 in
           Ok (if Ascii.eqb col "A" || Ascii.eqb col "F" then fadd32 basePrice f20
               else if Ascii.eqb col "C" || Ascii.eqb col "D" then fadd32 basePrice f10
               else basePrice)
       end
     else Ok f100) in
  let maxDiscount := fmul32 basePrice f0_3 in
  let discount := std_min loyaltyPoints maxDiscount in
  Ok (fsub32 basePrice discount).

(** The loyalty points after a booking at [seatPrice]. *)
Definition adjust_loyaltyPoints (loyaltyPoints seatPrice : float) : float :=
  if fgt loyaltyPoints f0 then
    let deduction := std_min loyaltyPoints (fmul32 seatPrice f0_1) in
    fsub32 loyaltyPoints deduction
  else
    let loyaltyPoints := fadd32 loyaltyPoints (fmul32 seatPrice f0_1) in
    if fgt loyaltyPoints f100 then f100 else loyaltyPoints.

(** [ReservationModelBuilder()....build()] with the default status
    [CONFIRMED]. *)
Definition build_reservation (flightId passengerId seatNumber paymentId : string)
    : M ReservationModel.t :=
  fun w =>
    if str_empty flightId || str_empty passengerId ||
       str_empty seatNumber || str_empty paymentId
    then (Throw invalid_argument, w)
    else
      let (r, draws') :=
        ReservationModel.ctor (users w) (flights w) (reservations w) (payments w)
                              (draws w) flightId passengerId seatNumber
                              ReservationModel.CONFIRMED paymentId in
      (r, with_draws w draws').

Definition addReservation (flightId seatNumber passengerId paymentMethod : string)
    (paymentDetails : JSON) : M (option ReservationModel.t) :=
  let! userOpt := UserRepository.findUserById passengerId in
  match userOpt with
  | None => ret None
  | Some user =>
      if negb (UserModel.UserType_eqb (UserModel.role user) UserModel.Passenger)
      then ret None
      else
        match UserModel.as_Passenger user with
        | None => ret None
        | Some loyaltyPoints =>
            let! flightOpt := FlightRepository.findFlightById flightId in
            match flightOpt with
            | None => ret None
            | Some flight =>
                let! booked := flight_ptr_getSeatStatus flight seatNumber in
                if (booked : bool) then ret None (* Seat already booked *)
                else
                  let! seatPrice := lift (getSeatPrice seatNumber loyaltyPoints) in
                  let loyaltyPoints' := adjust_loyaltyPoints loyaltyPoints seatPrice in
                  let! paymentOpt := PaymentService.createPayment passengerId seatPrice
                                  paymentMethod paymentDetails in
                  match paymentOpt with
                  | None => ret None
                  | Some payment =>
                      let! reservation := build_reservation flightId passengerId seatNumber
                                       (PaymentModel.paymentId payment) in
                      let! added := ReservationRepository.addReservation reservation in
                      if (added : bool) then
                        let! _ := flight_ptr_setSeatStatus flightId flight seatNumber true in
                        let! _ := passenger_ptr_setLoyaltyPoints passengerId user loyaltyPoints' in
                        ReservationRepository.findReservationById
                          (ReservationModel.reservationId reservation)
                      else ret None
                  end
            end
        end
  end.

Definition deleteReservation (reservationId : string) : M bool :=
  let! reservationOpt := ReservationRepository.findReservationById reservationId in
  match reservationOpt with
  | None => ret false
  | Some reservation =>
      let! flightOpt := FlightRepository.findFlightById
                     (ReservationModel.flightId reservation) in
      let! _ := match flightOpt with
           | Some flight =>
               flight_ptr_setSeatStatus (ReservationModel.flightId reservation) flight
                 (ReservationModel.seatNumber reservation) false
           | None => ret tt
           end in
      ReservationRepository.deleteReservation reservationId
  end.

(** [flight->setSeatStatus(seatNumber, status)] through a pointer that was
    fetched under [key] earlier in the call, when other pointers to the
    same flight may have updated it since: the object is the one the
    repository holds now. *)
Definition flight_at_setSeatStatus (key seatNumber : string) (status : bool) : M unit :=
  fun w =>
    match flights w !! key with
    | Some flight => flight_ptr_setSeatStatus key flight seatNumber status w
    | None => (Undefined, w) (* not reached: no flight is removed during a call *)
    end.

Definition updateReservation (reservation : ReservationModel.t) : M bool :=
  let! oldReservationOpt :=
    ReservationRepository.findReservationById
      (ReservationModel.reservationId reservation) in
  match oldReservationOpt with
  | None => ret false
  | Some oldReservation =>
      let oldSeatNumber := ReservationModel.seatNumber oldReservation in
      let oldFlightId := ReservationModel.flightId oldReservation in
      let seatChanged :=
        negb (String.eqb (ReservationModel.flightId oldReservation)
                         (ReservationModel.flightId reservation)) ||
        negb (String.eqb (ReservationModel.seatNumber oldReservation)
                         (ReservationModel.seatNumber reservation)) in
      let! newFlightOpt :=
        FlightRepository.findFlightById (ReservationModel.flightId reservation) in
      match newFlightOpt with
      | None => ret false (* New flight does not exist *)
      | Some newFlight =>
          let! booked :=
            (if seatChanged
             then flight_ptr_getSeatStatus newFlight
                    (ReservationModel.seatNumber reservation)
             else ret false) in
          if (booked : bool) then ret false (* New seat already booked *)
          else
            let! updated := ReservationRepository.updateReservation reservation in
            if (updated : bool) then
              if seatChanged then
                let! oldFlightOpt := FlightRepository.findFlightById oldFlightId in
                let! _ :=
                  match oldFlightOpt with
                  | Some oldFlight =>
                      flight_ptr_setSeatStatus oldFlightId oldFlight oldSeatNumber false
                  | None => ret tt
                  end in
                let! _ :=
                  flight_at_setSeatStatus (ReservationModel.flightId reservation)
                    (ReservationModel.seatNumber reservation) true in
                ret true
              else ret true
            else ret false
      end
  end.

End ReservationService.

(** ** AircraftService, FlightService, UserManagementService *)

Module AircraftService.

Definition addAircraft (model : string) (capacity numOfRowSeats : Z)
    : M (option AircraftModel.t) :=
  let! newAircraft :=
    (fun w =>
       let (r, draws') :=
         AircraftModel.ctor (aircrafts w) (draws w) model capacity numOfRowSeats in
       (r, with_draws w draws')) in
  let! added := AircraftRepository.addAircraft newAircraft in
  if (added : bool)
  then AircraftRepository.findAircraftById (AircraftModel.aircraftId newAircraft)
  else ret None.

Definition updateAircraft (aircraft : AircraftModel.t) : M bool :=
  AircraftRepository.updateAircraft aircraft.

Definition deleteAircraft (aircraftId : string) : M bool :=
  AircraftRepository.deleteAircraft aircraftId.

End AircraftService.

Module FlightService.

(** [FlightModelBuilder()....build()] inside [addFlight]. *)
Definition build_flight (origin destination : string)
    (departureTime arrivalTime : DateTime.t) (aircraftId : string)
    (crewMemberIds : list string) : M FlightModel.t :=
  fun w =>
    if str_empty origin || str_empty destination || str_empty aircraftId
    then (Throw invalid_argument, w)
    else
      let (r, draws') :=
        FlightModel.ctor (aircrafts w) (crewMembers w) (flights w) (draws w) origin
                         destination departureTime arrivalTime aircraftId crewMemberIds in
      (r, with_draws w draws').

Definition addFlight (origin destination : string)
    (departureTime arrivalTime : DateTime.t) (aircraftId : string)
    (crewMemberIds : list string) : M (option FlightModel.t) :=
  let! flight := build_flight origin destination departureTime arrivalTime aircraftId
                   crewMemberIds in
  let! added := FlightRepository.addFlight flight in
  if (added : bool)
  then FlightRepository.findFlightById (FlightModel.flightId flight)
  else ret None.

(** [updateFlight(flightId, origin, destination, departureTime,
    arrivalTime, aircraftId)]: the five setters act on the flight the
    repository holds, then the repository replaces the entry it has under
    the identifier the flight carries. *)
Definition updateFlight (flightId origin destination : string)
    (departureTime arrivalTime : DateTime.t) (aircraftId : string) : M bool :=
  let! flightOpt := FlightRepository.findFlightById flightId in
  match flightOpt with
  | None => ret false
  | Some flight =>
      if negb (str_empty origin) && negb (str_empty destination) &&
         String.eqb origin destination
      then ret false (* Origin and destination cannot be the same *)
      else if negb (DateTime.isValid departureTime) || negb (DateTime.isValid arrivalTime)
              || DateTime.le arrivalTime departureTime
      then ret false (* Invalid date/time *)
      else
        let! aircraftOpt := AircraftRepository.findAircraftById aircraftId in
        if negb (str_empty aircraftId) &&
           match aircraftOpt with Some _ => false | None => true end
        then ret false (* Aircraft does not exist *)
        else
          let flight' :=
            FlightModel.setAircraftId
              (FlightModel.setArrivalTime
                 (FlightModel.setDepartureTime
                    (FlightModel.setDestination
                       (FlightModel.setOrigin flight origin) destination)
                    departureTime)
                 arrivalTime)
              aircraftId in
          let! _ := (fun w => (Ok tt, with_flights w (<[flightId := flight']> (flights w)))) in
          FlightRepository.updateFlight flight'
  end.

Definition deleteFlight (flightId : string) : M bool :=
  FlightRepository.deleteFlight flightId.

(** [addCrewToFlight(flightId, crewIds)]. *)
Definition setCrewOfFlight (flightId : string) (crewIds : list string) : M bool :=
  let! flightOpt := FlightRepository.findFlightById flightId in
  match flightOpt with
  | None => ret false
  | Some flight =>
      fun w =>
        (Ok true,
         with_flights w (<[flightId := FlightModel.setCrewMemberIds flight crewIds]>
                           (flights w)))
  end.

(** [addCrewToFlight(flightId, crewMemberId)]. *)
Definition addCrewToFlight (flightId crewMemberId : string) : M bool :=
  let! flightOpt := FlightRepository.findFlightById flightId in
  match flightOpt with
  | None => ret false
  | Some flight =>
      fun w =>
        (Ok true,
         with_flights w (<[flightId := FlightModel.addCrewMemberId flight crewMemberId]>
                           (flights w)))
  end.

Definition removeCrewMemberFromFlight (flightId crewMemberId : string) : M bool :=
  let! flightOpt := FlightRepository.findFlightById flightId in
  match flightOpt with
  | None => ret false
  | Some flight =>
      let (removed, flight') := FlightModel.removeCrewMemberId flight crewMemberId in
      if negb removed then ret false
      else
        let! _ := (fun w => (Ok tt, with_flights w (<[flightId := flight']> (flights w)))) in
        FlightRepository.updateFlight flight'
  end.

End FlightService.

Module UserManagementService.

Definition getUserRole (userId : string) : M UserModel.UserType :=
  let! userOpt := UserRepository.findUserById userId in
  match userOpt with
  | Some user => ret (UserModel.role user)
  | None => ret UserModel.INVALID
  end.

End UserManagementService.

(** ** Controllers *)

Module AdminController.

Definition confirmAdmin (adminId : string) : M bool :=
  let! role := UserManagementService.getUserRole adminId in
  ret (UserModel.UserType_eqb role UserModel.Admin).

(** One setter of [updateAircraft] on the aircraft the repository holds
    under [key]: what the setter changed stays changed. *)
Definition aircraft_ptr_set (key : string) (r : outcome AircraftModel.t)
    : M AircraftModel.t :=
  fun w =>
    match r with
    | Ok aircraft' => (Ok aircraft', with_aircrafts w (<[key := aircraft']> (aircrafts w)))
    | _ => (r, w)
    end.

Definition updateAircraft (adminId aircraftId model : string)
    (capacity numOfRowSeats : Z) : M bool :=
  let! isAdmin := confirmAdmin adminId in
  if negb isAdmin then ret false
  else
    let! aircraftOpt := AircraftRepository.findAircraftById aircraftId in
    match aircraftOpt with
    | None => ret false
    | Some aircraft =>
        let! a1 := aircraft_ptr_set aircraftId (Ok (AircraftModel.setModel aircraft model)) in
        let! a2 := aircraft_ptr_set aircraftId (AircraftModel.setCapacity a1 capacity) in
        let! a3 := aircraft_ptr_set aircraftId
                     (AircraftModel.setNumOfRowSeats a2 numOfRowSeats) in
        AircraftService.updateAircraft a3
    end.

Definition removeAircraft (adminId aircraftId : string) : M bool :=
  let! isAdmin := confirmAdmin adminId in
  if negb isAdmin then ret false else AircraftService.deleteAircraft aircraftId.

Definition removeFlight (adminId flightId : string) : M bool :=
  let! isAdmin := confirmAdmin adminId in
  if negb isAdmin then ret false else FlightService.deleteFlight flightId.

End AdminController.

Module PassengerController.

Definition authenticatePassenger (passengerId : string) : M bool :=
  let! role := UserManagementService.getUserRole passengerId in
  ret (UserModel.UserType_eqb role UserModel.Passenger).

(** [bookFlight]: the arguments go to [addReservation] in the order the
    source writes them, [(passengerId, flightId, seatNumber, ...)], while
    [addReservation] takes [(flightId, seatNumber, passengerId, ...)]. *)
Definition bookFlight (passengerId flightId seatNumber paymentType : string)
    (paymentDetails : JSON) : M (option ReservationModel.t) :=
  let! ok := authenticatePassenger passengerId in
  if negb ok then ret None
  else ReservationService.addReservation passengerId flightId seatNumber paymentType
         paymentDetails.

End PassengerController.

Module BookingManagerController.

Definition authenticateBookingManager (bookingManagerId : string) : M bool :=
  let! role := UserManagementService.getUserRole bookingManagerId in
  ret (UserModel.UserType_eqb role UserModel.BookingManager).

Definition createReservation (bookingManagerId passengerId flightId seatNumber
    paymentType : string) (paymentDetails : JSON) : M (option ReservationModel.t) :=
  let! ok := authenticateBookingManager bookingManagerId in
  if negb ok then ret None
  else ReservationService.addReservation flightId seatNumber passengerId paymentType
         paymentDetails.

Definition cancelReservation (bookingManagerId reservationId : string) : M bool :=
  let! ok := authenticateBookingManager bookingManagerId in
  if negb ok then ret false else ReservationService.deleteReservation reservationId.

End BookingManagerController.

(** * The vocabulary of the properties *)

(** ** Seat codes *)

Definition code_of (c : ascii) : Z := Z.of_N (N_of_ascii c).

(** A well-formed, in-range seat code as the specification words it: one
    or more digits that read as a row between 1 and [numRows], then exactly
    one letter between 'A' and 'A' + [seatsPerRow] - 1; [row] and [col] are
    the row minus one and the distance of the letter from 'A'. *)
Definition seat_code (numRows seatsPerRow : Z) (s : string) (row col : Z) : Prop :=
  exists (digits : string) (letter : ascii),
    s = digits ++ String letter "" /\
    digits <> "" /\ str_forall isdigit digits = true /\
    1 <= digits_value digits <= numRows /\
    65 <= code_of letter <= 65 + seatsPerRow - 1 /\
    row = digits_value digits - 1 /\ col = code_of letter - 65.

(** ** Seat prices *)

(** Base price by row band. *)
Definition base_price (row : Z) : float :=
  if (1 <=? row) && (row <=? 5) then f200
  else if (6 <=? row) && (row <=? 15) then f150
  else f100.

(** The column premium of the source: window seats are the columns 'A'
    and 'F', aisle seats the columns 'C' and 'D'. *)
Definition column_premium (letter : ascii) : float :=
  if Ascii.eqb letter "A" || Ascii.eqb letter "F" then f20
  else if Ascii.eqb letter "C" || Ascii.eqb letter "D" then f10
  else f0.

(** The column premium as the specification words it: the window seats
    are column 'A' and the last column of the aircraft. *)
Definition claimed_column_premium (seatsPerRow : Z) (letter : ascii) : float :=
  if (code_of letter =? 65) || (code_of letter =? 65 + seatsPerRow - 1) then f20
  else if Ascii.eqb letter "C" || Ascii.eqb letter "D" then f10
  else f0.

(** (base + premium) - min(loyaltyPoints, 0.3 * (base + premium)), in
    single precision. *)
Definition discounted (basePlusPremium loyaltyPoints : float) : float :=
  fsub32 basePlusPremium (std_min loyaltyPoints (fmul32 basePlusPremium f0_3)).

Definition seat_price (row : Z) (letter : ascii) (loyaltyPoints : float) : float :=
  discounted (fadd32 (base_price row) (column_premium letter)) loyaltyPoints.

Definition claimed_seat_price (seatsPerRow row : Z) (letter : ascii)
    (loyaltyPoints : float) : float :=
  discounted (fadd32 (base_price row) (claimed_column_premium seatsPerRow letter))
             loyaltyPoints.

(** ** Numerals and separators *)

(** [c] does not occur in [s]. *)
Definition free_of (c : ascii) (s : string) : bool :=
  str_forall (fun x => negb (Ascii.eqb c x)) s.

(** [s] is a non-empty string of digits that writes the [int] [n]. *)
Definition numeral (s : string) (n : Z) : Prop :=
  s <> "" /\ str_forall isdigit s = true /\ digits_value s = n /\ n <= INT_MAX.

(** ** Cells of the seat grid *)

(** The cell of a grid, when it has one there. *)
Definition cell (g : list (list bool)) (i j : nat) : option bool :=
  match g !! i with
  | Some row => row !! j
  | None => None
  end.

(** ** The calendar *)

Definition leap_year (y : Z) : bool :=
  (y mod 4 =? 0) && (negb (y mod 100 =? 0) || (y mod 400 =? 0)).

Definition days_in_month (y m : Z) : Z :=
  if m =? 2 then (if leap_year y then 29 else 28)
  else if (m =? 4) || (m =? 6) || (m =? 9) || (m =? 11) then 30
  else 31.

(** The strict lexicographic order on sequences of integers. *)
Fixpoint lex_lt (xs ys : list Z) : Prop :=
  match xs, ys with
  | x :: xs', y :: ys' => x < y \/ (x = y /\ lex_lt xs' ys')
  | _, _ => False
  end.

(** The fields of a date, the most significant first. *)
Definition date_fields (d : DateTime.t) : list Z :=
  [DateTime.year d; DateTime.month d; DateTime.day d; DateTime.hour d; DateTime.minute d].

(** ** The messages of a payment

    The sentences a payment answers with, for the amount as
    [std::to_string] prints it; of a card number the characters 13 to 16
    are shown. *)

Definition processed_message (amount : string) (s : PaymentStrategy.t) : string :=
  match s with
  | PaymentStrategy.CashPayment =>
      "Cash payment of " ++ amount ++ " processed successfully."
  | PaymentStrategy.CreditPayment number _ _ =>
      "Credit card payment of " ++ amount ++ " using credit card number "
      ++ ("****-****-****-" ++ String.substring 12 4 number) ++ " processed successfully."
  | PaymentStrategy.PaypalPayment email =>
      "PayPal payment of " ++ amount ++ " using " ++ email ++ " processed successfully."
  end.

Definition refunded_message (amount : string) (s : PaymentStrategy.t) : string :=
  match s with
  | PaymentStrategy.CashPayment =>
      "Cash payment of " ++ amount ++ " refunded successfully."
  | PaymentStrategy.CreditPayment number _ _ =>
      "Credit card refund of " ++ amount ++ " to credit card number "
      ++ ("****-****-****-" ++ String.substring 12 4 number) ++ " processed successfully."
  | PaymentStrategy.PaypalPayment email =>
      "PayPal payment of " ++ amount ++ " using " ++ email ++ " refunded successfully."
  end.

(** ** The geometry of a seat grid *)

(** The seat grid has the geometry of the aircraft: one row per row of
    seats, one cell per seat of the row. *)
Definition grid_matches (a : AircraftModel.t) (g : list (list bool)) : Prop :=
  Z.of_nat (length g) = AircraftModel.numOfRows a /\
  Forall (fun row => Z.of_nat (length row) = AircraftModel.numOfRowSeats a) g.

(** ** A small airline, for the examples *)

Module Example.

Definition aircraft : AircraftModel.t := AircraftModel.mk "AC-10001" "A320" 12 4 3.

Definition flight : FlightModel.t :=
  FlightModel.mk "FL-20001" "CAI" "LHR" (DateTime.mk 2025 1 5 9 30)
    (DateTime.mk 2025 1 5 14 0) "AC-10001" [] (replicate 3 (replicate 4 false)).

Definition passenger : UserModel.t :=
  UserModel.mk "PAS-30001" "bob" "secret" UserModel.Passenger
    (UserModel.PassengerClass f0).

Definition world : World :=
  mkWorld {[ "PAS-30001" := passenger ]} {[ "FL-20001" := flight ]}
          {[ "AC-10001" := aircraft ]} ∅ ∅ ∅ [41001; 41002; 41003; 41004]
          (DateTime.mk 2025 1 1 12 0).

(** The state after bob has booked seat 1D and paid cash. *)
Definition booked : World :=
  snd (ReservationService.addReservation "FL-20001" "1D" "PAS-30001" "cash" JNull world).

(** The state after an administrator has then removed the aircraft. *)
Definition aircraft_removed : World :=
  snd (AircraftRepository.deleteAircraft "AC-10001" booked).

Definition reservation_json : JSON :=
  JObject [("id", JString "RES-50001"); ("flightId", JString "FL-20001");
           ("passengerId", JString "PAS-30001"); ("seatNumber", JString "2C");
           ("status", JString "CONFIRMED"); ("paymentId", JString "PAY-41001")].

End Example.

(** * Properties *)

(** ** Outcomes *)

Lemma throw_if_Ok (cond : bool) (e : exn) (u : unit) :
  throw_if cond e = Ok u -> cond = false.
Proof. destruct cond; simpl; [discriminate | reflexivity]. Qed.

Lemma obind_Ok {A B : Type} (x : outcome A) (k : A -> outcome B) (b : B) :
  obind x k = Ok b -> exists a, x = Ok a /\ k a = Ok b.
Proof. destruct x; simpl; try discriminate. intros H. eauto. Qed.

(** Splits a hypothesis [let? x := c in k = Ok b] into [c = Ok x] and
    [k = Ok b], and turns a passed [throw_if] guard into its condition. *)
Ltac inv_ok :=
  repeat match goal with
  | H : obind _ _ = Ok _ |- _ =>
      let a := fresh "a" in
      let Ha := fresh "Ha" in
      apply obind_Ok in H; destruct H as (a & Ha & H)
  | H : throw_if _ _ = Ok _ |- _ => apply throw_if_Ok in H
  | H : Ok _ = Ok _ |- _ => injection H as H
  | H : Throw _ = Ok _ |- _ => discriminate H
  | H : Undefined = Ok _ |- _ => discriminate H
  | H : Diverge = Ok _ |- _ => discriminate H
  end.

(** ** The aircraft invariant *)

Section AircraftInvariant.

Import AircraftModel.

(** The four checks shared by the constructors establish the invariant. *)
Lemma checked_geometry (id m : string) (c n : Z) :
  (c <=? 0) = false -> (n <=? 0) = false -> (n >? MAX_SEATS_PER_ROW) = false ->
  negb (Z.rem c n =? 0) = false ->
  invariant (mk id m c n (Z.quot c n)).
Proof.
  unfold invariant, MAX_SEATS_PER_ROW. simpl. intros Hc Hn Hmax Hrem.
  apply negb_false_iff in Hrem.
  assert (0 < c) by lia. assert (0 < n) by lia. assert (n <= 26) by lia.
  assert (Z.rem c n = 0) by lia.
  rewrite Z.rem_mod_nonneg in * by lia.
  rewrite Z.quot_div_nonneg by lia. lia.
Qed.

Lemma ctor_invariant (aircrafts : gmap string t) (draws draws' : list Z)
    (m : string) (c n : Z) (a : t) :
  ctor aircrafts draws m c n = (Ok a, draws') -> invariant a.
Proof.
  unfold ctor. intros H.
  destruct (throw_if (str_empty m) invalid_argument) eqn:E1; simpl in H; try (inversion H; fail).
  destruct (throw_if (c <=? 0) invalid_argument) eqn:E2; simpl in H; try (inversion H; fail).
  destruct (throw_if (n <=? 0) invalid_argument) eqn:E3; simpl in H; try (inversion H; fail).
  destruct (throw_if (n >? MAX_SEATS_PER_ROW) invalid_argument) eqn:E4; simpl in H;
    try (inversion H; fail).
  destruct (throw_if (negb (Z.rem c n =? 0)) invalid_argument) eqn:E5; simpl in H;
    try (inversion H; fail).
  destruct (generate_fresh_id _ _ draws) as [r d] eqn:E6.
  injection H as H _. inv_ok. subst a.
  apply checked_geometry; assumption.
Qed.

Lemma from_json_invariant (json : JSON) (a : t) :
  from_json json = Ok a -> invariant a.
Proof.
  unfold from_json. intros H. inv_ok. subst a.
  apply checked_geometry; assumption.
Qed.

Lemma setCapacity_invariant (a a' : t) (c : Z) :
  invariant a -> setCapacity a c = Ok a' -> invariant a'.
Proof.
  unfold setCapacity. intros (_ & Hn & _ & _) H. inv_ok. subst a'.
  apply checked_geometry; try assumption; unfold MAX_SEATS_PER_ROW; lia.
Qed.

Lemma setNumOfRowSeats_invariant (a a' : t) (n : Z) :
  invariant a -> setNumOfRowSeats a n = Ok a' -> invariant a'.
Proof.
  unfold setNumOfRowSeats. intros (Hc & _ & _ & _) H. inv_ok. subst a'.
  apply checked_geometry; try assumption. lia.
Qed.

Lemma setModel_invariant (a : t) (m : string) :
  invariant a -> invariant (setModel a m).
Proof. unfold invariant, setModel. simpl. tauto. Qed.

(** A capacity that is not a multiple of the seats per row is refused,
    whichever check refuses it first. *)
Lemma ctor_not_multiple (aircrafts : gmap string t) (draws : list Z) (m : string)
    (c n : Z) :
  Z.rem c n <> 0 -> ctor aircrafts draws m c n = (Throw invalid_argument, draws).
Proof.
  intros Hrem. unfold ctor, throw_if.
  destruct (str_empty m); [reflexivity |].
  destruct (c <=? 0); [reflexivity |].
  destruct (n <=? 0); [reflexivity |].
  destruct (n >? MAX_SEATS_PER_ROW); [reflexivity |].
  destruct (Z.eqb_spec (Z.rem c n) 0); [contradiction | reflexivity].
Qed.

End AircraftInvariant.

(** C7. Every aircraft that a constructor returns satisfies the invariant
    capacity > 0, 1 <= numOfRowSeats <= 26, capacity % numOfRowSeats == 0
    and numOfRows == capacity / numOfRowSeats; every setter that returns
    keeps it; and constructing with a capacity that is not a multiple of
    the seats per row, such as capacity 100 with 7 seats per row, throws
    invalid_argument, whatever the model name, the repository and the
    identifiers drawn. *)
Theorem C7_aircraft_invariant :
  (forall aircrafts draws draws' m c n a,
      AircraftModel.ctor aircrafts draws m c n = (Ok a, draws') ->
      AircraftModel.invariant a) /\
  (forall json a,
      AircraftModel.from_json json = Ok a -> AircraftModel.invariant a) /\
  (forall a a' c,
      AircraftModel.invariant a -> AircraftModel.setCapacity a c = Ok a' ->
      AircraftModel.invariant a') /\
  (forall a a' n,
      AircraftModel.invariant a -> AircraftModel.setNumOfRowSeats a n = Ok a' ->
      AircraftModel.invariant a') /\
  (forall a m,
      AircraftModel.invariant a -> AircraftModel.invariant (AircraftModel.setModel a m)) /\
  (forall aircrafts draws m c n,
      Z.rem c n <> 0 ->
      AircraftModel.ctor aircrafts draws m c n = (Throw invalid_argument, draws)) /\
  (forall aircrafts draws m,
      AircraftModel.ctor aircrafts draws m 100 7 = (Throw invalid_argument, draws)) /\
  AircraftModel.from_json
    (JObject [("id", JString "AC-10000"); ("model", JString "A320");
              ("capacity", JInt 100); ("numOfRowSeats", JInt 7)])
  = Throw invalid_argument.
Proof.
  split; [exact ctor_invariant |].
  split; [exact from_json_invariant |].
  split; [exact setCapacity_invariant |].
  split; [exact setNumOfRowSeats_invariant |].
  split; [exact setModel_invariant |].
  split; [exact ctor_not_multiple |].
  split; [| reflexivity].
  intros aircrafts draws m. now apply ctor_not_multiple.
Qed.

Lemma C7_aircraft_invariant_witness :
  AircraftModel.invariant (AircraftModel.mk "AC-12345" "A320" 180 6 30) /\
  AircraftModel.invariant (AircraftModel.mk "AC-12345" "A320" 240 6 40).
Proof.
  pose proof C7_aircraft_invariant as (Hctor & _ & Hcap & _).
  assert (H : AircraftModel.invariant (AircraftModel.mk "AC-12345" "A320" 180 6 30)).
  { apply (Hctor ∅ [12345] [] "A320" 180 6). reflexivity. }
  split; [exact H |].
  apply (Hcap _ _ 240 H). reflexivity.
Defined.

(** ** Strings of digits *)

Lemma str_mem_digits (c : ascii) : str_mem c "0123456789" = isdigit c.
Proof. destruct c as [[] [] [] [] [] [] [] []]; reflexivity. Qed.

Lemma digit_first_char (c : ascii) (r : string) :
  isdigit c = true ->
  isspace c = false /\ read_sign (String c r) = (false, String c r) /\
  0 <= digit_value c <= 9.
Proof.
  destruct c as [[] [] [] [] [] [] [] []]; intros H; try discriminate H;
    (split; [reflexivity | split; [reflexivity | unfold digit_value; simpl; lia]]).
Qed.

Lemma str_app_nil (s : string) : "" ++ s = s.
Proof. reflexivity. Qed.

Lemma str_app_cons (c : ascii) (a b : string) :
  String c a ++ b = String c (a ++ b).
Proof. reflexivity. Qed.

Lemma str_length_app (a b : string) :
  String.length (a ++ b) = (String.length a + String.length b)%nat.
Proof. induction a as [|c a IH]; simpl; [reflexivity | now rewrite IH]. Qed.

Lemma substring_prefix (d r : string) :
  String.substring 0 (String.length d) (d ++ r) = d.
Proof.
  induction d as [|c d IH]; simpl.
  - destruct r; reflexivity.
  - now rewrite IH.
Qed.

Lemma get_after_prefix (d : string) (c : ascii) (r : string) :
  String.get (String.length d) (d ++ String c r) = Some c.
Proof. induction d as [|c' d IH]; simpl; [reflexivity | exact IH]. Qed.

Lemma str_back_app (d : string) (c : ascii) :
  str_back (d ++ String c "") = Some c.
Proof.
  induction d as [|c' d IH]; simpl; [reflexivity |].
  rewrite IH. destruct (d ++ String c "") eqn:E; [| reflexivity].
  destruct d; discriminate E.
Qed.

Lemma find_first_not_of_app (d : string) (c : ascii) (r : string) :
  str_forall isdigit d = true -> isdigit c = false ->
  find_first_not_of (d ++ String c r) "0123456789" = Some (String.length d).
Proof.
  intros Hd Hc. induction d as [|c' d IH].
  - rewrite str_app_nil. cbn [find_first_not_of]. now rewrite str_mem_digits, Hc.
  - cbn [str_forall] in Hd. apply andb_true_iff in Hd as [Hc' Hd].
    rewrite str_app_cons. cbn [find_first_not_of].
    rewrite str_mem_digits, Hc', (IH Hd).
    reflexivity.
Qed.

Lemma find_first_not_of_Some (s : string) (i : nat) :
  find_first_not_of s "0123456789" = Some i ->
  exists d c r, s = d ++ String c r /\ str_forall isdigit d = true /\
                isdigit c = false /\ String.length d = i.
Proof.
  revert i. induction s as [|c s IH]; intros i H.
  - discriminate H.
  - cbn [find_first_not_of] in H. rewrite str_mem_digits in H.
    destruct (isdigit c) eqn:Hc.
    + destruct (find_first_not_of s "0123456789") as [j|] eqn:Hj; [| discriminate H].
      injection H as <-.
      destruct (IH j eq_refl) as (d & c' & r & -> & Hd & Hc' & <-).
      exists (String c d), c', r. cbn [str_forall]. rewrite Hc, Hd. auto.
    + injection H as <-. exists "", c, s. auto.
Qed.

Lemma span_digits_all (d : string) :
  str_forall isdigit d = true -> span_digits d = (d, "").
Proof.
  induction d as [|c d IH]; cbn [str_forall span_digits]; [reflexivity |].
  intros H. apply andb_true_iff in H as [Hc Hd]. now rewrite Hc, (IH Hd).
Qed.

Lemma digits_value_acc_lower (d : string) (acc : Z) :
  str_forall isdigit d = true -> 0 <= acc -> acc <= digits_value_acc acc d.
Proof.
  revert acc. induction d as [|c d IH]; intros acc Hd Hacc;
    cbn [digits_value_acc str_forall] in *; [lia |].
  apply andb_true_iff in Hd as [Hc Hd].
  destruct (digit_first_char c "" Hc) as (_ & _ & Hv).
  specialize (IH (10 * acc + digit_value c) Hd). lia.
Qed.

Lemma digits_value_nonneg (d : string) :
  str_forall isdigit d = true -> 0 <= digits_value d.
Proof. intros H. apply (digits_value_acc_lower d 0 H). lia. Qed.

(** [stoi] on a non-empty string of digits reads all of it. *)
Lemma stoi_digits (d : string) :
  d <> "" -> str_forall isdigit d = true ->
  stoi d = if digits_value d <=? INT_MAX then Ok (digits_value d)
           else Throw out_of_range.
Proof.
  intros Hne Hd. pose proof (digits_value_nonneg d Hd) as Hv.
  destruct d as [|c d]; [congruence |].
  pose proof Hd as Hd'. cbn [str_forall] in Hd'.
  apply andb_true_iff in Hd' as [Hc _].
  destruct (digit_first_char c d Hc) as (Hsp & Hsign & _).
  unfold stoi. cbn [skip_spaces]. rewrite Hsp, Hsign, (span_digits_all _ Hd).
  cbn [str_empty].
  replace (INT_MIN <=? digits_value (String c d)) with true
    by (symmetry; apply Z.leb_le; unfold INT_MIN; lia).
  reflexivity.
Qed.

(** ** Seat codes *)

Lemma code_of_bounds (c : ascii) : 0 <= code_of c < 256.
Proof.
  unfold code_of. pose proof (N_ascii_bounded c) as H.
  destruct c as [[] [] [] [] [] [] [] []]; simpl; lia.
Qed.

Lemma char_to_int_small (c : ascii) :
  code_of c < 128 -> char_to_int c = code_of c.
Proof.
  unfold char_to_int, code_of. intros H.
  destruct (Z.ltb_spec (Z.of_N (N_of_ascii c)) 128); [reflexivity | lia].
Qed.

Lemma char_to_int_upper (c : ascii) :
  65 <= char_to_int c -> char_to_int c = code_of c.
Proof.
  unfold char_to_int. fold (code_of c). pose proof (code_of_bounds c).
  destruct (Z.ltb_spec (code_of c) 128); [reflexivity | lia].
Qed.

Lemma upper_not_digit (c : ascii) : 65 <= code_of c -> isdigit c = false.
Proof.
  unfold code_of, isdigit. intros H.
  destruct (N.leb_spec (N_of_ascii c) 57) as [Hle|]; [lia |].
  apply andb_false_r.
Qed.

Lemma Zgtb_false (n m : Z) : (n >? m) = false <-> n <= m.
Proof. rewrite Z.gtb_ltb. apply Z.ltb_ge. Qed.

Section SeatDecoding.

Import FlightModel.

Variable aircrafts : gmap string AircraftModel.t.
Variable f : t.
Variable a : AircraftModel.t.
Hypothesis Hfound : aircrafts !! aircraftId f = Some a.

(** Every well-formed in-range code decodes to its row and column. *)
Lemma getSeatIndices_complete (s : string) (row col : Z) :
  AircraftModel.numOfRowSeats a <= AircraftModel.MAX_SEATS_PER_ROW ->
  AircraftModel.numOfRows a <= INT_MAX ->
  seat_code (AircraftModel.numOfRows a) (AircraftModel.numOfRowSeats a) s row col ->
  getSeatIndices aircrafts f s = (row, col).
Proof.
  unfold AircraftModel.MAX_SEATS_PER_ROW.
  intros Hmax Hint (d & l & -> & Hne & Hd & Hrow & Hcol & -> & ->).
  unfold getSeatIndices. rewrite Hfound.
  assert (Hl : isdigit l = false) by (apply upper_not_digit; lia).
  assert (Hlen : String.length d <> O) by (destruct d; [congruence | discriminate]).
  assert (Hempty : str_empty (d ++ String l "") = false)
    by (destruct d; reflexivity).
  rewrite Hempty.
  rewrite (find_first_not_of_app d l "" Hd Hl).
  unfold str_size. rewrite str_length_app. cbn [String.length].
  replace (String.length d =? 0)%nat with false by (symmetry; apply Nat.eqb_neq; lia).
  replace (String.length d + 1 - String.length d =? 1)%nat with true
    by (symmetry; apply Nat.eqb_eq; lia).
  cbn [orb negb]. rewrite get_after_prefix.
  rewrite (char_to_int_small l) by lia.
  replace (code_of l <? 65) with false by (symmetry; apply Z.ltb_ge; lia).
  replace (code_of l >? AircraftModel.numOfRowSeats a + 65 - 1) with false
    by (symmetry; apply Zgtb_false; lia).
  cbn [orb]. unfold substr, str_size. cbn [Nat.ltb Nat.leb obind].
  rewrite substring_prefix, (stoi_digits d Hne Hd).
  replace (digits_value d <=? INT_MAX) with true by (symmetry; apply Z.leb_le; lia).
  replace (digits_value d <=? 0) with false by (symmetry; apply Z.leb_gt; lia).
  replace (digits_value d >? AircraftModel.numOfRows a) with false
    by (symmetry; apply Zgtb_false; lia).
  reflexivity.
Qed.

(** Whatever decodes is a well-formed in-range code. *)
Lemma getSeatIndices_sound (s : string) :
  getSeatIndices aircrafts f s = invalid_indices \/
  exists row col,
    getSeatIndices aircrafts f s = (row, col) /\ 0 <= row /\ 0 <= col /\
    seat_code (AircraftModel.numOfRows a) (AircraftModel.numOfRowSeats a) s row col.
Proof.
  unfold getSeatIndices. rewrite Hfound.
  destruct (str_empty s); [now left |].
  destruct (find_first_not_of s "0123456789") as [i|] eqn:Hi; [| now left].
  destruct (find_first_not_of_Some s i Hi) as (d & c & r & -> & Hd & Hc & <-).
  unfold str_size. rewrite str_length_app. cbn [String.length].
  destruct (String.length d =? 0)%nat eqn:Hlen; [now left |].
  destruct (String.length d + S (String.length r) - String.length d =? 1)%nat eqn:Hr;
    [| now left].
  cbn [orb negb]. apply Nat.eqb_neq in Hlen. apply Nat.eqb_eq in Hr.
  assert (r = "") as -> by (destruct r; [reflexivity | simpl in Hr; lia]).
  rewrite get_after_prefix.
  destruct (char_to_int c <? 65) eqn:Hlo; [now left |].
  destruct (char_to_int c >? AircraftModel.numOfRowSeats a + 65 - 1) eqn:Hhi;
    [now left |].
  cbn [orb]. unfold substr, str_size. cbn [Nat.ltb Nat.leb obind].
  rewrite substring_prefix.
  assert (Hne : d <> "") by (intros ->; apply Hlen; reflexivity).
  rewrite (stoi_digits d Hne Hd).
  destruct (digits_value d <=? INT_MAX); [| now left].
  destruct (digits_value d <=? 0) eqn:Hpos; [now left |].
  destruct (digits_value d >? AircraftModel.numOfRows a) eqn:Hrows; [now left |].
  cbn [orb]. right.
  apply Z.ltb_ge in Hlo. apply Z.leb_gt in Hpos.
  apply Zgtb_false in Hhi. apply Zgtb_false in Hrows.
  pose proof (char_to_int_upper c Hlo) as Hcode.
  exists (digits_value d - 1), (char_to_int c - 65).
  split; [reflexivity |]. split; [lia |]. split; [lia |].
  exists d, c. rewrite <- Hcode. repeat split; try assumption; lia.
Qed.

End SeatDecoding.

(** C1. For a flight whose aircraft is in the repository (with at most 26
    seats per row and an [int] number of rows), [getSeatIndices] returns
    (row - 1, letter - 'A') on every well-formed in-range seat code, returns
    the invalid pair on every other string, and [isValidSeat] is true
    exactly on the well-formed in-range codes. *)
Theorem C1_seat_decoding
    (aircrafts : gmap string AircraftModel.t) (f : FlightModel.t)
    (a : AircraftModel.t) (s : string)
    (Hfound : aircrafts !! FlightModel.aircraftId f = Some a)
    (Hseats : AircraftModel.numOfRowSeats a <= AircraftModel.MAX_SEATS_PER_ROW)
    (Hrows : AircraftModel.numOfRows a <= INT_MAX) :
  let well_formed := seat_code (AircraftModel.numOfRows a) (AircraftModel.numOfRowSeats a) s in
  (forall row col,
      well_formed row col <->
      FlightModel.getSeatIndices aircrafts f s = (row, col) /\
      (row, col) <> FlightModel.invalid_indices) /\
  ((~ exists row col, well_formed row col) ->
      FlightModel.getSeatIndices aircrafts f s = FlightModel.invalid_indices) /\
  (FlightModel.isValidSeat aircrafts f s = true <-> exists row col, well_formed row col).
Proof.
  intros well_formed. subst well_formed.
  pose proof (getSeatIndices_sound aircrafts f a Hfound s) as Hsound.
  pose proof (getSeatIndices_complete aircrafts f a Hfound s) as Hcomplete.
  split; [| split].
  - intros row col. split.
    + intros Hwf. split; [now apply Hcomplete |].
      destruct Hwf as (d & l & _ & _ & _ & Hr & _ & -> & _).
      unfold FlightModel.invalid_indices. intros [= Hrow _]. lia.
    + intros [Heq Hne].
      destruct Hsound as [Hinv | (row' & col' & Heq' & _ & _ & Hwf)].
      * congruence.
      * rewrite Heq in Heq'. injection Heq' as -> ->. exact Hwf.
  - intros Hnone. destruct Hsound as [Hinv | (row & col & _ & _ & _ & Hwf)];
      [exact Hinv | exfalso; eauto].
  - unfold FlightModel.isValidSeat. split.
    + intros Hvalid.
      destruct Hsound as [Hinv | (row & col & _ & _ & _ & Hwf)]; [| eauto].
      rewrite Hinv in Hvalid. discriminate Hvalid.
    + intros (row & col & Hwf).
      destruct Hsound as [Hinv | (row' & col' & Heq & Hr & Hc & _)].
      * rewrite (Hcomplete row col Hseats Hrows Hwf) in Hinv.
        destruct Hwf as (d & l & _ & _ & _ & Hr & _ & -> & _).
        unfold FlightModel.invalid_indices in Hinv. injection Hinv as Hrow _. lia.
      * rewrite Heq. cbn [fst snd].
        apply andb_true_iff; split; apply negb_true_iff, Z.eqb_neq; lia.
Qed.

Lemma C1_seat_decoding_witness :
  FlightModel.getSeatIndices
    {[ "AC-1" := AircraftModel.mk "AC-1" "A320" 180 6 30 ]}
    (FlightModel.mk "FL-1" "CAI" "LHR" (DateTime.mk 2025 1 5 9 30)
       (DateTime.mk 2025 1 5 14 0) "AC-1" [] (replicate 30 (replicate 6 false)))
    "12C" = (11, 2).
Proof.
  set (acs := ({[ "AC-1" := AircraftModel.mk "AC-1" "A320" 180 6 30 ]}
               : gmap string AircraftModel.t)).
  set (fl := FlightModel.mk "FL-1" "CAI" "LHR" (DateTime.mk 2025 1 5 9 30)
               (DateTime.mk 2025 1 5 14 0) "AC-1" [] (replicate 30 (replicate 6 false))).
  assert (Hfound : acs !! FlightModel.aircraftId fl
                   = Some (AircraftModel.mk "AC-1" "A320" 180 6 30)) by reflexivity.
  assert (Hseats : AircraftModel.numOfRowSeats (AircraftModel.mk "AC-1" "A320" 180 6 30)
                   <= AircraftModel.MAX_SEATS_PER_ROW) by (vm_compute; discriminate).
  assert (Hrows : AircraftModel.numOfRows (AircraftModel.mk "AC-1" "A320" 180 6 30)
                  <= INT_MAX) by (vm_compute; discriminate).
  destruct (C1_seat_decoding acs fl _ "12C" Hfound Hseats Hrows) as (Hiff & _ & _).
  apply (Hiff 11 2).
  exists "12", "C"%char. vm_compute. repeat split; discriminate.
Defined.

(** The edge cases the specification lists, on a flight with 30 rows of 6
    seats: row 0, two letters, the empty string, a letter past the last
    column and a row past the last row are all invalid. *)
Example seat_edge_cases :
  map (FlightModel.getSeatIndices
         {[ "AC-1" := AircraftModel.mk "AC-1" "A320" 180 6 30 ]}
         (FlightModel.mk "FL-1" "CAI" "LHR" (DateTime.mk 2025 1 5 9 30)
            (DateTime.mk 2025 1 5 14 0) "AC-1" [] (replicate 30 (replicate 6 false))))
      ["0A"; "1AA"; ""; "1G"; "31A"; "30F"; "007B"]
  = [(-1, -1); (-1, -1); (-1, -1); (-1, -1); (-1, -1); (29, 5); (6, 1)].
Proof. reflexivity. Qed.

(** C9. For a flight whose aircraft is not in the repository every seat
    string decodes to the invalid pair: [isValidSeat] is false, and
    [getSeatStatus] and [setSeatStatus] throw invalid_argument, whatever
    the string, the status to set and the seat grid of the flight. *)
Theorem C9_missing_aircraft
    (aircrafts : gmap string AircraftModel.t) (f : FlightModel.t)
    (Hmissing : aircrafts !! FlightModel.aircraftId f = None) :
  forall (s : string) (status : bool),
    FlightModel.getSeatIndices aircrafts f s = FlightModel.invalid_indices /\
    FlightModel.isValidSeat aircrafts f s = false /\
    FlightModel.getSeatStatus aircrafts f s = Throw invalid_argument /\
    FlightModel.setSeatStatus aircrafts f s status = Throw invalid_argument.
Proof.
  intros s status.
  unfold FlightModel.isValidSeat, FlightModel.getSeatStatus, FlightModel.setSeatStatus,
    FlightModel.getSeatIndices.
  rewrite Hmissing. repeat split; reflexivity.
Qed.

Lemma C9_missing_aircraft_witness :
  FlightModel.setSeatStatus ∅
    (FlightModel.mk "FL-1" "CAI" "LHR" (DateTime.mk 2025 1 5 9 30)
       (DateTime.mk 2025 1 5 14 0) "AC-1" [] (replicate 30 (replicate 6 false)))
    "12C" true = Throw invalid_argument.
Proof.
  refine (proj2 (proj2 (proj2 (C9_missing_aircraft ∅ _ _ "12C" true)))).
  reflexivity.
Defined.

(** ** Seat pricing *)

Lemma SFltb_irrefl (x : float) : SFltb x x = false.
Proof.
  unfold SFltb, SFcompare.
  destruct x as [s | s | | s m e];
    [destruct s; reflexivity | destruct s; reflexivity | reflexivity |].
  destruct s; rewrite Z.compare_refl, Pos.compare_cont_refl; reflexivity.
Qed.

(** The discount is never more than the cap it is compared with. *)
Lemma std_min_not_above (a cap : float) : flt cap (std_min a cap) = false.
Proof.
  unfold std_min. destruct (flt cap a) eqn:E; [apply SFltb_irrefl | exact E].
Qed.

Lemma base_price_plus_zero (row : Z) : fadd32 (base_price row) f0 = base_price row.
Proof.
  unfold base_price.
  destruct ((1 <=? row) && (row <=? 5)); [reflexivity |].
  destruct ((6 <=? row) && (row <=? 15)); reflexivity.
Qed.

Lemma str_back_nonempty (s : string) : s <> "" -> exists c, str_back s = Some c.
Proof.
  induction s as [|c s IH]; [congruence |]. intros _.
  destruct s as [|c' s]; [exists c; reflexivity |].
  destruct IH as [l Hl]; [discriminate |]. exists l.
  change (str_back (String c (String c' s))) with (str_back (String c' s)). exact Hl.
Qed.

(** What [getSeatPrice] does once the row has been read. *)
Lemma getSeatPrice_row (s : string) (row : Z) (col : ascii) (lp : float) :
  s <> "" ->
  stoi (String.substring 0 (String.length s - 1) s) = Ok row ->
  str_back s = Some col ->
  ReservationService.getSeatPrice s lp = Ok (seat_price row col lp).
Proof.
  intros Hne Hrow Hcol. unfold ReservationService.getSeatPrice.
  destruct s as [|c s]; [congruence |].
  cbn [str_empty negb]. unfold substr, str_size.
  replace (String.length (String c s) <? 0)%nat with false by reflexivity.
  cbn [obind]. rewrite Hrow. cbn [obind]. rewrite Hcol. cbn [obind].
  unfold seat_price, discounted, column_premium. fold (base_price row).
  destruct (Ascii.eqb col "A" || Ascii.eqb col "F"); [reflexivity |].
  destruct (Ascii.eqb col "C" || Ascii.eqb col "D"); [reflexivity |].
  now rewrite base_price_plus_zero.
Qed.

Lemma getSeatPrice_throw (s : string) (e : exn) (lp : float) :
  s <> "" ->
  stoi (String.substring 0 (String.length s - 1) s) = Throw e ->
  ReservationService.getSeatPrice s lp = Throw e.
Proof.
  intros Hne Hrow. unfold ReservationService.getSeatPrice.
  destruct s as [|c s]; [congruence |].
  cbn [str_empty negb]. unfold substr, str_size.
  replace (String.length (String c s) <? 0)%nat with false by reflexivity.
  cbn [obind]. rewrite Hrow. reflexivity.
Qed.

Lemma stoi_returns_or_throws (s : string) :
  (exists n, stoi s = Ok n) \/ (exists e, stoi s = Throw e).
Proof.
  unfold stoi. destruct (read_sign (skip_spaces s)) as [neg s2].
  destruct (span_digits s2) as [ds rest].
  destruct (str_empty ds); [right; eauto |].
  destruct ((INT_MIN <=? _) && (_ <=? INT_MAX)); [left | right]; eauto.
Qed.

(** The examples of the specification, before any loyalty discount. *)
Example price_3A : ReservationService.getSeatPrice "3A" f0 = Ok (f32_of_int 220).
Proof. reflexivity. Qed.

Example price_10C : ReservationService.getSeatPrice "10C" f0 = Ok (f32_of_int 160).
Proof. reflexivity. Qed.

Example price_20B : ReservationService.getSeatPrice "20B" f0 = Ok (f32_of_int 100).
Proof. reflexivity. Qed.

(** C4, as stated, fails: on an aircraft with four seats per row the last
    column is 'D', for which the claim promises the window premium
    (200 + 20 = 220 for row 1), while [getSeatPrice] charges the aisle
    premium (210). *)
Lemma C4_counterexample :
  ReservationService.getSeatPrice "1D" f0 = Ok (f32_of_int 210) /\
  claimed_seat_price 4 1 "D" f0 = f32_of_int 220 /\
  ReservationService.getSeatPrice "1D" f0 <> Ok (claimed_seat_price 4 1 "D" f0).
Proof.
  split; [reflexivity |]. split; [reflexivity |]. vm_compute. discriminate.
Qed.

(** C4, amended. For every seat code made of one or more digits that read
    as an [int] and one more character, and every loyaltyPoints,
    [getSeatPrice] is (base + premium) - min(loyaltyPoints,
    0.3f * (base + premium)) in single precision, where base is 200 for
    rows 1 to 5, 150 for rows 6 to 15 and 100 for every other row, and
    premium is 20 for column 'A' or 'F', 10 for column 'C' or 'D' and 0
    otherwise, whatever the aircraft; and the discount is not above
    0.3f * (base + premium). *)
Theorem C4_seat_price_amended (digits : string) (letter : ascii) (loyaltyPoints : float)
    (Hne : digits <> "")
    (Hdigits : str_forall isdigit digits = true)
    (Hint : digits_value digits <= INT_MAX) :
  let row := digits_value digits in
  let basePlusPremium := fadd32 (base_price row) (column_premium letter) in
  let cap := fmul32 basePlusPremium f0_3 in
  ReservationService.getSeatPrice (digits ++ String letter "") loyaltyPoints
  = Ok (fsub32 basePlusPremium (std_min loyaltyPoints cap)) /\
  flt cap (std_min loyaltyPoints cap) = false.
Proof.
  intros row basePlusPremium cap. split; [| apply std_min_not_above].
  apply (getSeatPrice_row _ row letter).
  - destruct digits; discriminate.
  - rewrite str_length_app. cbn [String.length].
    replace (String.length digits + 1 - 1)%nat with (String.length digits) by lia.
    rewrite substring_prefix, (stoi_digits digits Hne Hdigits).
    subst row. now replace (digits_value digits <=? INT_MAX) with true
      by (symmetry; apply Z.leb_le; exact Hint).
  - apply str_back_app.
Qed.

Lemma C4_seat_price_amended_witness :
  ReservationService.getSeatPrice "12F" (f32_of_int 100)
  = Ok (fsub32 (f32_of_int 170) (fmul32 (f32_of_int 170) f0_3)).
Proof.
  refine (proj1 (C4_seat_price_amended "12" "F" (f32_of_int 100) _ _ _)).
  - discriminate.
  - reflexivity.
  - vm_compute. discriminate.
Defined.

(** C6, as stated, fails: the seat string "A" has no row, and
    [getSeatPrice] throws on it instead of returning 100 minus the
    discount; the invalid seat "0A" is priced 120, with a premium. *)
Lemma C6_counterexample :
  ReservationService.getSeatPrice "A" f0 = Throw invalid_argument /\
  ReservationService.getSeatPrice "0A" f0 = Ok (f32_of_int 120).
Proof. split; reflexivity. Qed.

(** C6, amended. [getSeatPrice] returns 100 minus the loyalty discount, with
    no premium, for the empty seat string. For a non-empty string it reads
    the row with [std::stoi] from the string without its last character:
    when that throws, [getSeatPrice] throws the same exception, and when it
    returns a row, [getSeatPrice] returns the price of that row with the
    last character as column. Nothing else happens. *)
Theorem C6_seat_price_outcomes_amended (seatNumber : string) (loyaltyPoints : float) :
  let rowStr := String.substring 0 (String.length seatNumber - 1) seatNumber in
  (seatNumber = "" ->
     ReservationService.getSeatPrice seatNumber loyaltyPoints
     = Ok (discounted f100 loyaltyPoints)) /\
  (seatNumber <> "" ->
     (forall e, stoi rowStr = Throw e ->
        ReservationService.getSeatPrice seatNumber loyaltyPoints = Throw e) /\
     (forall row, stoi rowStr = Ok row ->
        exists col, str_back seatNumber = Some col /\
          ReservationService.getSeatPrice seatNumber loyaltyPoints
          = Ok (seat_price row col loyaltyPoints)) /\
     ((exists e, stoi rowStr = Throw e) \/ (exists row, stoi rowStr = Ok row))).
Proof.
  intros rowStr. split.
  - intros ->. reflexivity.
  - intros Hne. split; [| split].
    + intros e He. now apply getSeatPrice_throw.
    + intros row Hrow. destruct (str_back_nonempty seatNumber Hne) as [col Hcol].
      exists col. split; [exact Hcol |]. now apply getSeatPrice_row.
    + destruct (stoi_returns_or_throws rowStr); tauto.
Qed.

Lemma C6_seat_price_outcomes_amended_witness :
  ReservationService.getSeatPrice "" (f32_of_int 50) = Ok (f32_of_int 70) /\
  ReservationService.getSeatPrice "XYZ" (f32_of_int 50) = Throw invalid_argument.
Proof.
  split.
  - exact (proj1 (C6_seat_price_outcomes_amended "" (f32_of_int 50)) eq_refl).
  - refine (proj1 (proj2 (C6_seat_price_outcomes_amended "XYZ" (f32_of_int 50)) _)
                  invalid_argument _).
    + discriminate.
    + reflexivity.
Defined.

(** ** The seat grid *)

Lemma grid_get_Ok (g : list (list bool)) (i j : Z) (b : bool) :
  FlightModel.grid_get g i j = Ok b <->
  0 <= i /\ 0 <= j /\ cell g (Z.to_nat i) (Z.to_nat j) = Some b.
Proof.
  unfold FlightModel.grid_get, cell.
  destruct (Z.ltb_spec i 0), (Z.ltb_spec j 0); cbn [orb];
    try (split; [discriminate | lia]).
  destruct (g !! Z.to_nat i) as [row|]; [| split; [discriminate | intros (_ & _ & [=])]].
  destruct (row !! Z.to_nat j) as [b'|]; [| split; [discriminate | intros (_ & _ & [=])]].
  split; [intros [= ->]; auto | intros (_ & _ & [= ->]); reflexivity].
Qed.

Lemma grid_set_Ok (g g' : list (list bool)) (i j : Z) (b : bool) :
  FlightModel.grid_set g i j b = Ok g' ->
  0 <= i /\ 0 <= j /\
  cell g' (Z.to_nat i) (Z.to_nat j) = Some b /\
  (forall i' j', (i', j') <> (Z.to_nat i, Z.to_nat j) -> cell g' i' j' = cell g i' j').
Proof.
  unfold FlightModel.grid_set.
  destruct (Z.ltb_spec i 0), (Z.ltb_spec j 0); cbn [orb]; try discriminate.
  destruct (g !! Z.to_nat i) as [row|] eqn:Hrow; [| discriminate].
  destruct (Nat.ltb_spec (Z.to_nat j) (length row)) as [Hj|]; [| discriminate].
  intros [= <-]. pose proof (lookup_lt_Some _ _ _ Hrow) as Hi.
  split; [assumption |]. split; [assumption |]. split.
  - unfold cell. rewrite list_lookup_insert_eq by exact Hi.
    now apply list_lookup_insert_eq.
  - intros i' j' Hne. unfold cell.
    destruct (decide (i' = Z.to_nat i)) as [-> | Hi'].
    + rewrite list_lookup_insert_eq by exact Hi. rewrite Hrow.
      apply list_lookup_insert_ne. congruence.
    + now rewrite list_lookup_insert_ne by congruence.
Qed.

Lemma grid_set_defined (g : list (list bool)) (i j : Z) (b0 b : bool) :
  FlightModel.grid_get g i j = Ok b0 -> exists g', FlightModel.grid_set g i j b = Ok g'.
Proof.
  unfold FlightModel.grid_get, FlightModel.grid_set.
  destruct ((i <? 0) || (j <? 0)); [discriminate |].
  destruct (g !! Z.to_nat i) as [row|]; [| discriminate].
  destruct (row !! Z.to_nat j) as [b'|] eqn:Hj; [| discriminate]. intros _.
  apply lookup_lt_Some in Hj. apply Nat.ltb_lt in Hj. rewrite Hj. eauto.
Qed.

Section SeatStatus.

Import FlightModel.

Variable aircrafts : gmap string AircraftModel.t.

Lemma getSeatIndices_with_seatMap (f : t) (g : list (list bool)) (s : string) :
  getSeatIndices aircrafts (with_seatMap f g) s = getSeatIndices aircrafts f s.
Proof. reflexivity. Qed.

(** A successful [setSeatStatus] writes the cell of the decoded seat and
    nothing else. *)
Lemma setSeatStatus_Ok (f f' : t) (s : string) (b : bool) :
  setSeatStatus aircrafts f s b = Ok f' ->
  let ij := getSeatIndices aircrafts f s in
  is_invalid ij = false /\
  f' = with_seatMap f (seatMap f') /\
  cell (seatMap f') (Z.to_nat (fst ij)) (Z.to_nat (snd ij)) = Some b /\
  (forall i j, (i, j) <> (Z.to_nat (fst ij), Z.to_nat (snd ij)) ->
               cell (seatMap f') i j = cell (seatMap f) i j) /\
  getSeatStatus aircrafts f' s = Ok b.
Proof.
  intros H ij. unfold setSeatStatus in H. fold ij in H.
  destruct (is_invalid ij) eqn:Hinv; [discriminate |].
  inv_ok. subst f'. rename a into g'.
  destruct (grid_set_Ok _ _ _ _ _ Ha) as (Hi & Hj & Hcell & Hframe).
  split; [reflexivity |]. split; [reflexivity |].
  split; [exact Hcell |]. split; [exact Hframe |].
  unfold getSeatStatus. rewrite getSeatIndices_with_seatMap. fold ij. rewrite Hinv.
  apply grid_get_Ok. auto.
Qed.

(** A seat that has a status can be given one. *)
Lemma setSeatStatus_defined (f : t) (s : string) (b0 b : bool) :
  getSeatStatus aircrafts f s = Ok b0 ->
  exists f', setSeatStatus aircrafts f s b = Ok f'.
Proof.
  unfold getSeatStatus, setSeatStatus.
  destruct (is_invalid (getSeatIndices aircrafts f s)); [discriminate |].
  intros H. destruct (grid_set_defined _ _ _ _ b H) as [g' ->]. cbn [obind]. eauto.
Qed.

End SeatStatus.

(** ** Loading a reservation *)

(** C10. A [ReservationModel] built from JSON has updated the flight it
    names, in the FlightRepository: the cell of the seat the JSON names is
    occupied when the status of the JSON is "CONFIRMED" and free when it is
    "CANCELLED", every other cell and every other field of that flight is as
    before, and so is every other flight. *)
Theorem C10_reservation_from_json_marks_seat
    (aircrafts : gmap string AircraftModel.t) (users : gmap string UserModel.t)
    (flights flights' : gmap string FlightModel.t)
    (payments : gmap string PaymentModel.t) (json : JSON) (r : ReservationModel.t)
    (Hbuilt : ReservationModel.from_json aircrafts users flights payments json
              = (Ok r, flights')) :
  let occupied :=
    match ReservationModel.status r with
    | ReservationModel.CONFIRMED => true
    | ReservationModel.CANCELLED => false
    end in
  let statusStr :=
    match ReservationModel.status r with
    | ReservationModel.CONFIRMED => "CONFIRMED"
    | ReservationModel.CANCELLED => "CANCELLED"
    end in
  json_at json "status" = Ok (JString statusStr) /\
  json_at json "flightId" = Ok (JString (ReservationModel.flightId r)) /\
  json_at json "seatNumber" = Ok (JString (ReservationModel.seatNumber r)) /\
  exists f f',
    flights !! ReservationModel.flightId r = Some f /\
    flights' = <[ReservationModel.flightId r := f']> flights /\
    FlightModel.getSeatStatus aircrafts f' (ReservationModel.seatNumber r) = Ok occupied /\
    (let ij := FlightModel.getSeatIndices aircrafts f (ReservationModel.seatNumber r) in
     cell (FlightModel.seatMap f') (Z.to_nat (fst ij)) (Z.to_nat (snd ij)) = Some occupied /\
     forall i j, (i, j) <> (Z.to_nat (fst ij), Z.to_nat (snd ij)) ->
                 cell (FlightModel.seatMap f') i j = cell (FlightModel.seatMap f) i j) /\
    f' = FlightModel.with_seatMap f (FlightModel.seatMap f') /\
    (forall k, k <> ReservationModel.flightId r -> flights' !! k = flights !! k).
Proof.
  intros occupied statusStr. unfold ReservationModel.from_json in Hbuilt.
  match type of Hbuilt with
  | (match ?b with _ => _ end) = _ =>
      destruct b as [[[[[[rid fid] pid] st] seat] f'] | | |] eqn:E
  end; try discriminate Hbuilt.
  injection Hbuilt as Hr <-. inv_ok. subst r.
  match type of E with
  | match ?o with _ => _ end = _ => destruct o as [f|] eqn:Hf; [| discriminate E]
  end.
  inv_ok. subst.
  subst occupied statusStr.
  cbn [ReservationModel.flightId ReservationModel.seatNumber ReservationModel.status].
  repeat match goal with
  | H : get_string ?j = Ok _ |- _ =>
      destruct j; try discriminate H; cbn in H; injection H as H; subst
  end.
  match goal with
  | H : (if String.eqb ?s "CONFIRMED" then _ else _) = Ok st |- _ =>
      destruct (String.eqb_spec s "CONFIRMED") as [-> | _];
        [injection H as <- |
         destruct (String.eqb_spec s "CANCELLED") as [-> | _];
           [injection H as <- | discriminate H]]
  end.
  all: match goal with
       | Hset : FlightModel.setSeatStatus _ _ _ _ = Ok _ |- _ =>
           destruct (setSeatStatus_Ok _ _ _ _ _ Hset) as (_ & Hsame & Hcell & Hframe & Hget)
       end.
  all: split; [assumption |]; split; [assumption |]; split; [assumption |];
    exists f, f'; split; [exact Hf |]; split; [reflexivity |];
    split; [exact Hget |]; split; [split; [exact Hcell | exact Hframe] |];
    split; [exact Hsame |];
    intros k Hk; now apply lookup_insert_ne.
Qed.

Lemma C10_reservation_from_json_marks_seat_witness :
  (exists f',
     snd (ReservationModel.from_json (aircrafts Example.booked) (users Example.booked)
            (flights Example.booked) (payments Example.booked) Example.reservation_json)
     = <["FL-20001" := f']> (flights Example.booked) /\
     FlightModel.getSeatStatus (aircrafts Example.booked) f' "2C" = Ok true) /\
  (exists f',
     snd (ReservationModel.from_json (aircrafts Example.booked) (users Example.booked)
            (flights Example.booked) (payments Example.booked)
            (JObject [("id", JString "RES-41002"); ("flightId", JString "FL-20001");
                      ("passengerId", JString "PAS-30001"); ("seatNumber", JString "1D");
                      ("status", JString "CANCELLED"); ("paymentId", JString "PAY-41001")]))
     = <["FL-20001" := f']> (flights Example.booked) /\
     FlightModel.getSeatStatus (aircrafts Example.booked) f' "1D" = Ok false).
Proof.
  split.
  - destruct (ReservationModel.from_json (aircrafts Example.booked) (users Example.booked)
                (flights Example.booked) (payments Example.booked) Example.reservation_json)
      as [o flights'] eqn:E.
    assert (Ho : o = Ok (ReservationModel.mk "RES-50001" "FL-20001" "PAS-30001" "2C"
                           ReservationModel.CONFIRMED "PAY-41001")).
    { change o with (fst (o, flights')). rewrite <- E. reflexivity. }
    subst o.
    destruct (C10_reservation_from_json_marks_seat _ _ _ _ _ _ _ E) as (_ & _ & _ & f & f' & _ & Hflights & Hget & _).
    exists f'. split; [exact Hflights | exact Hget].
  - match goal with
    | |- context [ReservationModel.from_json ?a ?u ?fl ?p ?j] =>
        destruct (ReservationModel.from_json a u fl p j) as [o flights'] eqn:E
    end.
    assert (Ho : o = Ok (ReservationModel.mk "RES-41002" "FL-20001" "PAS-30001" "1D"
                           ReservationModel.CANCELLED "PAY-41001")).
    { change o with (fst (o, flights')). rewrite <- E. reflexivity. }
    subst o.
    destruct (C10_reservation_from_json_marks_seat _ _ _ _ _ _ _ E) as (_ & _ & _ & f & f' & _ & Hflights & Hget & _).
    exists f'. split; [exact Hflights | exact Hget].
Defined.

(** ** Cancelling a reservation *)

(** When the flight is there but the seat code no longer decodes on it,
    [setSeatStatus] throws and the reservation is not deleted. *)
Lemma deleteReservation_throws (w : World) (reservationId : string)
    (r : ReservationModel.t) (f : FlightModel.t) (e : exn) :
  reservations w !! reservationId = Some r ->
  flights w !! ReservationModel.flightId r = Some f ->
  FlightModel.setSeatStatus (aircrafts w) f (ReservationModel.seatNumber r) false = Throw e ->
  ReservationService.deleteReservation reservationId w = (Throw e, w).
Proof.
  intros Hr Hf Hset.
  unfold ReservationService.deleteReservation, bind,
    ReservationRepository.findReservationById, FlightRepository.findFlightById,
    flight_ptr_setSeatStatus.
  cbn beta. rewrite Hr. cbn beta iota. rewrite Hf. cbn beta iota.
  rewrite Hset. reflexivity.
Qed.

(** C5, as stated, fails: after bob has booked seat 1D and the aircraft of
    the flight has been removed, the reservation and its flight both
    exist, and [deleteReservation] throws invalid_argument without
    deleting anything. *)
Lemma C5_counterexample :
  reservations Example.aircraft_removed !! "RES-41002"
  = Some (ReservationModel.mk "RES-41002" "FL-20001" "PAS-30001" "1D"
            ReservationModel.CONFIRMED "PAY-41001") /\
  is_Some (flights Example.aircraft_removed !! "FL-20001") /\
  ReservationService.deleteReservation "RES-41002" Example.aircraft_removed
  = (Throw invalid_argument, Example.aircraft_removed).
Proof.
  split; [reflexivity |]. split; [eexists; reflexivity |].
  apply (deleteReservation_throws _ _
           (ReservationModel.mk "RES-41002" "FL-20001" "PAS-30001" "1D"
              ReservationModel.CONFIRMED "PAY-41001")
           (FlightModel.with_seatMap Example.flight
              [[false; false; false; true]; replicate 4 false; replicate 4 false]));
    reflexivity.
Qed.

(** C5, amended. On an existing reservation, [deleteReservation] frees the
    reservation's seat on its flight when the flight is still in the
    repository and the seat code still has a cell on it (it decodes for the
    flight's aircraft, inside the grid); it leaves the flights alone when
    the flight is no longer in the repository; in both cases it deletes the
    reservation and returns true, and changes nothing else. *)
Theorem C5_delete_reservation_amended (w : World) (reservationId : string)
    (r : ReservationModel.t)
    (Hexists : reservations w !! reservationId = Some r) :
  let fid := ReservationModel.flightId r in
  let seat := ReservationModel.seatNumber r in
  (flights w !! fid = None ->
     ReservationService.deleteReservation reservationId w
     = (Ok true, with_reservations w (delete reservationId (reservations w)))) /\
  (forall f occupied,
     flights w !! fid = Some f ->
     FlightModel.getSeatStatus (aircrafts w) f seat = Ok occupied ->
     exists f',
       FlightModel.setSeatStatus (aircrafts w) f seat false = Ok f' /\
       FlightModel.getSeatStatus (aircrafts w) f' seat = Ok false /\
       ReservationService.deleteReservation reservationId w
       = (Ok true,
          with_reservations (with_flights w (<[fid := f']> (flights w)))
                            (delete reservationId (reservations w)))).
Proof.
  intros fid seat. subst fid seat. split.
  - intros Hf.
    unfold ReservationService.deleteReservation, bind,
      ReservationRepository.findReservationById, FlightRepository.findFlightById,
      ReservationRepository.deleteReservation, ret.
    cbn beta. rewrite Hexists. cbn beta iota. rewrite Hf. cbn beta iota.
    rewrite Hexists. reflexivity.
  - intros f occupied Hf Hget.
    destruct (setSeatStatus_defined _ _ _ _ false Hget) as [f' Hset].
    destruct (setSeatStatus_Ok _ _ _ _ _ Hset) as (_ & _ & _ & _ & Hfree).
    exists f'. split; [exact Hset |]. split; [exact Hfree |].
    unfold ReservationService.deleteReservation, bind,
      ReservationRepository.findReservationById, FlightRepository.findFlightById,
      ReservationRepository.deleteReservation, flight_ptr_setSeatStatus.
    cbn beta. rewrite Hexists. cbn beta iota. rewrite Hf. cbn beta iota.
    rewrite Hset. cbn. rewrite Hexists. reflexivity.
Qed.

Lemma C5_delete_reservation_amended_witness :
  exists w',
    ReservationService.deleteReservation "RES-41002" Example.booked = (Ok true, w') /\
    reservations w' !! "RES-41002" = None /\
    flights w' !! "FL-20001" = Some Example.flight.
Proof.
  assert (Hexists : reservations Example.booked !! "RES-41002"
                    = Some (ReservationModel.mk "RES-41002" "FL-20001" "PAS-30001" "1D"
                              ReservationModel.CONFIRMED "PAY-41001")) by reflexivity.
  destruct (proj2 (C5_delete_reservation_amended _ _ _ Hexists)
              (FlightModel.with_seatMap Example.flight
                 [[false; false; false; true]; replicate 4 false; replicate 4 false])
              true eq_refl eq_refl) as (f' & Hset & _ & Hdel).
  injection Hset as <-.
  eexists. split; [exact Hdel |]. split; reflexivity.
Defined.

(** ** Booking a seat *)
(** [createPayment] touches the payments and the identifier stream only,
    and the payments only when it returns a payment. *)
Lemma createPayment_frame (passengerId : string) (amount : float) (method : string)
    (details : JSON) (w w' : World) (r : outcome (option PaymentModel.t)) :
  PaymentService.createPayment passengerId amount method details w = (r, w') ->
  users w' = users w /\ flights w' = flights w /\ aircrafts w' = aircrafts w /\
  reservations w' = reservations w /\
  ((forall p, r <> Ok (Some p)) -> payments w' = payments w).
Proof.
  unfold PaymentService.createPayment, try_catch, bind, lift, ret,
    PaymentService.make_payment, PaymentRepository.addPayment,
    PaymentRepository.findPaymentById.
  destruct (PaymentStrategy.createPaymentStrategy method details) as [st | | |];
    try (intros [= <- <-]; auto).
  destruct (PaymentModel.ctor _ _ _ _ _ _ _ _ _) as [[p | | |] ds];
    try (intros [= <- <-]; auto).
  destruct (payments (with_draws w ds) !! PaymentModel.paymentId p) eqn:Hp;
    cbn [negb]; intros [= <- <-]; cbn; repeat split; auto.
  intros Hnone. exfalso. apply (Hnone p). f_equal. apply lookup_insert_eq.
Qed.

(** An occupied seat is refused before anything is created. *)
Lemma addReservation_occupied (w : World) (flightId seatNumber : string)
    (f : FlightModel.t) :
  flights w !! flightId = Some f ->
  FlightModel.getSeatStatus (aircrafts w) f seatNumber = Ok true ->
  forall passengerId paymentMethod paymentDetails,
    ReservationService.addReservation flightId seatNumber passengerId paymentMethod
      paymentDetails w = (Ok None, w).
Proof.
  intros Hf Hocc passengerId paymentMethod paymentDetails.
  unfold ReservationService.addReservation, bind, ret, UserRepository.findUserById,
    FlightRepository.findFlightById, flight_ptr_getSeatStatus.
  cbn beta. destruct (users w !! passengerId) as [user|]; [| reflexivity].
  cbn beta iota.
  destruct (negb (UserModel.UserType_eqb (UserModel.role user) UserModel.Passenger));
    [reflexivity |].
  destruct (UserModel.as_Passenger user) as [lp|]; [| reflexivity].
  cbn beta iota. rewrite Hf. cbn beta iota. rewrite Hocc. reflexivity.
Qed.

Lemma build_reservation_Ok (flightId passengerId seatNumber paymentId : string)
    (w w' : World) (r : ReservationModel.t) :
  ReservationService.build_reservation flightId passengerId seatNumber paymentId w
  = (Ok r, w') ->
  exists ds id,
    w' = with_draws w ds /\
    r = ReservationModel.mk id flightId passengerId seatNumber
          ReservationModel.CONFIRMED paymentId.
Proof.
  unfold ReservationService.build_reservation, ReservationModel.ctor.
  destruct (str_empty flightId || str_empty passengerId || str_empty seatNumber
            || str_empty paymentId); [discriminate |].
  destruct (negb (bool_decide (is_Some (users w !! passengerId)))); [discriminate |].
  destruct (negb (bool_decide (is_Some (flights w !! flightId)))); [discriminate |].
  destruct (negb (bool_decide (is_Some (payments w !! paymentId)))); [discriminate |].
  destruct (generate_fresh_id _ _ (draws w)) as [[id | | |] ds]; try discriminate.
  cbn [obind]. intros [= <- <-]. eauto.
Qed.

(** What a successful booking has done. *)
Lemma addReservation_Some
    (w w' : World) (flightId seatNumber passengerId paymentMethod : string)
    (paymentDetails : JSON) (r : ReservationModel.t) :
  ReservationService.addReservation flightId seatNumber passengerId paymentMethod
    paymentDetails w = (Ok (Some r), w') ->
  exists user lp f f' price payment w1,
    users w !! passengerId = Some user /\
    UserModel.as_Passenger user = Some lp /\
    flights w !! flightId = Some f /\
    FlightModel.getSeatStatus (aircrafts w) f seatNumber = Ok false /\
    ReservationService.getSeatPrice seatNumber lp = Ok price /\
    PaymentService.createPayment passengerId price paymentMethod paymentDetails w
    = (Ok (Some payment), w1) /\
    FlightModel.setSeatStatus (aircrafts w) f seatNumber true = Ok f' /\
    flights w' = <[flightId := f']> (flights w) /\
    aircrafts w' = aircrafts w /\
    users w' = <[passengerId := UserModel.setLoyaltyPoints user
                   (ReservationService.adjust_loyaltyPoints lp price)]> (users w) /\
    reservations w !! ReservationModel.reservationId r = None /\
    reservations w' = <[ReservationModel.reservationId r := r]> (reservations w) /\
    payments w' = payments w1 /\
    r = ReservationModel.mk (ReservationModel.reservationId r) flightId passengerId
          seatNumber ReservationModel.CONFIRMED (PaymentModel.paymentId payment).
Proof.
  intros Hbooked.
  unfold ReservationService.addReservation, bind, ret, UserRepository.findUserById,
    FlightRepository.findFlightById, flight_ptr_getSeatStatus, lift in Hbooked.
  cbn beta in Hbooked.
  destruct (users w !! passengerId) as [user|] eqn:Huser; [| discriminate Hbooked].
  cbn beta iota in Hbooked.
  destruct (negb (UserModel.UserType_eqb (UserModel.role user) UserModel.Passenger))
    eqn:Hrole; [discriminate Hbooked |].
  destruct (UserModel.as_Passenger user) as [lp|] eqn:Hlp; [| discriminate Hbooked].
  cbn beta iota in Hbooked.
  destruct (flights w !! flightId) as [f|] eqn:Hf; [| discriminate Hbooked].
  cbn beta iota in Hbooked.
  destruct (FlightModel.getSeatStatus (aircrafts w) f seatNumber) as [[|] | | |] eqn:Hfree;
    try discriminate Hbooked.
  cbn beta iota in Hbooked.
  destruct (ReservationService.getSeatPrice seatNumber lp) as [price | | |] eqn:Hprice;
    try discriminate Hbooked.
  cbn beta iota in Hbooked.
  destruct (PaymentService.createPayment passengerId price paymentMethod paymentDetails w)
    as [[[payment|] | | |] w1] eqn:Hpay; try discriminate Hbooked.
  cbn beta iota in Hbooked.
  destruct (createPayment_frame _ _ _ _ _ _ _ Hpay) as (Hu1 & Hf1 & Ha1 & Hr1 & _).
  destruct (ReservationService.build_reservation _ _ _ _ w1) as [[r0 | | |] w2] eqn:Hbuild;
    try discriminate Hbooked.
  destruct (build_reservation_Ok _ _ _ _ _ _ _ Hbuild) as (ds & id & -> & ->).
  unfold ReservationRepository.addReservation in Hbooked.
  cbn [ReservationModel.reservationId reservations with_draws] in Hbooked.
  destruct (reservations w1 !! id) eqn:Hid; [discriminate Hbooked |].
  unfold flight_ptr_setSeatStatus, passenger_ptr_setLoyaltyPoints,
    ReservationRepository.findReservationById in Hbooked.
  cbn [aircrafts with_reservations with_draws] in Hbooked.
  rewrite Ha1 in Hbooked.
  destruct (FlightModel.setSeatStatus (aircrafts w) f seatNumber true) as [f' | | |] eqn:Hset;
    try discriminate Hbooked.
  cbn in Hbooked. rewrite lookup_insert_eq in Hbooked.
  injection Hbooked as <- <-. cbn.
  exists user, lp, f, f', price, payment, w1.
  rewrite Hf1, Hu1, Hr1 in *. repeat split; auto.
Qed.

Lemma build_reservation_frame (flightId passengerId seatNumber paymentId : string)
    (w w' : World) (o : outcome ReservationModel.t) :
  ReservationService.build_reservation flightId passengerId seatNumber paymentId w
  = (o, w') ->
  users w' = users w /\ flights w' = flights w /\ aircrafts w' = aircrafts w /\
  reservations w' = reservations w /\ payments w' = payments w.
Proof.
  unfold ReservationService.build_reservation.
  destruct (str_empty flightId || str_empty passengerId || str_empty seatNumber
            || str_empty paymentId); [intros [= <- <-]; auto |].
  destruct (ReservationModel.ctor _ _ _ _ _ _ _ _ _ _) as [o' ds].
  intros [= <- <-]. auto.
Qed.

(** A call that does not return a reservation has changed no user, no
    flight and no reservation. *)
Lemma addReservation_not_Some
    (w w' : World) (flightId seatNumber passengerId paymentMethod : string)
    (paymentDetails : JSON) (res : outcome (option ReservationModel.t)) :
  ReservationService.addReservation flightId seatNumber passengerId paymentMethod
    paymentDetails w = (res, w') ->
  (forall r, res <> Ok (Some r)) ->
  users w' = users w /\ flights w' = flights w /\ reservations w' = reservations w.
Proof.
  intros Hcall Hnone.
  unfold ReservationService.addReservation, bind, ret, UserRepository.findUserById,
    FlightRepository.findFlightById, flight_ptr_getSeatStatus, lift in Hcall.
  cbn beta in Hcall.
  destruct (users w !! passengerId) as [user|] eqn:Huser;
    [| injection Hcall as <- <-; auto].
  cbn beta iota in Hcall.
  destruct (negb (UserModel.UserType_eqb (UserModel.role user) UserModel.Passenger));
    [injection Hcall as <- <-; auto |].
  destruct (UserModel.as_Passenger user) as [lp|]; [| injection Hcall as <- <-; auto].
  cbn beta iota in Hcall.
  destruct (flights w !! flightId) as [f|] eqn:Hf; [| injection Hcall as <- <-; auto].
  cbn beta iota in Hcall.
  destruct (FlightModel.getSeatStatus (aircrafts w) f seatNumber) as [[|] | | |] eqn:Hfree;
    try (injection Hcall as <- <-; auto; fail).
  cbn beta iota in Hcall.
  destruct (ReservationService.getSeatPrice seatNumber lp) as [price | | |];
    try (injection Hcall as <- <-; auto; fail).
  cbn beta iota in Hcall.
  destruct (PaymentService.createPayment passengerId price paymentMethod paymentDetails w)
    as [o1 w1] eqn:Hpay.
  destruct (createPayment_frame _ _ _ _ _ _ _ Hpay) as (Hu1 & Hf1 & Ha1 & Hr1 & _).
  destruct o1 as [[payment|] | | |]; try (injection Hcall as <- <-; auto; fail).
  cbn beta iota in Hcall.
  destruct (ReservationService.build_reservation _ _ _ _ w1) as [o2 w2] eqn:Hbuild.
  destruct (build_reservation_frame _ _ _ _ _ _ _ Hbuild) as (Hu2 & Hf2 & Ha2 & Hr2 & _).
  rewrite Hu1 in Hu2. rewrite Hf1 in Hf2. rewrite Ha1 in Ha2. rewrite Hr1 in Hr2.
  destruct o2 as [r0 | | |]; try (injection Hcall as <- <-; auto; fail).
  unfold ReservationRepository.addReservation in Hcall.
  destruct (reservations w2 !! ReservationModel.reservationId r0) eqn:Hid;
    [injection Hcall as <- <-; auto |].
  unfold flight_ptr_setSeatStatus, passenger_ptr_setLoyaltyPoints,
    ReservationRepository.findReservationById in Hcall.
  cbn [aircrafts with_reservations] in Hcall. rewrite Ha2 in Hcall.
  destruct (setSeatStatus_defined _ _ _ _ true Hfree) as [f' Hset].
  rewrite Hset in Hcall. cbn in Hcall. rewrite lookup_insert_eq in Hcall.
  injection Hcall as <- _. exfalso. now apply (Hnone r0).
Qed.

(** As long as the seat does not read as free on the flight, no booking
    of it returns a reservation, and none changes anything. *)
Lemma addReservation_not_free (w : World) (flightId seatNumber : string) :
  (forall f, flights w !! flightId = Some f ->
             FlightModel.getSeatStatus (aircrafts w) f seatNumber <> Ok false) ->
  forall passengerId paymentMethod paymentDetails res w',
    ReservationService.addReservation flightId seatNumber passengerId paymentMethod
      paymentDetails w = (res, w') ->
    (forall r, res <> Ok (Some r)) /\ w' = w.
Proof.
  intros Hnotfree passengerId paymentMethod paymentDetails res w'.
  unfold ReservationService.addReservation, bind, ret, UserRepository.findUserById,
    FlightRepository.findFlightById, flight_ptr_getSeatStatus.
  cbn beta. destruct (users w !! passengerId) as [user|];
    [| intros [= <- <-]; split; [discriminate | reflexivity]].
  cbn beta iota.
  destruct (negb (UserModel.UserType_eqb (UserModel.role user) UserModel.Passenger));
    [intros [= <- <-]; split; [discriminate | reflexivity] |].
  destruct (UserModel.as_Passenger user) as [lp|];
    [| intros [= <- <-]; split; [discriminate | reflexivity]].
  cbn beta iota. destruct (flights w !! flightId) as [f|] eqn:Hf;
    [| intros [= <- <-]; split; [discriminate | reflexivity]].
  cbn beta iota. specialize (Hnotfree f eq_refl).
  destruct (FlightModel.getSeatStatus (aircrafts w) f seatNumber) as [[|] | | |];
    try (intros [= <- <-]; split; [discriminate | reflexivity]).
  congruence.
Qed.

(** C2. A booking that returns a reservation has set the cell of the seat
    on the flight to true; a booking of the same seat on the same flight
    made next, by any passenger with any payment, returns no reservation
    and leaves the whole state as it is; and so does every later one, in
    every state in which the seat does not read as free on that flight: it
    returns no reservation and creates nothing. *)
Theorem C2_booked_seat_is_refused
    (w w' : World) (flightId seatNumber passengerId paymentMethod : string)
    (paymentDetails : JSON) (r : ReservationModel.t)
    (Hbooked : ReservationService.addReservation flightId seatNumber passengerId
                 paymentMethod paymentDetails w = (Ok (Some r), w')) :
  (exists f',
     flights w' !! flightId = Some f' /\
     FlightModel.getSeatStatus (aircrafts w') f' seatNumber = Ok true) /\
  (forall passengerId2 paymentMethod2 paymentDetails2,
     ReservationService.addReservation flightId seatNumber passengerId2 paymentMethod2
       paymentDetails2 w' = (Ok None, w')) /\
  (forall w2,
     (forall f2, flights w2 !! flightId = Some f2 ->
                 FlightModel.getSeatStatus (aircrafts w2) f2 seatNumber <> Ok false) ->
     forall passengerId2 paymentMethod2 paymentDetails2 res w3,
       ReservationService.addReservation flightId seatNumber passengerId2 paymentMethod2
         paymentDetails2 w2 = (res, w3) ->
       (forall r2, res <> Ok (Some r2)) /\ w3 = w2).
Proof.
  destruct (addReservation_Some _ _ _ _ _ _ _ _ Hbooked)
    as (user & lp & f & f' & price & payment & w1 & _ & _ & _ & _ & _ & _ & Hset
        & Hflights & Haircrafts & _).
  assert (Hocc : flights w' !! flightId = Some f' /\
                 FlightModel.getSeatStatus (aircrafts w') f' seatNumber = Ok true).
  { rewrite Hflights, Haircrafts. split; [apply lookup_insert_eq |].
    now destruct (setSeatStatus_Ok _ _ _ _ _ Hset) as (_ & _ & _ & _ & Hget). }
  split; [exists f'; exact Hocc |]. split.
  - intros. now apply (addReservation_occupied w' flightId seatNumber f').
  - intros w2 Hnotfree passengerId2 paymentMethod2 paymentDetails2 res w3 Hcall.
    exact (addReservation_not_free w2 flightId seatNumber Hnotfree _ _ _ _ _ Hcall).
Qed.

Lemma C2_booked_seat_is_refused_witness :
  ReservationService.addReservation "FL-20001" "1D" "PAS-30001" "cash" JNull Example.booked
  = (Ok None, Example.booked).
Proof.
  assert (Hbooked :
    ReservationService.addReservation "FL-20001" "1D" "PAS-30001" "cash" JNull
      Example.world
    = (Ok (Some (ReservationModel.mk "RES-41002" "FL-20001" "PAS-30001" "1D"
                   ReservationModel.CONFIRMED "PAY-41001")), Example.booked)).
  { unfold Example.booked.
    destruct (ReservationService.addReservation "FL-20001" "1D" "PAS-30001" "cash" JNull
                Example.world) as [o w'] eqn:E.
    change o with (fst (o, w')). rewrite <- E. reflexivity. }
  exact (proj1 (proj2 (C2_booked_seat_is_refused _ _ _ _ _ _ _ _ Hbooked))
               "PAS-30001" "cash" JNull).
Defined.

(** C3. When the booking has reached the creation of the payment and that
    returns no payment, the booking returns no reservation and the
    reservations, the flights (their seat grids with them), the users
    (their loyalty points with them) and the payments are as before. More
    generally a booking that does not return a reservation has changed no
    user, flight or reservation; and one that returns a reservation has
    stored it and has written the adjusted loyalty points. *)
Theorem C3_failed_payment_changes_nothing :
  (forall (w w1 : World) (flightId seatNumber passengerId paymentMethod : string)
          (paymentDetails : JSON) (user : UserModel.t) (loyaltyPoints seatPrice : float)
          (flight : FlightModel.t),
     users w !! passengerId = Some user ->
     UserModel.role user = UserModel.Passenger ->
     UserModel.as_Passenger user = Some loyaltyPoints ->
     flights w !! flightId = Some flight ->
     FlightModel.getSeatStatus (aircrafts w) flight seatNumber = Ok false ->
     ReservationService.getSeatPrice seatNumber loyaltyPoints = Ok seatPrice ->
     PaymentService.createPayment passengerId seatPrice paymentMethod paymentDetails w
     = (Ok None, w1) ->
     ReservationService.addReservation flightId seatNumber passengerId paymentMethod
       paymentDetails w = (Ok None, w1) /\
     reservations w1 = reservations w /\ flights w1 = flights w /\
     users w1 = users w /\ payments w1 = payments w) /\
  (forall (w w' : World) (flightId seatNumber passengerId paymentMethod : string)
          (paymentDetails : JSON) (res : outcome (option ReservationModel.t)),
     ReservationService.addReservation flightId seatNumber passengerId paymentMethod
       paymentDetails w = (res, w') ->
     (forall r, res <> Ok (Some r)) ->
     users w' = users w /\ flights w' = flights w /\ reservations w' = reservations w) /\
  (forall (w w' : World) (flightId seatNumber passengerId paymentMethod : string)
          (paymentDetails : JSON) (r : ReservationModel.t),
     ReservationService.addReservation flightId seatNumber passengerId paymentMethod
       paymentDetails w = (Ok (Some r), w') ->
     reservations w' !! ReservationModel.reservationId r = Some r /\
     exists user loyaltyPoints seatPrice,
       users w !! passengerId = Some user /\
       UserModel.as_Passenger user = Some loyaltyPoints /\
       ReservationService.getSeatPrice seatNumber loyaltyPoints = Ok seatPrice /\
       users w' = <[passengerId := UserModel.setLoyaltyPoints user
                      (ReservationService.adjust_loyaltyPoints loyaltyPoints seatPrice)]>
                    (users w)).
Proof.
  split; [| split].
  - intros w w1 flightId seatNumber passengerId paymentMethod paymentDetails user lp price
      flight Huser Hrole Hlp Hflight Hfree Hprice Hpay.
    destruct (createPayment_frame _ _ _ _ _ _ _ Hpay) as (Hu & Hf & _ & Hr & Hp).
    split; [| repeat split; auto; apply Hp; discriminate].
    unfold ReservationService.addReservation, bind, ret, UserRepository.findUserById,
      FlightRepository.findFlightById, flight_ptr_getSeatStatus, lift.
    cbn beta. rewrite Huser. cbn beta iota. rewrite Hrole.
    cbn [UserModel.UserType_eqb negb]. rewrite Hlp. cbn beta iota.
    rewrite Hflight. cbn beta iota. rewrite Hfree. cbn beta iota.
    rewrite Hprice. cbn beta iota. rewrite Hpay. reflexivity.
  - intros. eapply addReservation_not_Some; eassumption.
  - intros w w' flightId seatNumber passengerId paymentMethod paymentDetails r Hbooked.
    destruct (addReservation_Some _ _ _ _ _ _ _ _ Hbooked)
      as (user & lp & f & f' & price & payment & w1 & Huser & Hlp & _ & _ & Hprice & _ & _
          & _ & _ & Husers & _ & Hres & _).
    split; [rewrite Hres; apply lookup_insert_eq |].
    exists user, lp, price. auto.
Qed.

Lemma C3_failed_payment_changes_nothing_witness :
  ReservationService.addReservation "FL-20001" "1D" "PAS-30001" "bitcoin" JNull
    Example.world
  = (Ok None, Example.world).
Proof.
  refine (proj1 (proj1 C3_failed_payment_changes_nothing Example.world Example.world
                   "FL-20001" "1D" "PAS-30001" "bitcoin" JNull Example.passenger f0
                   (f32_of_int 210) Example.flight _ _ _ _ _ _ _));
    reflexivity.
Defined.

(** ** Printing and reading numbers and dates *)


Lemma digits_value_acc_uint (d : Decimal.uint) (acc : positive) :
  digits_value_acc (Z.pos acc) (DecimalString.NilEmpty.string_of_uint d)
  = Z.pos (Pos.of_uint_acc d acc).
Proof.
  revert acc. induction d; intros acc;
    cbn [DecimalString.NilEmpty.string_of_uint digits_value_acc Pos.of_uint_acc];
    [reflexivity | rewrite <- IHd; f_equal; unfold digit_value; simpl N_of_ascii; lia ..].
Qed.

Lemma digits_value_uint (d : Decimal.uint) :
  digits_value (DecimalString.NilEmpty.string_of_uint d) = Z.of_N (Pos.of_uint d).
Proof.
  unfold digits_value. induction d;
    cbn [DecimalString.NilEmpty.string_of_uint digits_value_acc Pos.of_uint];
    [reflexivity | exact IHd | ..];
    (etransitivity; [| apply digits_value_acc_uint]); reflexivity.
Qed.

Lemma all_digits_uint (d : Decimal.uint) :
  str_forall isdigit (DecimalString.NilEmpty.string_of_uint d) = true.
Proof. induction d; simpl; auto. Qed.

Lemma to_string_nonneg (n : Z) :
  0 <= n ->
  to_string n <> "" /\ str_forall isdigit (to_string n) = true /\
  digits_value (to_string n) = n.
Proof.
  intros Hn. destruct n as [|p|p]; [repeat split; discriminate | | lia].
  unfold to_string. cbn [Z.to_int DecimalString.NilZero.string_of_int].
  pose proof (DecimalPos.Unsigned.to_uint_nonnil p) as Hnil.
  pose proof (DecimalPos.Unsigned.of_to p) as Hof.
  destruct (Pos.to_uint p) as [|d|d|d|d|d|d|d|d|d|d] eqn:E; [congruence | ..];
    (split; [discriminate |]);
    (split; [apply (all_digits_uint (_ d)) |]);
    cbn [DecimalString.NilZero.string_of_uint];
    rewrite digits_value_uint, Hof; reflexivity.
Qed.

(** ** Splitting a string at a separator *)

Lemma str_forall_app (p : ascii -> bool) (a b : string) :
  str_forall p (a ++ b) = str_forall p a && str_forall p b.
Proof.
  induction a as [|c a IH]; [reflexivity |].
  rewrite str_app_cons. cbn [str_forall]. now rewrite IH, andb_assoc.
Qed.

Lemma digits_free_of (c : ascii) (d : string) :
  isdigit c = false -> str_forall isdigit d = true -> free_of c d = true.
Proof.
  intros Hc. unfold free_of. induction d as [|x d IH]; cbn [str_forall]; [reflexivity |].
  intros H. apply andb_true_iff in H as [Hx Hd]. rewrite (IH Hd), andb_true_r.
  destruct (Ascii.eqb_spec c x) as [-> |]; [congruence | reflexivity].
Qed.

Lemma find_char_from_free (a : string) (c : ascii) (r : string) :
  free_of c a = true -> find_char_from (a ++ String c r) c 0 = Some (String.length a).
Proof.
  unfold free_of. induction a as [|x a IH]; intros H.
  - rewrite str_app_nil. cbn [find_char_from]. now rewrite Ascii.eqb_refl.
  - cbn [str_forall] in H. apply andb_true_iff in H as [Hx Ha].
    rewrite str_app_cons. cbn [find_char_from].
    apply negb_true_iff in Hx. rewrite Hx, (IH Ha). reflexivity.
Qed.

Lemma find_char_from_offset (a r : string) (c : ascii) (k : nat) :
  find_char_from (a ++ r) c (String.length a + k)
  = option_map (Nat.add (String.length a)) (find_char_from r c k).
Proof.
  induction a as [|x a IH].
  - rewrite str_app_nil. cbn. now destruct (find_char_from r c k).
  - rewrite str_app_cons. cbn [String.length Nat.add find_char_from]. rewrite IH.
    now destruct (find_char_from r c k).
Qed.

Lemma substring_skip (a r : string) (n : nat) :
  String.substring (String.length a) n (a ++ r) = String.substring 0 n r.
Proof. induction a as [|x a IH]; [reflexivity |]. rewrite str_app_cons. exact IH. Qed.

Lemma substring_full (r : string) : String.substring 0 (String.length r) r = r.
Proof. induction r as [|x r IH]; [reflexivity |]. cbn. now rewrite IH. Qed.

Lemma str_app_assoc (a b c : string) : (a ++ b) ++ c = a ++ (b ++ c).
Proof.
  induction a as [|x a IH]; [reflexivity |]. rewrite !str_app_cons. now rewrite IH.
Qed.

Lemma substr_from_skip (a r : string) :
  substr_from (a ++ r) (String.length a) = Ok r.
Proof.
  unfold substr_from, substr, str_size. rewrite str_length_app.
  replace (_ <? _)%nat with false by (symmetry; apply Nat.ltb_ge; lia).
  replace (String.length a + String.length r - String.length a)%nat
    with (String.length r) by lia.
  now rewrite substring_skip, substring_full.
Qed.

(** A string cut at the first occurrence of [c]. *)
Lemma split_at_first (a : string) (c : ascii) (r : string) :
  free_of c a = true ->
  let s := a ++ String c r in
  find_char_from s c 0 = Some (String.length a) /\
  substr s 0 (String.length a) = Ok a /\
  substr_from s (String.length a + 1) = Ok r.
Proof.
  intros Ha s. subst s. split; [now apply find_char_from_free |].
  unfold substr_from, substr, str_size. rewrite str_length_app. cbn [String.length].
  split.
  - cbn [Nat.ltb Nat.leb]. now rewrite substring_prefix.
  - replace (_ <? _)%nat with false by (symmetry; apply Nat.ltb_ge; lia).
    replace (String.length a + S (String.length r) - (String.length a + 1))%nat
      with (String.length r) by lia.
    replace (a ++ String c r) with ((a ++ String c "") ++ r)
      by (now rewrite str_app_assoc).
    replace (String.length a + 1)%nat with (String.length (a ++ String c ""))
      by (rewrite str_length_app; reflexivity).
    now rewrite substring_skip, substring_full.
Qed.

(** ** Numerals *)

Lemma stoi_numeral (s : string) (n : Z) : numeral s n -> stoi s = Ok n.
Proof.
  intros (Hne & Hd & <- & Hmax). rewrite (stoi_digits s Hne Hd).
  now replace (digits_value s <=? INT_MAX) with true by (symmetry; apply Z.leb_le; exact Hmax).
Qed.

Lemma numeral_to_string (n : Z) : 0 <= n <= INT_MAX -> numeral (to_string n) n.
Proof.
  intros [Hn Hmax]. destruct (to_string_nonneg n Hn) as (Hne & Hd & Hv).
  repeat split; assumption.
Qed.

Lemma numeral_pad2 (n : Z) : 0 <= n <= INT_MAX -> numeral (DateTime.pad2 n) n.
Proof.
  intros Hn. destruct (numeral_to_string n Hn) as (Hne & Hd & Hv & Hmax).
  unfold DateTime.pad2. destruct (n <? 10); [| rewrite str_app_nil; repeat split; assumption].
  change ("0" ++ to_string n) with (String "0" (to_string n)).
  repeat split; [discriminate | cbn [str_forall]; now rewrite Hd | exact Hv | exact Hmax].
Qed.

Lemma numeral_free_of (c : ascii) (s : string) (n : Z) :
  isdigit c = false -> numeral s n -> free_of c s = true.
Proof. intros Hc (_ & Hd & _). now apply digits_free_of. Qed.

Lemma numeral_first_not_blank (s : string) (n : Z) (r : string) :
  numeral s n -> DateTime.trim_left (s ++ r) = s ++ r.
Proof.
  intros (Hne & Hd & _). destruct s as [|c s]; [congruence |].
  cbn [str_forall] in Hd. apply andb_true_iff in Hd as [Hc _].
  rewrite str_app_cons. cbn [DateTime.trim_left].
  replace (DateTime.is_blank c) with false; [reflexivity |].
  destruct c as [[] [] [] [] [] [] [] []]; try discriminate Hc; reflexivity.
Qed.

Lemma str_back_app_r (a b : string) : b <> "" -> str_back (a ++ b) = str_back b.
Proof.
  intros Hb. induction a as [|c a IH]; [reflexivity |].
  rewrite str_app_cons. cbn [str_back]. rewrite IH.
  destruct (a ++ b) eqn:E; [| reflexivity].
  destruct a, b; try discriminate E; congruence.
Qed.

Lemma trim_right_id (s : string) (c : ascii) :
  str_back s = Some c -> DateTime.is_blank c = false -> DateTime.trim_right s = s.
Proof.
  intros Hback Hc. induction s as [|x s IH]; [reflexivity |].
  cbn [DateTime.trim_right]. destruct s as [|y s].
  - cbn in *. injection Hback as ->. now rewrite Hc.
  - rewrite IH by exact Hback. reflexivity.
Qed.

Lemma numeral_last_not_blank (s : string) (n : Z) :
  numeral s n -> exists c, str_back s = Some c /\ DateTime.is_blank c = false.
Proof.
  intros (Hne & Hd & _). induction s as [|x s IH]; [congruence |].
  cbn [str_forall] in Hd. apply andb_true_iff in Hd as [Hx Hd].
  destruct s as [|y s].
  - exists x. split; [reflexivity |].
    destruct x as [[] [] [] [] [] [] [] []]; try discriminate Hx; reflexivity.
  - destruct IH as (c & Hc & Hb); [discriminate | exact Hd |]. exists c. auto.
Qed.

Section DateTimeRoundTrip.

Import DateTime.

Lemma parseTimeOnly_numerals (H Mi : string) (h mi : Z) :
  numeral H h -> numeral Mi mi ->
  parseTimeOnly (H ++ String ":" Mi) = Ok (h, mi).
Proof.
  intros HH HMi. unfold parseTimeOnly.
  destruct (split_at_first H ":" Mi (numeral_free_of ":" _ _ eq_refl HH)) as (-> & -> & ->).
  cbn [obind]. rewrite (stoi_numeral _ _ HH), (stoi_numeral _ _ HMi). reflexivity.
Qed.

Lemma parseDateOnly_numerals (Y M D : string) (y m d : Z) :
  numeral Y y -> numeral M m -> numeral D d ->
  parseDateOnly (Y ++ String "-" (M ++ String "-" D)) = Ok (y, m, d).
Proof.
  intros HY HM HD. unfold parseDateOnly.
  pose proof (numeral_free_of "-" _ _ eq_refl HY) as FY.
  pose proof (numeral_free_of "-" _ _ eq_refl HM) as FM.
  destruct (split_at_first Y "-" (M ++ String "-" D) FY) as (-> & -> & _).
  destruct (split_at_first M "-" D FM) as (Hfind & HsubM & HsubD).
  assert (Hsecond : find_char_from (Y ++ String "-" (M ++ String "-" D)) "-"
                      (S (String.length Y))
                    = Some (String.length Y + 1 + String.length M)%nat).
  { replace (Y ++ String "-" (M ++ String "-" D))
      with ((Y ++ String "-" "") ++ (M ++ String "-" D)) by (now rewrite str_app_assoc).
    replace (S (String.length Y)) with (String.length (Y ++ String "-" "") + 0)%nat
      by (rewrite str_length_app; cbn; lia).
    rewrite find_char_from_offset, Hfind, str_length_app. reflexivity. }
  rewrite Hsecond. cbn [obind]. rewrite (stoi_numeral _ _ HY). cbn [obind].
  assert (Hmid : substr (Y ++ String "-" (M ++ String "-" D)) (String.length Y + 1)
                   (String.length Y + 1 + String.length M - String.length Y - 1)
                 = Ok M).
  { unfold substr, str_size. rewrite !str_length_app. cbn [String.length].
    rewrite str_length_app. cbn [String.length].
    replace (_ <? _)%nat with false by (symmetry; apply Nat.ltb_ge; lia).
    replace (String.length Y + 1 + String.length M - String.length Y - 1)%nat
      with (String.length M) by lia.
    replace (Y ++ String "-" (M ++ String "-" D))
      with ((Y ++ String "-" "") ++ (M ++ String "-" D)) by (now rewrite str_app_assoc).
    replace (String.length Y + 1)%nat with (String.length (Y ++ String "-" ""))
      by (rewrite str_length_app; reflexivity).
    now rewrite substring_skip, substring_prefix. }
  rewrite Hmid. cbn [obind]. rewrite (stoi_numeral _ _ HM). cbn [obind].
  assert (Hlast : substr_from (Y ++ String "-" (M ++ String "-" D))
                    (String.length Y + 1 + String.length M + 1) = Ok D).
  { replace (Y ++ String "-" (M ++ String "-" D))
      with ((Y ++ String "-" (M ++ String "-" "")) ++ D)
      by (now rewrite str_app_assoc, str_app_cons, str_app_assoc).
    replace (String.length Y + 1 + String.length M + 1)%nat
      with (String.length (Y ++ String "-" (M ++ String "-" "")))
      by (rewrite str_length_app; cbn [String.length]; rewrite str_length_app;
          cbn [String.length]; lia).
    apply substr_from_skip. }
  rewrite Hlast. cbn [obind]. rewrite (stoi_numeral _ _ HD). reflexivity.
Qed.

Lemma toString_parses (d : t) :
  isValid d = true -> year d <= INT_MAX -> from_string (toString d) = Ok d.
Proof.
  intros Hvalid Hyear. 
  assert (Hr : 0 <= year d /\ 1 <= month d <= 12 /\ 1 <= day d <= 31 /\
               0 <= hour d <= 23 /\ 0 <= minute d <= 59).
  { unfold isValid in Hvalid.
    destruct (Z.ltb_spec (year d) 0), (Z.ltb_spec (month d) 1), (Z.gtb_spec (month d) 12),
      (Z.ltb_spec (day d) 1), (Z.gtb_spec (day d) 31), (Z.ltb_spec (hour d) 0),
      (Z.gtb_spec (hour d) 23), (Z.ltb_spec (minute d) 0), (Z.gtb_spec (minute d) 59);
      cbn [orb] in Hvalid; try discriminate Hvalid. lia. }
  destruct Hr as (Hy & Hm & Hd & Hh & Hmi).
  assert (NY : numeral (to_string (year d)) (year d)) by (apply numeral_to_string; lia).
  assert (NM : numeral (pad2 (month d)) (month d))
    by (apply numeral_pad2; unfold INT_MAX; lia).
  assert (ND : numeral (pad2 (day d)) (day d))
    by (apply numeral_pad2; unfold INT_MAX; lia).
  assert (NH : numeral (pad2 (hour d)) (hour d))
    by (apply numeral_pad2; unfold INT_MAX; lia).
  assert (NMi : numeral (pad2 (minute d)) (minute d))
    by (apply numeral_pad2; unfold INT_MAX; lia).
  unfold toString, from_string.
  set (Y := to_string (year d)) in *. set (M := pad2 (month d)) in *.
  set (D := pad2 (day d)) in *. set (H := pad2 (hour d)) in *.
  set (Mi := pad2 (minute d)) in *.
  change (Y ++ "-" ++ M ++ "-" ++ D ++ " " ++ H ++ ":" ++ Mi)
    with (Y ++ String "-" (M ++ String "-" (D ++ String " " (H ++ String ":" Mi)))).
  rewrite (numeral_first_not_blank _ _ _ NY).
  destruct (numeral_last_not_blank _ _ NMi) as (c & Hback & Hblank).
  rewrite (trim_right_id _ c); [| | exact Hblank].
  2:{ replace (Y ++ String "-" (M ++ String "-" (D ++ String " " (H ++ String ":" Mi))))
        with ((Y ++ String "-" (M ++ String "-" (D ++ String " " (H ++ String ":" ""))))
              ++ Mi)
        by (repeat (rewrite str_app_assoc || rewrite str_app_cons || rewrite str_app_nil);
            reflexivity).
      rewrite str_back_app_r by (destruct NMi as (Hne & _); exact Hne). exact Hback. }
  assert (Fdate : free_of " " (Y ++ String "-" (M ++ String "-" D)) = true).
  { unfold free_of. rewrite !str_forall_app. cbn [str_forall].
    rewrite str_forall_app. cbn [str_forall].
    fold (free_of " " Y) (free_of " " M) (free_of " " D).
    rewrite (numeral_free_of " " _ _ eq_refl NY), (numeral_free_of " " _ _ eq_refl NM),
      (numeral_free_of " " _ _ eq_refl ND). reflexivity. }
  replace (Y ++ String "-" (M ++ String "-" (D ++ String " " (H ++ String ":" Mi))))
    with ((Y ++ String "-" (M ++ String "-" D)) ++ String " " (H ++ String ":" Mi))
    by (repeat (rewrite str_app_assoc || rewrite str_app_cons); reflexivity).
  destruct (split_at_first _ " " (H ++ String ":" Mi) Fdate) as (-> & -> & ->).
  cbn [obind].
  rewrite (parseDateOnly_numerals _ _ _ _ _ _ NY NM ND),
    (parseTimeOnly_numerals _ _ _ _ NH NMi).
  cbn [obind]. destruct d as [y m dd h mi]. cbn [year month day hour minute] in *.
  rewrite Hvalid. reflexivity.
Qed.

End DateTimeRoundTrip.

(** ** JSON round trips *)

Lemma get_vector_strings (l : list string) :
  get_vector get_string (JArray (map JString l)) = Ok l.
Proof.
  cbn [get_vector]. induction l as [|s l IH]; [reflexivity |].
  cbn [map mapM get_string obind]. now rewrite IH.
Qed.

Lemma get_vector_bools (row : list bool) :
  get_vector get_bool (JArray (map JBool row)) = Ok row.
Proof.
  cbn [get_vector]. induction row as [|b row IH]; [reflexivity |].
  cbn [map mapM get_bool obind]. now rewrite IH.
Qed.

Lemma get_vector_grid (g : list (list bool)) :
  get_vector (get_vector get_bool) (JArray (map (fun row => JArray (map JBool row)) g))
  = Ok g.
Proof.
  cbn [get_vector]. induction g as [|row g IH]; [reflexivity |].
  cbn [map mapM]. rewrite get_vector_bools. cbn [obind]. now rewrite IH.
Qed.

(** A flight as the constructors leave it, on an aircraft and with a crew
    that are in the repositories, is read back from its JSON as it is. *)
Lemma FlightModel_roundtrip (aircrafts : gmap string AircraftModel.t)
    (crewMembers : gmap string CrewMemberModel.t) (f : FlightModel.t)
    (a : AircraftModel.t) (row0 : list bool) (rows : list (list bool)) :
  lacks_prefix (FlightModel.flightId f) "FL-" = false ->
  FlightModel.origin f <> "" -> FlightModel.destination f <> "" ->
  DateTime.isValid (FlightModel.departureTime f) = true ->
  DateTime.isValid (FlightModel.arrivalTime f) = true ->
  DateTime.year (FlightModel.departureTime f) <= INT_MAX ->
  DateTime.year (FlightModel.arrivalTime f) <= INT_MAX ->
  DateTime.le (FlightModel.arrivalTime f) (FlightModel.departureTime f) = false ->
  aircrafts !! FlightModel.aircraftId f = Some a ->
  FlightModel.all_exist crewMembers (FlightModel.crewMemberIds f) = true ->
  FlightModel.seatMap f = row0 :: rows ->
  Z.of_nat (length row0) = AircraftModel.numOfRowSeats a ->
  Z.of_nat (length (row0 :: rows)) = AircraftModel.numOfRows a ->
  FlightModel.from_json aircrafts crewMembers (FlightModel.to_json f) = Ok f.
Proof.
  intros Hid Ho Hd Hdep Harr Hydep Hyarr Hle Ha Hcrew Hmap Hcols Hrows.
  unfold FlightModel.from_json.
  change (require_keys (FlightModel.to_json f) _) with (Ok tt).
  change (json_at (FlightModel.to_json f) "id") with (Ok (JString (FlightModel.flightId f))).
  change (json_at (FlightModel.to_json f) "origin")
    with (Ok (JString (FlightModel.origin f))).
  change (json_at (FlightModel.to_json f) "destination")
    with (Ok (JString (FlightModel.destination f))).
  change (json_at (FlightModel.to_json f) "departureTime")
    with (Ok (JString (DateTime.toString (FlightModel.departureTime f)))).
  change (json_at (FlightModel.to_json f) "arrivalTime")
    with (Ok (JString (DateTime.toString (FlightModel.arrivalTime f)))).
  change (json_at (FlightModel.to_json f) "aircraftId")
    with (Ok (JString (FlightModel.aircraftId f))).
  change (json_at (FlightModel.to_json f) "crewMemberIds")
    with (Ok (JArray (map JString (FlightModel.crewMemberIds f)))).
  change (json_at (FlightModel.to_json f) "seatMap")
    with (Ok (JArray (map (fun row => JArray (map JBool row)) (FlightModel.seatMap f)))).
  cbn [obind get_string]. rewrite Hid. cbn [throw_if obind].
  destruct (FlightModel.origin f) as [|co o] eqn:Eo; [congruence |].
  destruct (FlightModel.destination f) as [|cd dst] eqn:Ed; [congruence |].
  cbn [str_empty orb throw_if obind].
  rewrite (toString_parses _ Hdep Hydep), (toString_parses _ Harr Hyarr).
  cbn [obind]. rewrite Hdep, Harr, Hle. cbn [negb throw_if obind].
  rewrite Ha, get_vector_strings. cbn [obind]. rewrite Hcrew. cbn [negb throw_if obind].
  rewrite get_vector_grid. cbn [obind]. rewrite Hmap.
  rewrite Hcols, Hrows, !Z.eqb_refl. cbn [negb orb throw_if obind].
  destruct f. cbn in *. subst. reflexivity.
Qed.

(** An aircraft as the constructors leave it is read back from its JSON
    as it is. *)
Lemma AircraftModel_roundtrip (a : AircraftModel.t) :
  AircraftModel.invariant a ->
  lacks_prefix (AircraftModel.aircraftId a) "AC-" = false ->
  AircraftModel.model a <> "" ->
  INT_MIN <= AircraftModel.capacity a <= INT_MAX ->
  AircraftModel.from_json (AircraftModel.to_json a) = Ok a.
Proof.
  intros (Hc & Hn & Hmod & Hrows) Hid Hmodel Hint.
  destruct a as [id m c n rows]. cbn in *.
  unfold AircraftModel.from_json, AircraftModel.to_json.
  cbn. rewrite Hid. cbn.
  assert (Hwrap : forall z, INT_MIN <= z <= INT_MAX -> wrap_int z = z).
  { intros z Hz. unfold wrap_int, INT_MIN, INT_MAX in *.
    rewrite Z.mod_small; lia. }
  rewrite (Hwrap c) by exact Hint.
  rewrite (Hwrap n) by (unfold INT_MIN, INT_MAX; lia).
  destruct m; [congruence |]. cbn [str_empty throw_if obind].
  unfold throw_if.
  replace (c <=? 0) with false by (symmetry; apply Z.leb_gt; lia).
  replace (n <=? 0) with false by (symmetry; apply Z.leb_gt; lia).
  replace (n >? AircraftModel.MAX_SEATS_PER_ROW) with false
    by (symmetry; apply Zgtb_false; unfold AircraftModel.MAX_SEATS_PER_ROW; lia).
  rewrite Z.rem_mod_nonneg by lia. rewrite Hmod.
  cbn [Z.eqb negb obind].
  rewrite Z.quot_div_nonneg by lia. now rewrite <- Hrows.
Qed.

(** The flight and a completed payment of the example are read back from
    their JSON as they are. *)
Example FlightModel_roundtrip_example :
  FlightModel.from_json (aircrafts Example.booked) (crewMembers Example.booked)
    (FlightModel.to_json Example.flight) = Ok Example.flight.
Proof. reflexivity. Qed.

Example PaymentModel_roundtrip_completed :
  let p := PaymentModel.mk "PAY-41001" "PAS-30001" (f32_of_int 210)
             (Some PaymentStrategy.CashPayment) (DateTime.mk 2025 1 1 12 0)
             PaymentModel.COMPLETED in
  PaymentModel.from_json (users Example.booked) (PaymentModel.to_json p) = Ok p.
Proof. reflexivity. Qed.

(** No payment whose status is PENDING is read back from its JSON: its
    status is written as "UNKNOWN", which the constructor refuses. *)
Lemma PaymentModel_pending_not_read_back (users : gmap string UserModel.t)
    (p : PaymentModel.t) :
  PaymentModel.status p = PaymentModel.PENDING ->
  forall p', PaymentModel.from_json users (PaymentModel.to_json p) <> Ok p'.
Proof.
  intros Hpending p' H.
  assert (Hstatus : json_at (PaymentModel.to_json p) "status" = Ok (JString "UNKNOWN")).
  { unfold PaymentModel.to_json. rewrite Hpending. reflexivity. }
  unfold PaymentModel.from_json in H. inv_ok.
  match goal with
  | Hat : json_at (PaymentModel.to_json p) "status" = Ok ?j, Hget : get_string ?j = Ok ?s
    |- _ => rewrite Hstatus in Hat; injection Hat as <-; injection Hget as <-
  end.
  discriminate H.
Qed.

(** C8 fails on the payment that a booking creates. The payment of bob's
    booking is in the repository with status PENDING; its JSON carries the
    status "UNKNOWN", and constructing a PaymentModel from that JSON throws
    invalid_argument instead of giving the payment back. *)
Theorem C8_pending_payment_roundtrip_fails :
  payments Example.booked !! "PAY-41001"
  = Some (PaymentModel.mk "PAY-41001" "PAS-30001" (f32_of_int 210)
            (Some PaymentStrategy.CashPayment) (DateTime.mk 2025 1 1 12 0)
            PaymentModel.PENDING) /\
  json_at (PaymentModel.to_json
             (PaymentModel.mk "PAY-41001" "PAS-30001" (f32_of_int 210)
                (Some PaymentStrategy.CashPayment) (DateTime.mk 2025 1 1 12 0)
                PaymentModel.PENDING)) "status"
  = Ok (JString "UNKNOWN") /\
  PaymentModel.from_json (users Example.booked)
    (PaymentModel.to_json
       (PaymentModel.mk "PAY-41001" "PAS-30001" (f32_of_int 210)
          (Some PaymentStrategy.CashPayment) (DateTime.mk 2025 1 1 12 0)
          PaymentModel.PENDING))
  = Throw invalid_argument.
Proof. split; [| split]; reflexivity. Qed.

(** * Further properties *)

(** ** Dates: order, parsing, calendar *)

(** The leap year test of [isValid], on a year that is not negative. *)
Lemma isLeap_leap_year (y : Z) :
  0 <= y ->
  ((Z.rem y 4 =? 0) && negb (Z.rem y 100 =? 0)) || (Z.rem y 400 =? 0) = leap_year y.
Proof.
  intros Hy. unfold leap_year.
  rewrite !Z.rem_mod_nonneg by lia.
  destruct (Z.eqb_spec (y mod 4) 0), (Z.eqb_spec (y mod 100) 0),
    (Z.eqb_spec (y mod 400) 0); cbn; try reflexivity;
    exfalso; Z.to_euclidean_division_equations; lia.
Qed.

(** Decides the next comparison of a chain of range checks, closing the
    branch in which the check fails. *)
Ltac range_check :=
  match goal with
  | |- context [?a <? ?b] =>
      destruct (Z.ltb_spec a b); cbn [orb andb negb];
      try (split; [discriminate | intros; lia])
  end.

(** [isValid] accepts exactly the dates of the Gregorian calendar from
    year 0 on, with an hour from 0 to 23 and a minute from 0 to 59. *)
Lemma isValid_calendar (d : DateTime.t) :
  DateTime.isValid d = true <->
  0 <= DateTime.year d /\ 1 <= DateTime.month d <= 12 /\
  1 <= DateTime.day d <= days_in_month (DateTime.year d) (DateTime.month d) /\
  0 <= DateTime.hour d <= 23 /\ 0 <= DateTime.minute d <= 59.
Proof.
  destruct d as [y m dd h mi]. unfold DateTime.isValid, days_in_month.
  cbn [DateTime.year DateTime.month DateTime.day DateTime.hour DateTime.minute].
  destruct (Z.ltb_spec y 0) as [Hy | Hy]; cbn [orb]; [split; [discriminate | lia] |].
  rewrite (isLeap_leap_year y Hy), !Z.gtb_ltb.
  assert (Hm : m = 2 \/ m = 4 \/ m = 6 \/ m = 9 \/ m = 11 \/
               (m <> 2 /\ m <> 4 /\ m <> 6 /\ m <> 9 /\ m <> 11)) by lia.
  destruct Hm as [-> | [-> | [-> | [-> | [-> | (H2 & H4 & H6 & H9 & H11)]]]]].
  6: { apply Z.eqb_neq in H2, H4, H6, H9, H11. rewrite H2, H4, H6, H9, H11.
       cbn [orb andb negb]. repeat range_check. split; [intros; lia | reflexivity]. }
  all: cbn [Z.eqb Pos.eqb orb andb negb Z.ltb Z.compare Pos.compare Pos.compare_cont];
    try destruct (leap_year y); cbn [orb andb negb];
    repeat range_check; split; (reflexivity || (intros; lia)).
Qed.

Lemma find_char_from_lt (s : string) (c : ascii) (k i : nat) :
  find_char_from s c k = Some i -> (i < String.length s)%nat.
Proof.
  revert k i. induction s as [| d s IH]; intros k i H; simpl in H; [discriminate |].
  destruct k as [| k].
  - destruct (Ascii.eqb c d).
    + injection H as <-. simpl. lia.
    + destruct (find_char_from s c 0) as [j |] eqn:E; [| discriminate].
      injection H as <-. apply IH in E. simpl. lia.
  - destruct (find_char_from s c k) as [j |] eqn:E; [| discriminate].
    injection H as <-. apply IH in E. simpl. lia.
Qed.

Lemma stoi_range (s : string) (n : Z) : stoi s = Ok n -> INT_MIN <= n <= INT_MAX.
Proof.
  unfold stoi. destruct (read_sign (skip_spaces s)) as [neg s2].
  destruct (span_digits s2) as [ds rest]. destruct (str_empty ds); [discriminate |].
  destruct ((INT_MIN <=? _) && (_ <=? INT_MAX)) eqn:E; [| discriminate].
  intros H. injection H as <-. apply andb_true_iff in E. lia.
Qed.

(** Splits on the outcome of the next [stoi] of the goal. *)
Ltac stoi_cases :=
  match goal with
  | |- context [stoi ?x] =>
      let n := fresh "n" in
      let e := fresh "e" in
      let E := fresh "E" in
      destruct (stoi_returns_or_throws x) as [[n E] | [e E]];
      rewrite E; cbn [obind DateTime.rethrow_invalid]
  end.

Lemma parseDateOnly_outcome (s : string) :
  (exists y m d, DateTime.parseDateOnly s = Ok (y, m, d) /\ y <= INT_MAX) \/
  DateTime.parseDateOnly s = Throw invalid_argument.
Proof.
  unfold DateTime.parseDateOnly.
  destruct (find_char_from s "-" 0) as [i |]; [| right; reflexivity].
  destruct (find_char_from s "-" (S i)) as [j |]; [| right; reflexivity].
  unfold substr_from, substr.
  repeat (match goal with
          | |- context [if ?b then Throw _ else _] => destruct b
          end; cbn [obind DateTime.rethrow_invalid]; [right; reflexivity |]).
  stoi_cases; [| right; reflexivity].
  pose proof (stoi_range _ _ E) as Hy.
  repeat (match goal with
          | |- context [if ?b then Throw _ else _] => destruct b
          end; cbn [obind DateTime.rethrow_invalid]; [right; reflexivity |]).
  stoi_cases; [| right; reflexivity].
  repeat (match goal with
          | |- context [if ?b then Throw _ else _] => destruct b
          end; cbn [obind DateTime.rethrow_invalid]; [right; reflexivity |]).
  stoi_cases; [| right; reflexivity].
  left. do 3 eexists. split; [reflexivity | lia].
Qed.

Lemma parseTimeOnly_outcome (s : string) :
  (exists h mi, DateTime.parseTimeOnly s = Ok (h, mi)) \/
  DateTime.parseTimeOnly s = Throw invalid_argument.
Proof.
  unfold DateTime.parseTimeOnly.
  destruct (find_char_from s ":" 0) as [i |]; [| right; reflexivity].
  unfold substr_from, substr.
  repeat (match goal with
          | |- context [if ?b then Throw _ else _] => destruct b
          end; cbn [obind DateTime.rethrow_invalid]; [right; reflexivity |]).
  stoi_cases; [| right; reflexivity].
  repeat (match goal with
          | |- context [if ?b then Throw _ else _] => destruct b
          end; cbn [obind DateTime.rethrow_invalid]; [right; reflexivity |]).
  stoi_cases; [| right; reflexivity].
  left. eauto.
Qed.

Lemma from_string_outcome (s : string) :
  (exists d, DateTime.from_string s = Ok d /\ DateTime.isValid d = true /\
             DateTime.year d <= INT_MAX) \/
  DateTime.from_string s = Throw invalid_argument.
Proof.
  unfold DateTime.from_string.
  set (trimmed := DateTime.trim_right (DateTime.trim_left s)).
  destruct (find_char_from trimmed " " 0) as [i |] eqn:Ei.
  - apply find_char_from_lt in Ei.
    unfold substr_from, substr.
    destruct (str_size trimmed <? 0)%nat eqn:E0; [apply Nat.ltb_lt in E0; lia |].
    destruct (str_size trimmed <? i + 1)%nat eqn:E1;
      [apply Nat.ltb_lt in E1; unfold str_size in E1; lia |].
    cbn [obind].
    destruct (parseDateOnly_outcome (String.substring 0 i trimmed))
      as [(y & m & d & -> & Hy) | ->]; [| right; reflexivity].
    cbn [obind].
    destruct (parseTimeOnly_outcome
                (String.substring (i + 1) (str_size trimmed - (i + 1)) trimmed))
      as [(h & mi & ->) | ->]; [| right; reflexivity].
    cbn [obind].
    destruct (DateTime.isValid (DateTime.mk y m d h mi)) eqn:Ev; cbn; [| right; reflexivity].
    left. eexists. repeat split; [exact Ev | exact Hy].
  - destruct (parseDateOnly_outcome trimmed) as [(y & m & d & -> & Hy) | ->];
      [| right; reflexivity].
    cbn [obind].
    destruct (DateTime.isValid (DateTime.mk y m d 0 0)) eqn:Ev; cbn; [| right; reflexivity].
    left. eexists. repeat split; [exact Ev | exact Hy].
Qed.

(** Splits on every comparison of two integers in the goal and the
    hypotheses. *)
Ltac order_cases :=
  repeat (match goal with
          | H : context [?a =? ?b] |- _ => destruct (Z.eqb_spec a b)
          | |- context [?a =? ?b] => destruct (Z.eqb_spec a b)
          end;
          cbn [negb] in *; try subst;
          try (rewrite ?Z.ltb_lt, ?Z.ltb_ge in *; lia)).

(** X1: [operator<=] of [DateTime] is the strict lexicographic order on
    (year, month, day, hour, minute): [a <= b] holds exactly when the fields
    of [a], in this order, come before those of [b]. So no date is [<=]
    itself, the relation is asymmetric and transitive, and two dates that it
    does not order either way are equal. *)
Theorem DateTime_le_is_strict (a b c : DateTime.t) :
  (DateTime.le a b = true <-> lex_lt (date_fields a) (date_fields b)) /\
  DateTime.le a a = false /\
  (DateTime.le a b = true -> DateTime.le b a = false) /\
  (DateTime.le a b = true -> DateTime.le b c = true -> DateTime.le a c = true) /\
  (DateTime.le a b = false -> DateTime.le b a = false -> a = b).
Proof.
  destruct a as [y1 m1 d1 h1 i1], b as [y2 m2 d2 h2 i2], c as [y3 m3 d3 h3 i3].
  unfold DateTime.le, date_fields.
  cbn [DateTime.year DateTime.month DateTime.day DateTime.hour DateTime.minute lex_lt].
  split; [| repeat split].
  - split; intros H.
    + order_cases; rewrite ?Z.ltb_lt in *; lia.
    + order_cases; rewrite ?Z.ltb_lt; lia.
  - rewrite !Z.eqb_refl. cbn. apply Z.ltb_irrefl.
  - intros; order_cases.
  - intros; order_cases.
  - intros; order_cases. rewrite ?Z.ltb_lt, ?Z.ltb_ge in *. f_equal; lia.
Qed.

Lemma DateTime_le_is_strict_witness :
  DateTime.le (DateTime.mk 2025 1 31 23 59) (DateTime.mk 2025 2 1 0 0) = true /\
  DateTime.le (DateTime.mk 2025 1 5 9 30) (DateTime.mk 2025 1 5 9 30) = false /\
  DateTime.le (DateTime.mk 2025 1 5 14 0) (DateTime.mk 2025 1 5 9 30) = false.
Proof.
  pose proof (DateTime_le_is_strict (DateTime.mk 2025 1 5 9 30) (DateTime.mk 2025 1 5 14 0)
                (DateTime.mk 2025 1 5 9 30)) as (_ & Hirr & Hasym & _).
  split; [| split; [exact Hirr | apply Hasym; reflexivity]].
  apply (proj2 (proj1 (DateTime_le_is_strict (DateTime.mk 2025 1 31 23 59)
                         (DateTime.mk 2025 2 1 0 0) (DateTime.mk 2025 2 1 0 0)))).
  cbn. lia.
Defined.

(** X2: [DateTime(const std::string&)] either throws invalid_argument, and
    no other exception, or returns a date of the Gregorian calendar (year 0
    or later, a day that the month has in that year, an hour from 0 to 23, a
    minute from 0 to 59); a returned date is what its own [toString] parses
    to. *)
Theorem DateTime_from_string_outcomes (s : string) :
  DateTime.from_string s = Throw invalid_argument \/
  exists d,
    DateTime.from_string s = Ok d /\
    (0 <= DateTime.year d <= INT_MAX /\ 1 <= DateTime.month d <= 12 /\
     1 <= DateTime.day d <= days_in_month (DateTime.year d) (DateTime.month d) /\
     0 <= DateTime.hour d <= 23 /\ 0 <= DateTime.minute d <= 59) /\
    DateTime.from_string (DateTime.toString d) = Ok d.
Proof.
  destruct (from_string_outcome s) as [(d & Hd & Hv & Hy) | H]; [right | left; exact H].
  exists d. split; [exact Hd |]. split; [| apply toString_parses; assumption].
  apply isValid_calendar in Hv. tauto.
Qed.

(** X3: [toString] followed by the string constructor gives back every
    valid date, so [toString] maps different valid dates to different
    strings. *)
Theorem DateTime_toString_roundtrip (d : DateTime.t)
    (Hvalid : DateTime.isValid d = true) (Hint : DateTime.year d <= INT_MAX) :
  DateTime.from_string (DateTime.toString d) = Ok d /\
  forall d', DateTime.isValid d' = true -> DateTime.year d' <= INT_MAX ->
             DateTime.toString d' = DateTime.toString d -> d' = d.
Proof.
  split; [apply toString_parses; assumption |].
  intros d' Hv' Hy' Heq.
  pose proof (toString_parses d' Hv' Hy') as H'. rewrite Heq in H'.
  rewrite (toString_parses d Hvalid Hint) in H'. congruence.
Qed.

Lemma DateTime_toString_roundtrip_witness :
  DateTime.from_string "2024-02-29 07:05" = Ok (DateTime.mk 2024 2 29 7 5).
Proof.
  apply (DateTime_toString_roundtrip (DateTime.mk 2024 2 29 7 5)); [reflexivity |].
  unfold INT_MAX. cbn. lia.
Defined.

(** ** Seats of a flight whose grid has the geometry of its aircraft *)

Lemma isValidSeat_is_invalid (aircrafts : gmap string AircraftModel.t)
    (f : FlightModel.t) (s : string) :
  FlightModel.isValidSeat aircrafts f s
  = negb (FlightModel.is_invalid (FlightModel.getSeatIndices aircrafts f s)).
Proof.
  unfold FlightModel.isValidSeat, FlightModel.is_invalid.
  destruct (_ =? -1), (_ =? -1); reflexivity.
Qed.

Lemma valid_seat_indices (aircrafts : gmap string AircraftModel.t) (f : FlightModel.t)
    (s : string) :
  FlightModel.is_invalid (FlightModel.getSeatIndices aircrafts f s) = false ->
  exists a row col,
    aircrafts !! FlightModel.aircraftId f = Some a /\
    FlightModel.getSeatIndices aircrafts f s = (row, col) /\
    0 <= row < AircraftModel.numOfRows a /\ 0 <= col < AircraftModel.numOfRowSeats a /\
    seat_code (AircraftModel.numOfRows a) (AircraftModel.numOfRowSeats a) s row col.
Proof.
  intros Hvalid.
  destruct (aircrafts !! FlightModel.aircraftId f) as [a |] eqn:Hfound.
  - destruct (getSeatIndices_sound aircrafts f a Hfound s)
      as [Hinv | (row & col & Hij & Hrow & Hcol & Hcode)].
    + rewrite Hinv in Hvalid. discriminate.
    + exists a, row, col. repeat split; try assumption;
        destruct Hcode as (digits & letter & _ & _ & _ & ? & ? & ? & ?); lia.
  - unfold FlightModel.getSeatIndices in Hvalid. rewrite Hfound in Hvalid. discriminate.
Qed.

Lemma grid_get_cell (g : list (list bool)) (i j : Z) :
  0 <= i -> 0 <= j ->
  FlightModel.grid_get g i j
  = match cell g (Z.to_nat i) (Z.to_nat j) with Some b => Ok b | None => Undefined end.
Proof.
  intros Hi Hj. unfold FlightModel.grid_get, cell.
  destruct (Z.ltb_spec i 0); [lia |]. destruct (Z.ltb_spec j 0); [lia |]. cbn [orb].
  destruct (g !! Z.to_nat i); reflexivity.
Qed.

Lemma grid_matches_cell (a : AircraftModel.t) (g : list (list bool)) (row col : Z) :
  grid_matches a g ->
  0 <= row < AircraftModel.numOfRows a -> 0 <= col < AircraftModel.numOfRowSeats a ->
  exists b, cell g (Z.to_nat row) (Z.to_nat col) = Some b.
Proof.
  intros [Hrows Hcols] Hrow Hcol. unfold cell.
  destruct (lookup_lt_is_Some_2 g (Z.to_nat row)) as [r Hr]; [lia |].
  rewrite Hr. rewrite Forall_lookup in Hcols. specialize (Hcols _ _ Hr).
  apply lookup_lt_is_Some_2. lia.
Qed.

Lemma grid_set_matches (a : AircraftModel.t) (g g' : list (list bool)) (i j : Z)
    (b : bool) :
  grid_matches a g -> FlightModel.grid_set g i j b = Ok g' -> grid_matches a g'.
Proof.
  intros [Hrows Hcols] Hset. unfold FlightModel.grid_set in Hset.
  destruct ((i <? 0) || (j <? 0)); [discriminate |].
  destruct (g !! Z.to_nat i) as [r |] eqn:Hr; [| discriminate].
  destruct (Z.to_nat j <? length r)%nat; [| discriminate].
  injection Hset as <-. split.
  - rewrite length_insert. exact Hrows.
  - apply Forall_insert; [exact Hcols |]. rewrite length_insert.
    rewrite Forall_lookup in Hcols. exact (Hcols _ _ Hr).
Qed.

(** X4: on a flight whose aircraft is in the repository and whose seat
    grid has the geometry of that aircraft, reading or writing the status
    of a seat never leaves the grid: a seat that [isValidSeat] rejects makes
    both calls throw invalid_argument, and for a seat it accepts
    [getSeatStatus] returns and [setSeatStatus] returns a flight with the
    same aircraft, a grid of the same geometry and the seat at the status
    written. *)
Theorem seat_status_on_matching_grid
    (aircrafts : gmap string AircraftModel.t) (f : FlightModel.t) (a : AircraftModel.t)
    (s : string)
    (Hfound : aircrafts !! FlightModel.aircraftId f = Some a)
    (Hgrid : grid_matches a (FlightModel.seatMap f)) :
  (FlightModel.isValidSeat aircrafts f s = false ->
     FlightModel.getSeatStatus aircrafts f s = Throw invalid_argument /\
     forall b, FlightModel.setSeatStatus aircrafts f s b = Throw invalid_argument) /\
  (FlightModel.isValidSeat aircrafts f s = true ->
     (exists b0, FlightModel.getSeatStatus aircrafts f s = Ok b0) /\
     forall b, exists f',
       FlightModel.setSeatStatus aircrafts f s b = Ok f' /\
       FlightModel.aircraftId f' = FlightModel.aircraftId f /\
       grid_matches a (FlightModel.seatMap f') /\
       FlightModel.getSeatStatus aircrafts f' s = Ok b).
Proof.
  rewrite isValidSeat_is_invalid. split; intros Hvalid.
  - apply negb_false_iff in Hvalid.
    unfold FlightModel.getSeatStatus, FlightModel.setSeatStatus. rewrite Hvalid. auto.
  - apply negb_true_iff in Hvalid.
    destruct (valid_seat_indices _ _ _ Hvalid) as (a' & row & col & Hfound' & Hij & Hrow & Hcol & _).
    rewrite Hfound in Hfound'. injection Hfound' as <-.
    destruct (grid_matches_cell a _ row col Hgrid Hrow Hcol) as [b0 Hcell].
    assert (Hget : FlightModel.getSeatStatus aircrafts f s = Ok b0).
    { unfold FlightModel.getSeatStatus. rewrite Hvalid, Hij. cbn [fst snd].
      rewrite grid_get_cell by lia. rewrite Hcell. reflexivity. }
    split; [eauto |]. intros b.
    destruct (setSeatStatus_defined aircrafts f s b0 b Hget) as [f' Hset].
    exists f'. split; [exact Hset |].
    destruct (setSeatStatus_Ok aircrafts f f' s b Hset) as (_ & Hf' & _ & _ & Hread).
    split; [rewrite Hf'; reflexivity |]. split; [| exact Hread].
    unfold FlightModel.setSeatStatus in Hset. rewrite Hvalid in Hset.
    destruct (FlightModel.grid_set _ _ _ _) as [g' | | |] eqn:Eg; try discriminate.
    cbn in Hset. injection Hset as <-. cbn. eapply grid_set_matches; eassumption.
Qed.

Lemma seat_status_on_matching_grid_witness :
  FlightModel.getSeatStatus (aircrafts Example.world) Example.flight "0A"
  = Throw invalid_argument /\
  exists b0, FlightModel.getSeatStatus (aircrafts Example.world) Example.flight "3D"
             = Ok b0.
Proof.
  assert (Hgrid : grid_matches Example.aircraft (FlightModel.seatMap Example.flight)).
  { split; [reflexivity | repeat constructor]. }
  split.
  - apply (seat_status_on_matching_grid (aircrafts Example.world) Example.flight
             Example.aircraft "0A" eq_refl Hgrid); reflexivity.
  - apply (seat_status_on_matching_grid (aircrafts Example.world) Example.flight
             Example.aircraft "3D" eq_refl Hgrid); reflexivity.
Defined.

Lemma getSeatStatus_after_set
    (aircrafts : gmap string AircraftModel.t) (f f' : FlightModel.t) (s : string)
    (b : bool)
    (Hset : FlightModel.setSeatStatus aircrafts f s b = Ok f') :
  forall s2,
    (FlightModel.getSeatIndices aircrafts f s2 = FlightModel.getSeatIndices aircrafts f s ->
     FlightModel.getSeatStatus aircrafts f' s2 = Ok b) /\
    (FlightModel.getSeatIndices aircrafts f s2 <> FlightModel.getSeatIndices aircrafts f s ->
     FlightModel.getSeatStatus aircrafts f' s2 = FlightModel.getSeatStatus aircrafts f s2).
Proof.
  intros s2.
  destruct (setSeatStatus_Ok aircrafts f f' s b Hset) as (Hvalid & Hf' & Hcell & Hframe & _).
  cbv zeta in *.
  destruct (valid_seat_indices _ _ _ Hvalid) as (a & row & col & Hfound & Hij & Hrow & Hcol & _).
  rewrite Hij in *. cbn [fst snd] in *.
  assert (Hidx : FlightModel.getSeatIndices aircrafts f' s2
                 = FlightModel.getSeatIndices aircrafts f s2).
  { rewrite Hf'. apply getSeatIndices_with_seatMap. }
  unfold FlightModel.getSeatStatus. rewrite Hidx. split; intros H2.
  - rewrite H2. cbn [fst snd]. rewrite Hvalid.
    rewrite grid_get_cell by lia. rewrite Hcell. reflexivity.
  - destruct (FlightModel.is_invalid (FlightModel.getSeatIndices aircrafts f s2)) eqn:Hv2;
      [reflexivity |].
    destruct (valid_seat_indices _ _ _ Hv2) as (a2 & row2 & col2 & _ & Hij2 & Hrow2 & Hcol2 & _).
    rewrite Hij2 in *. cbn [fst snd].
    rewrite !grid_get_cell by lia. rewrite Hframe; [reflexivity |].
    intros Heq. apply H2. injection Heq as Hr Hc. f_equal; lia.
Qed.

(** X5: after [setSeatStatus(s, b)] has returned, [getSeatStatus] gives
    [b] for every seat code that decodes to the same row and column as [s]
    (such as "01A" for "1A") and what it gave before for every other
    code. *)
Theorem setSeatStatus_then_getSeatStatus
    (aircrafts : gmap string AircraftModel.t) (f f' : FlightModel.t) (s : string)
    (b : bool)
    (Hset : FlightModel.setSeatStatus aircrafts f s b = Ok f') :
  forall s2,
    (FlightModel.getSeatIndices aircrafts f s2 = FlightModel.getSeatIndices aircrafts f s ->
     FlightModel.getSeatStatus aircrafts f' s2 = Ok b) /\
    (FlightModel.getSeatIndices aircrafts f s2 <> FlightModel.getSeatIndices aircrafts f s ->
     FlightModel.getSeatStatus aircrafts f' s2 = FlightModel.getSeatStatus aircrafts f s2).
Proof. exact (getSeatStatus_after_set aircrafts f f' s b Hset). Qed.

Lemma setSeatStatus_then_getSeatStatus_witness :
  exists f',
    FlightModel.setSeatStatus (aircrafts Example.world) Example.flight "1A" true = Ok f' /\
    FlightModel.getSeatStatus (aircrafts Example.world) f' "01A" = Ok true /\
    FlightModel.getSeatStatus (aircrafts Example.world) f' "1B" = Ok false.
Proof.
  eexists. split; [reflexivity |]. split.
  - eapply (setSeatStatus_then_getSeatStatus (aircrafts Example.world) Example.flight _
              "1A" true eq_refl "01A"). reflexivity.
  - apply (proj2 (setSeatStatus_then_getSeatStatus (aircrafts Example.world) Example.flight
                    _ "1A" true eq_refl "1B")). discriminate.
Defined.

Lemma from_string_Ok (s : string) (d : DateTime.t) :
  DateTime.from_string s = Ok d ->
  DateTime.isValid d = true /\ DateTime.year d <= INT_MAX.
Proof.
  intros H. destruct (from_string_outcome s) as [(d' & Hd & Hv & Hy) | Ht].
  - rewrite Hd in H. injection H as <-. auto.
  - rewrite Ht in H. discriminate.
Qed.

Lemma str_empty_false (s : string) : str_empty s = false -> s <> "".
Proof. destruct s; [discriminate | discriminate]. Qed.

Lemma FlightModel_from_json_Ok (aircrafts : gmap string AircraftModel.t)
    (crewMembers : gmap string CrewMemberModel.t) (json : JSON) (f : FlightModel.t) :
  FlightModel.from_json aircrafts crewMembers json = Ok f ->
  lacks_prefix (FlightModel.flightId f) "FL-" = false /\
  FlightModel.origin f <> "" /\ FlightModel.destination f <> "" /\
  DateTime.isValid (FlightModel.departureTime f) = true /\
  DateTime.isValid (FlightModel.arrivalTime f) = true /\
  DateTime.year (FlightModel.departureTime f) <= INT_MAX /\
  DateTime.year (FlightModel.arrivalTime f) <= INT_MAX /\
  DateTime.le (FlightModel.arrivalTime f) (FlightModel.departureTime f) = false /\
  FlightModel.all_exist crewMembers (FlightModel.crewMemberIds f) = true /\
  exists a row0 rows,
    aircrafts !! FlightModel.aircraftId f = Some a /\
    FlightModel.seatMap f = row0 :: rows /\
    Z.of_nat (length row0) = AircraftModel.numOfRowSeats a /\
    Z.of_nat (length (row0 :: rows)) = AircraftModel.numOfRows a.
Proof.
  intros H. unfold FlightModel.from_json in H. inv_ok.
  destruct (aircrafts !! _) as [ac |] eqn:Hfound; [| discriminate].
  inv_ok.
  match goal with
  | H : match ?g with [] => _ | _ => _ end = Ok _ |- _ =>
      destruct g as [| row0 rows] eqn:Hg; [discriminate |]
  end.
  inv_ok. subst f. cbn.
  repeat match goal with
  | H : DateTime.from_string _ = Ok _ |- _ => apply from_string_Ok in H; destruct H
  | H : negb _ = false |- _ => apply negb_false_iff in H
  | H : _ || _ = false |- _ => apply orb_false_iff in H; destruct H
  end.
  repeat split; try assumption; try (apply str_empty_false; assumption).
  exists ac, row0, rows. repeat split; try assumption; apply Z.eqb_eq; assumption.
Qed.

(** X6: a flight that [FlightModel(const JSON&)] has returned is written
    by [to_json] to a JSON from which the constructor returns the same
    flight. Of the seat map the constructor checks the number of rows and
    the length of the first row only: the same holds when the rows after
    the first are replaced by rows of any lengths. *)
Theorem FlightModel_loaded_roundtrip
    (aircrafts : gmap string AircraftModel.t)
    (crewMembers : gmap string CrewMemberModel.t) (json : JSON) (f : FlightModel.t)
    (Hloaded : FlightModel.from_json aircrafts crewMembers json = Ok f) :
  FlightModel.from_json aircrafts crewMembers (FlightModel.to_json f) = Ok f /\
  exists row0 rows,
    FlightModel.seatMap f = row0 :: rows /\
    forall rows' : list (list bool),
      length rows' = length rows ->
      let f' := FlightModel.with_seatMap f (row0 :: rows') in
      FlightModel.from_json aircrafts crewMembers (FlightModel.to_json f') = Ok f'.
Proof.
  destruct (FlightModel_from_json_Ok _ _ _ _ Hloaded)
    as (Hid & Ho & Hd & Hvd & Hva & Hyd & Hya & Hle & Hcrew & a & row0 & rows &
        Hfound & Hg & Hcols & Hrows).
  split.
  - eapply FlightModel_roundtrip; eassumption.
  - exists row0, rows. split; [exact Hg |]. intros rows' Hlen f'.
    apply (FlightModel_roundtrip aircrafts crewMembers f' a row0 rows');
      try assumption; try reflexivity.
    cbn [length] in *. rewrite Hlen. exact Hrows.
Qed.

Lemma FlightModel_loaded_roundtrip_witness :
  let ragged :=
    FlightModel.with_seatMap Example.flight
      [[false; false; false; false]; []; [true]] in
  FlightModel.from_json (aircrafts Example.world) (crewMembers Example.world)
    (FlightModel.to_json ragged) = Ok ragged /\
  FlightModel.isValidSeat (aircrafts Example.world) ragged "2B" = true /\
  FlightModel.getSeatStatus (aircrafts Example.world) ragged "2B" = Undefined.
Proof.
  split; [| split; reflexivity].
  destruct (FlightModel_loaded_roundtrip (aircrafts Example.world)
              (crewMembers Example.world) (FlightModel.to_json Example.flight)
              Example.flight eq_refl) as (_ & row0 & rows & Hg & Hany).
  injection Hg as <- <-.
  exact (Hany [[]; [true]] eq_refl).
Defined.

(** ** Identifiers, new flights, crew lists *)

Lemma generate_fresh_id_Ok (prefix : string) (taken : string -> bool)
    (draws draws' : list Z) (id : string) :
  generate_fresh_id prefix taken draws = (Ok id, draws') ->
  taken id = false /\ exists d, In d draws /\ id = prefix ++ to_string d.
Proof.
  induction draws as [| d draws IH]; cbn; [discriminate |].
  destruct (taken (prefix ++ to_string d)) eqn:E.
  - intros H. destruct (IH H) as (Ht & d' & Hin & Hid). eauto.
  - intros H. injection H as <- <-. eauto.
Qed.

Lemma lacks_prefix_app (prefix rest : string) : lacks_prefix (prefix ++ rest) prefix = false.
Proof. unfold lacks_prefix. rewrite substring_prefix, String.eqb_refl. reflexivity. Qed.

Lemma empty_grid_matches (a : AircraftModel.t) (g : list (list bool)) :
  FlightModel.empty_grid (AircraftModel.numOfRows a) (AircraftModel.numOfRowSeats a) = Ok g ->
  grid_matches a g /\ forall i j b, cell g i j = Some b -> b = false.
Proof.
  unfold FlightModel.empty_grid.
  destruct (Z.ltb_spec (AircraftModel.numOfRows a) 0) as [Hr | Hr]; [discriminate |].
  destruct (Z.ltb_spec (AircraftModel.numOfRowSeats a) 0) as [Hc | Hc]; [discriminate |].
  cbn [orb]. intros Hg. injection Hg as <-. split; [split |].
  - rewrite length_replicate. lia.
  - apply Forall_replicate. rewrite length_replicate. lia.
  - intros i j b. unfold cell.
    destruct (replicate _ _ !! i) as [row |] eqn:Hrow; [| discriminate].
    apply lookup_replicate in Hrow as [-> _]. intros Hb.
    apply lookup_replicate in Hb as [-> _]. reflexivity.
Qed.

(** X7: a flight that [FlightService::addFlight] returns is stored under
    an identifier "FL-..." that no flight had, carries the arguments as
    given, and has a seat grid of the geometry of its aircraft on which
    every seat that [isValidSeat] accepts reads as free. The arguments have
    passed the checks of the builder and of the constructor: no empty
    origin, destination or aircraft, arrival not [<=] departure, aircraft and
    crew members in their repositories. *)
Theorem addFlight_stores_empty_flight
    (w w' : World) (origin destination : string) (departureTime arrivalTime : DateTime.t)
    (aircraftId : string) (crewMemberIds : list string) (f : FlightModel.t)
    (Hadded : FlightService.addFlight origin destination departureTime arrivalTime
                aircraftId crewMemberIds w = (Ok (Some f), w')) :
  f = FlightModel.mk (FlightModel.flightId f) origin destination departureTime arrivalTime
        aircraftId crewMemberIds (FlightModel.seatMap f) /\
  lacks_prefix (FlightModel.flightId f) "FL-" = false /\
  flights w !! FlightModel.flightId f = None /\
  flights w' = <[FlightModel.flightId f := f]> (flights w) /\
  aircrafts w' = aircrafts w /\
  origin <> "" /\ destination <> "" /\ aircraftId <> "" /\
  DateTime.le arrivalTime departureTime = false /\
  FlightModel.all_exist (crewMembers w) crewMemberIds = true /\
  (exists a, aircrafts w !! aircraftId = Some a /\ grid_matches a (FlightModel.seatMap f)) /\
  forall s, FlightModel.isValidSeat (aircrafts w') f s = true ->
            FlightModel.getSeatStatus (aircrafts w') f s = Ok false.
Proof.
  unfold FlightService.addFlight, bind, FlightService.build_flight in Hadded.
  destruct (str_empty origin || str_empty destination || str_empty aircraftId) eqn:Hempty;
    [discriminate |].
  apply orb_false_iff in Hempty as [Hempty Hac]. apply orb_false_iff in Hempty as [Ho Hd].
  unfold FlightModel.ctor in Hadded.
  rewrite Ho, Hd in Hadded. cbn [orb throw_if obind] in Hadded.
  destruct (DateTime.le arrivalTime departureTime) eqn:Hle; [discriminate |].
  cbn [throw_if obind] in Hadded.
  destruct (aircrafts w !! aircraftId) as [a |] eqn:Hfound; [| discriminate].
  destruct (FlightModel.all_exist (crewMembers w) crewMemberIds) eqn:Hcrew; [| discriminate].
  cbn [negb throw_if obind] in Hadded.
  destruct (FlightModel.empty_grid _ _) as [g | | |] eqn:Hg; try discriminate.
  destruct (generate_fresh_id _ _ (draws w)) as [[id | | |] ds] eqn:Hid; try discriminate.
  cbn [obind] in Hadded.
  apply generate_fresh_id_Ok in Hid as (Hfree & d & _ & ->).
  apply bool_decide_eq_false in Hfree. rewrite is_Some_alt in Hfree.
  unfold FlightRepository.addFlight, FlightRepository.findFlightById in Hadded.
  cbn in Hadded.
  destruct (flights w !! ("FL-" ++ to_string d)) eqn:Hnew; [tauto |].
  cbn in Hadded. rewrite lookup_insert_eq in Hadded. injection Hadded as <- <-.
  cbn. destruct (empty_grid_matches a g Hg) as [Hgrid Hfalse].
  repeat split; try (apply str_empty_false; assumption); try assumption.
  - apply lacks_prefix_app.
  - exists a. split; [reflexivity | assumption].
  - intros s Hvalid. rewrite isValidSeat_is_invalid in Hvalid.
    apply negb_true_iff in Hvalid.
    destruct (valid_seat_indices _ _ _ Hvalid)
      as (a' & row & col & Hfound' & Hij & Hrow & Hcol & _).
    cbn in Hfound'. rewrite Hfound in Hfound'. injection Hfound' as <-.
    destruct (grid_matches_cell a g row col Hgrid Hrow Hcol) as [b Hcell].
    unfold FlightModel.getSeatStatus. rewrite Hvalid, Hij. cbn [fst snd FlightModel.seatMap].
    rewrite grid_get_cell by lia. rewrite Hcell. f_equal. eapply Hfalse, Hcell.
Qed.

Lemma addFlight_stores_empty_flight_witness :
  exists f w',
    FlightService.addFlight "LHR" "CAI" (DateTime.mk 2025 1 6 9 0) (DateTime.mk 2025 1 6 9 0)
      "AC-10001" [] Example.world = (Ok (Some f), w') /\
    FlightModel.flightId f = "FL-41001" /\
    FlightModel.getSeatStatus (aircrafts w') f "3D" = Ok false.
Proof.
  do 2 eexists. split; [reflexivity |]. split; [reflexivity |].
  match goal with
  | |- FlightModel.getSeatStatus (aircrafts ?w') ?f _ = _ =>
      pose proof (addFlight_stores_empty_flight Example.world w' "LHR" "CAI"
                    (DateTime.mk 2025 1 6 9 0) (DateTime.mk 2025 1 6 9 0) "AC-10001" [] f
                    eq_refl) as H
  end.
  apply H. reflexivity.
Defined.

Lemma erase_first_Some (id : string) (ids ids' : list string) :
  FlightModel.erase_first id ids = Some ids' ->
  exists before after,
    ids = (before ++ id :: after)%list /\ ~ In id before /\ ids' = (before ++ after)%list.
Proof.
  revert ids'. induction ids as [| x rest IH]; intros ids'; cbn; [discriminate |].
  destruct (String.eqb_spec x id) as [-> | Hne].
  - intros H. injection H as <-. exists [], rest. auto.
  - destruct (FlightModel.erase_first id rest) as [r |]; [| discriminate].
    intros H. injection H as <-.
    destruct (IH r eq_refl) as (before & after & -> & Hnot & ->).
    exists (x :: before), after. repeat split; try reflexivity.
    intros [Hx | Hin]; [congruence | contradiction].
Qed.

Lemma erase_first_None (id : string) (ids : list string) :
  FlightModel.erase_first id ids = None -> ~ In id ids.
Proof.
  induction ids as [| x rest IH]; cbn; [tauto |].
  destruct (String.eqb_spec x id) as [-> | Hne]; [discriminate |].
  destruct (FlightModel.erase_first id rest); [discriminate |].
  intros _ [Hx | Hin]; [congruence | exact (IH eq_refl Hin)].
Qed.

(** X8: [removeCrewMemberId] returns true exactly when the identifier is
    in the crew list, and then removes its first occurrence and nothing
    else (a second occurrence stays); otherwise the flight is unchanged. *)
Theorem removeCrewMemberId_first_occurrence (f : FlightModel.t) (id : string) :
  (In id (FlightModel.crewMemberIds f) ->
     exists before after,
       FlightModel.crewMemberIds f = (before ++ id :: after)%list /\ ~ In id before /\
       FlightModel.removeCrewMemberId f id
       = (true, FlightModel.setCrewMemberIds f (before ++ after)%list)) /\
  (~ In id (FlightModel.crewMemberIds f) ->
     FlightModel.removeCrewMemberId f id = (false, f)).
Proof.
  unfold FlightModel.removeCrewMemberId.
  destruct (FlightModel.erase_first id (FlightModel.crewMemberIds f)) as [ids' |] eqn:E.
  - destruct (erase_first_Some _ _ _ E) as (before & after & Hids & Hnot & ->).
    split.
    + intros _. exists before, after. auto.
    + intros Hnotin. exfalso. apply Hnotin. rewrite Hids.
      apply in_or_app. right. left. reflexivity.
  - split; [| reflexivity]. intros Hin. exfalso. exact (erase_first_None _ _ E Hin).
Qed.

Lemma removeCrewMemberId_first_occurrence_witness :
  let f := FlightModel.setCrewMemberIds Example.flight ["CM-1"; "CM-2"; "CM-1"] in
  (exists before after,
     FlightModel.crewMemberIds f = (before ++ "CM-1" :: after)%list /\ ~ In "CM-1" before /\
     FlightModel.removeCrewMemberId f "CM-1"
     = (true, FlightModel.setCrewMemberIds f (before ++ after)%list)) /\
  FlightModel.removeCrewMemberId f "CM-3" = (false, f).
Proof.
  intros f. split.
  - apply (removeCrewMemberId_first_occurrence f "CM-1"). left. reflexivity.
  - apply (removeCrewMemberId_first_occurrence f "CM-3").
    cbn. intros [H | [H | [H | []]]]; discriminate H.
Defined.

(** ** Payment strategies *)

Lemma find_char_from_Some (s : string) (c : ascii) (i : nat) :
  find_char_from s c 0 = Some i ->
  exists a r, s = a ++ String c r /\ free_of c a = true /\ String.length a = i.
Proof.
  revert i. induction s as [| d s IH]; intros i; cbn; [discriminate |].
  destruct (Ascii.eqb_spec c d) as [-> | Hne].
  - intros H. injection H as <-. exists "", s. repeat split.
  - destruct (find_char_from s c 0) as [j |]; [| discriminate].
    intros H. injection H as <-.
    destruct (IH j eq_refl) as (a & r & -> & Hfree & <-).
    exists (String d a), r. rewrite str_app_cons. repeat split.
    unfold free_of in *. cbn. rewrite Hfree.
    destruct (Ascii.eqb_spec c d); [contradiction | reflexivity].
Qed.

(** X9: [PaypalPayment(email)] accepts exactly the addresses whose first
    '@' is followed by "paypal.com" and nothing else, the address
    "@paypal.com" with nothing before the '@' included; every other string
    makes it throw invalid_argument. *)
Theorem PaypalPayment_ctor_accepts (email : string) :
  (forall mailbox, free_of "@" mailbox = true -> email = mailbox ++ "@paypal.com" ->
     PaymentStrategy.PaypalPayment_ctor email = Ok (PaymentStrategy.PaypalPayment email)) /\
  ((forall mailbox, free_of "@" mailbox = true -> email <> mailbox ++ "@paypal.com") ->
     PaymentStrategy.PaypalPayment_ctor email = Throw invalid_argument).
Proof.
  unfold PaymentStrategy.PaypalPayment_ctor. split.
  - intros mailbox Hfree ->.
    destruct (split_at_first mailbox "@" "paypal.com" Hfree) as (Hfind & _ & Hrest).
    change (mailbox ++ String "@" "paypal.com") with (mailbox ++ "@paypal.com") in *.
    destruct (mailbox ++ "@paypal.com") eqn:E; [destruct mailbox; discriminate E |].
    cbn [str_empty throw_if obind]. rewrite Hfind, Hrest. reflexivity.
  - intros Hnone. destruct email as [| c email]; [reflexivity |].
    cbn [str_empty throw_if obind].
    destruct (find_char_from (String c email) "@" 0) as [i |] eqn:Hfind; [| reflexivity].
    destruct (find_char_from_Some _ _ _ Hfind) as (a & r & Heq & Hfree & <-).
    rewrite Heq.
    destruct (split_at_first a "@" r Hfree) as (_ & _ & ->). cbn [obind].
    destruct (String.eqb_spec r "paypal.com") as [-> | Hne]; [| reflexivity].
    exfalso. exact (Hnone a Hfree Heq).
Qed.

Lemma PaypalPayment_ctor_accepts_witness :
  PaymentStrategy.PaypalPayment_ctor "bob@paypal.com"
  = Ok (PaymentStrategy.PaypalPayment "bob@paypal.com") /\
  PaymentStrategy.PaypalPayment_ctor "@paypal.com"
  = Ok (PaymentStrategy.PaypalPayment "@paypal.com").
Proof.
  split.
  - apply (PaypalPayment_ctor_accepts "bob@paypal.com") with (mailbox := "bob"); reflexivity.
  - apply (PaypalPayment_ctor_accepts "@paypal.com") with (mailbox := ""); reflexivity.
Defined.

Lemma CreditPayment_ctor_Ok (number expiry cvv : string) (s : PaymentStrategy.t) :
  PaymentStrategy.CreditPayment_ctor number expiry cvv = Ok s ->
  s = PaymentStrategy.CreditPayment number expiry cvv /\
  str_size number = 16%nat /\ str_size expiry = 5%nat /\ str_size cvv = 3%nat.
Proof.
  unfold PaymentStrategy.CreditPayment_ctor. intros H. inv_ok. subst s.
  repeat match goal with
  | H : negb _ = false |- _ => apply negb_false_iff in H
  | H : _ || _ = false |- _ => apply orb_false_iff in H; destruct H
  | H : (_ =? _)%nat = true |- _ => apply Nat.eqb_eq in H
  end.
  auto.
Qed.

Lemma str_size_nonempty (s : string) (n : nat) : str_size s = S n -> str_empty s = false.
Proof. destruct s; [discriminate | reflexivity]. Qed.

Lemma createPaymentStrategy_Ok (type : string) (details : JSON)
    (s : PaymentStrategy.t)
    (Hmade : PaymentStrategy.createPaymentStrategy type details = Ok s) :
  PaymentStrategy.getType s = type /\
  PaymentStrategy.createPaymentStrategy (PaymentStrategy.getType s)
    (PaymentStrategy.getDetails s) = Ok s.
Proof.
  unfold PaymentStrategy.createPaymentStrategy in Hmade.
  destruct (String.eqb_spec type "paypal") as [-> | _].
  - inv_ok.
    match goal with
    | H : PaymentStrategy.PaypalPayment_ctor ?e = Ok s |- _ =>
        pose proof H as Hctor; unfold PaymentStrategy.PaypalPayment_ctor in H; inv_ok;
        destruct (find_char_from e "@" 0); [| discriminate]; inv_ok; subst s
    end.
    split; [reflexivity |]. cbn.
    match goal with H : str_empty _ = false |- _ => rewrite H end.
    cbn. exact Hctor.
  - destruct (String.eqb_spec type "credit") as [-> | _].
    + inv_ok.
      match goal with
      | H : PaymentStrategy.CreditPayment_ctor _ _ _ = Ok s |- _ =>
          pose proof H as Hctor; apply CreditPayment_ctor_Ok in H;
          destruct H as (-> & Hn & He & Hc)
      end.
      split; [reflexivity |]. cbn.
      rewrite (str_size_nonempty _ _ Hn), (str_size_nonempty _ _ He),
        (str_size_nonempty _ _ Hc).
      cbn. exact Hctor.
    + destruct (String.eqb_spec type "cash") as [-> | _]; [| discriminate].
      injection Hmade as <-. split; reflexivity.
Qed.

(** X10: a strategy that [PaymentStrategyFactory::createPaymentStrategy]
    has returned reports the type it was asked for, and the factory
    returns the same strategy again from its [getType] and [getDetails]. *)
Theorem createPaymentStrategy_roundtrip (type : string) (details : JSON)
    (s : PaymentStrategy.t)
    (Hmade : PaymentStrategy.createPaymentStrategy type details = Ok s) :
  PaymentStrategy.getType s = type /\
  PaymentStrategy.createPaymentStrategy (PaymentStrategy.getType s)
    (PaymentStrategy.getDetails s) = Ok s.
Proof. exact (createPaymentStrategy_Ok type details s Hmade). Qed.

Lemma createPaymentStrategy_roundtrip_witness :
  PaymentStrategy.createPaymentStrategy "credit"
    (PaymentStrategy.getDetails
       (PaymentStrategy.CreditPayment "4111111111111111" "12/27" "123"))
  = Ok (PaymentStrategy.CreditPayment "4111111111111111" "12/27" "123").
Proof.
  exact (proj2 (createPaymentStrategy_roundtrip "credit"
                  (JObject [("cvv", JString "123"); ("expirationDate", JString "12/27");
                            ("cardNumber", JString "4111111111111111")])
                  (PaymentStrategy.CreditPayment "4111111111111111" "12/27" "123")
                  eq_refl)).
Defined.

Lemma substring_split (s : string) (n : nat) :
  (n <= String.length s)%nat ->
  s = String.substring 0 n s ++ String.substring n (String.length s - n) s /\
  String.length (String.substring 0 n s) = n.
Proof.
  revert n. induction s as [| c s IH]; intros n Hn.
  - cbn in Hn. assert (n = 0)%nat as -> by lia. split; reflexivity.
  - destruct n as [| n].
    + cbn [String.substring String.length Nat.sub]. rewrite str_app_nil.
      split; [| reflexivity]. f_equal. symmetry. apply substring_full.
    + cbn [String.substring String.length Nat.sub]. cbn [String.length] in Hn.
      destruct (IH n ltac:(lia)) as [Heq Hlen].
      rewrite str_app_cons. split; [f_equal; exact Heq | cbn; f_equal; exact Hlen].
Qed.

Lemma factory_strategy_returns (to_string_double : float -> string) (type : string)
    (details : JSON) (s : PaymentStrategy.t) (amount : float)
    (Hmade : PaymentStrategy.createPaymentStrategy type details = Ok s) :
  (exists message, PaymentStrategy.processPayment to_string_double s amount = Ok message) /\
  (exists message, PaymentStrategy.refundPayment to_string_double s amount = Ok message) /\
  forall number expiry cvv,
    s = PaymentStrategy.CreditPayment number expiry cvv ->
    exists first12 last4,
      number = first12 ++ last4 /\ String.length first12 = 12%nat /\
      String.length last4 = 4%nat /\
      PaymentStrategy.maskCardNumber number = Ok ("****-****-****-" ++ last4).
Proof.
  assert (Hmask : forall number expiry cvv,
             s = PaymentStrategy.CreditPayment number expiry cvv ->
             exists first12 last4,
               number = first12 ++ last4 /\ String.length first12 = 12%nat /\
               String.length last4 = 4%nat /\
               PaymentStrategy.maskCardNumber number = Ok ("****-****-****-" ++ last4)).
  { intros number expiry cvv ->.
    unfold PaymentStrategy.createPaymentStrategy in Hmade.
    destruct (String.eqb type "paypal").
    { inv_ok. unfold PaymentStrategy.PaypalPayment_ctor in Hmade. inv_ok.
      destruct (find_char_from _ _ _); [| discriminate]. inv_ok. discriminate. }
    destruct (String.eqb type "credit"); [| destruct (String.eqb type "cash"); discriminate].
    inv_ok. apply CreditPayment_ctor_Ok in Hmade as (Heq & Hn & _ & _).
    injection Heq as <- <- <-.
    match goal with |- context [PaymentStrategy.maskCardNumber ?n] => set (num := n) in * end.
    unfold str_size in Hn.
    destruct (substring_split num 12 ltac:(lia)) as [Hsplit Hlen].
    exists (String.substring 0 12 num), (String.substring 12 (String.length num - 12) num).
    split; [exact Hsplit |]. split; [exact Hlen |].
    assert (Hlast : String.length (String.substring 12 (String.length num - 12) num) = 4%nat).
    { apply (f_equal String.length) in Hsplit. rewrite str_length_app, Hlen in Hsplit. lia. }
    split; [exact Hlast |].
    unfold PaymentStrategy.maskCardNumber, substr_from, substr, str_size.
    rewrite Hn. reflexivity. }
  split; [| split; [| exact Hmask]].
  - destruct s as [| number expiry cvv | email]; cbn; eauto.
    destruct (Hmask number expiry cvv eq_refl) as (_ & last4 & _ & _ & _ & ->). cbn. eauto.
  - destruct s as [| number expiry cvv | email]; cbn; eauto.
    destruct (Hmask number expiry cvv eq_refl) as (_ & last4 & _ & _ & _ & ->). cbn. eauto.
Qed.

(** X11: for a strategy returned by the factory, [processPayment] and
    [refundPayment] return their message without throwing, whatever the
    amount; for a credit card the message shows "****-****-****-" followed
    by the last four of the sixteen characters of the number. *)
Theorem factory_strategy_messages (to_string_double : float -> string) (type : string)
    (details : JSON) (s : PaymentStrategy.t) (amount : float)
    (Hmade : PaymentStrategy.createPaymentStrategy type details = Ok s) :
  (exists message, PaymentStrategy.processPayment to_string_double s amount = Ok message) /\
  (exists message, PaymentStrategy.refundPayment to_string_double s amount = Ok message) /\
  forall number expiry cvv,
    s = PaymentStrategy.CreditPayment number expiry cvv ->
    exists first12 last4,
      number = first12 ++ last4 /\ String.length first12 = 12%nat /\
      String.length last4 = 4%nat /\
      PaymentStrategy.maskCardNumber number = Ok ("****-****-****-" ++ last4).
Proof. exact (factory_strategy_returns to_string_double type details s amount Hmade). Qed.

Lemma factory_strategy_messages_witness :
  exists first12 last4,
    "4111111111111234" = first12 ++ last4 /\ String.length first12 = 12%nat /\
    String.length last4 = 4%nat /\
    PaymentStrategy.maskCardNumber "4111111111111234" = Ok ("****-****-****-" ++ last4).
Proof.
  exact (proj2 (proj2 (factory_strategy_messages (fun _ => "210.000000") "credit"
                         (JObject [("cardNumber", JString "4111111111111234");
                                   ("expirationDate", JString "12/27");
                                   ("cvv", JString "123")])
                         (PaymentStrategy.CreditPayment "4111111111111234" "12/27" "123")
                         (f32_of_int 210) eq_refl))
               "4111111111111234" "12/27" "123" eq_refl).
Defined.

(** ** Payments *)

(** A payment with a status that [to_json] writes is read back as it
    is. *)
Lemma PaymentModel_roundtrip (users : gmap string UserModel.t) (p : PaymentModel.t)
    (s : PaymentStrategy.t) (type : string) (details : JSON) :
  lacks_prefix (PaymentModel.paymentId p) "PAY-" = false ->
  is_Some (users !! PaymentModel.passengerId p) ->
  fle (PaymentModel.amount p) f0 = false ->
  PaymentModel.paymentStrategy p = Some s ->
  PaymentStrategy.createPaymentStrategy type details = Ok s ->
  DateTime.isValid (PaymentModel.paymentDate p) = true ->
  DateTime.year (PaymentModel.paymentDate p) <= INT_MAX ->
  PaymentModel.status p <> PaymentModel.PENDING ->
  PaymentModel.from_json users (PaymentModel.to_json p) = Ok p.
Proof.
  intros Hid Huser Hamount Hs Hmade Hvalid Hyear Hstatus.
  destruct p as [id pid amt strat date st]. cbn in *. subst strat.
  destruct (createPaymentStrategy_Ok _ _ _ Hmade) as [_ Hagain].
  pose proof (toString_parses date Hvalid Hyear) as Hdate.
  assert (Hlookup : bool_decide (is_Some (users !! pid)) = true)
    by (apply bool_decide_eq_true_2; exact Huser).
  unfold PaymentModel.from_json, PaymentModel.to_json.
  destruct st; [| congruence |]; cbn; rewrite Hid; cbn; rewrite Hlookup; cbn;
    rewrite Hamount; cbn; rewrite Hagain; cbn; rewrite Hdate; cbn; rewrite Hvalid;
    reflexivity.
Qed.

Lemma createPayment_Some (passengerId : string) (amount : float) (method : string)
    (details : JSON) (w w' : World) (p : PaymentModel.t) :
  PaymentService.createPayment passengerId amount method details w = (Ok (Some p), w') ->
  exists s ds,
    PaymentStrategy.createPaymentStrategy method details = Ok s /\
    p = PaymentModel.mk (PaymentModel.paymentId p) passengerId amount (Some s) (now w)
          PaymentModel.PENDING /\
    lacks_prefix (PaymentModel.paymentId p) "PAY-" = false /\
    payments w !! PaymentModel.paymentId p = None /\
    is_Some (users w !! passengerId) /\ fle amount f0 = false /\
    w' = with_payments (with_draws w ds) (<[PaymentModel.paymentId p := p]> (payments w)).
Proof.
  unfold PaymentService.createPayment, try_catch, bind, lift, PaymentService.make_payment.
  destruct (PaymentStrategy.createPaymentStrategy method details) as [s | | |] eqn:Hs;
    try discriminate.
  unfold PaymentModel.ctor.
  destruct (str_empty passengerId || fle amount f0 || false) eqn:Hchecks; [discriminate |].
  apply orb_false_iff in Hchecks as [Hchecks _].
  apply orb_false_iff in Hchecks as [_ Hamount].
  destruct (bool_decide (is_Some (users w !! passengerId))) eqn:Huser; [| discriminate].
  apply bool_decide_eq_true_1 in Huser. cbn [negb].
  destruct (generate_fresh_id _ _ (draws w)) as [[id | | |] ds] eqn:Hid; try discriminate.
  cbn [obind].
  apply generate_fresh_id_Ok in Hid as (Hfree & d & _ & ->).
  apply bool_decide_eq_false in Hfree. rewrite is_Some_alt in Hfree.
  unfold PaymentRepository.addPayment, PaymentRepository.findPaymentById, ret.
  cbn.
  destruct (payments w !! ("PAY-" ++ to_string d)) eqn:Hnew; [tauto |].
  cbn. rewrite lookup_insert_eq. intros H. injection H as <- <-.
  exists s, ds. cbn. destruct (DateTime.isValid (now w));
    repeat split; try assumption; apply lacks_prefix_app.
Qed.

Lemma createPayment_result (passengerId : string) (amount : float) (method : string)
    (details : JSON) (w w' : World) (r : outcome (option PaymentModel.t)) :
  PaymentService.createPayment passengerId amount method details w = (r, w') ->
  r = Ok None \/ r = Diverge \/ exists p, r = Ok (Some p).
Proof.
  unfold PaymentService.createPayment, try_catch, bind, lift, PaymentService.make_payment.
  destruct (PaymentStrategy.createPaymentStrategy method details) as [s | e | |] eqn:Hs.
  - unfold PaymentModel.ctor.
    destruct (str_empty passengerId || fle amount f0 || false);
      [intros H; injection H as <- <-; auto |].
    destruct (negb _); [intros H; injection H as <- <-; auto |].
    destruct (generate_fresh_id _ _ (draws w)) as [[id | e | |] ds] eqn:Hid; cbn [obind].
    + unfold PaymentRepository.addPayment, PaymentRepository.findPaymentById, ret. cbn.
      destruct (payments w !! id); cbn.
      * intros H; injection H as <- <-; auto.
      * rewrite lookup_insert_eq. intros H; injection H as <- <-; eauto.
    + intros H; injection H as <- <-; auto.
    + exfalso. clear -Hid. revert Hid. generalize (draws w). intros l.
      induction l as [| d l IH]; cbn; [discriminate |].
      destruct (bool_decide _); [exact IH | discriminate].
    + intros H; injection H as <- <-; auto.
  - intros H; injection H as <- <-; auto.
  - exfalso. revert Hs. unfold PaymentStrategy.createPaymentStrategy,
      PaymentStrategy.PaypalPayment_ctor, PaymentStrategy.CreditPayment_ctor, substr_from,
      substr, throw_if, json_at, get_string.
    repeat match goal with
           | |- context [match ?x with _ => _ end] => destruct x; cbn [obind]; try discriminate
           end.
  - exfalso. revert Hs. unfold PaymentStrategy.createPaymentStrategy,
      PaymentStrategy.PaypalPayment_ctor, PaymentStrategy.CreditPayment_ctor, substr_from,
      substr, throw_if, json_at, get_string.
    repeat match goal with
           | |- context [match ?x with _ => _ end] => destruct x; cbn [obind]; try discriminate
           end.
Qed.

(** X12: a payment whose status is COMPLETED or REFUNDED, with an
    identifier "PAY-...", a passenger of the UserRepository, a positive
    amount, a strategy the factory makes and a valid date, is read back from
    its JSON as it is. *)
Theorem PaymentModel_settled_roundtrip (users : gmap string UserModel.t)
    (p : PaymentModel.t) (s : PaymentStrategy.t) (type : string) (details : JSON)
    (Hid : lacks_prefix (PaymentModel.paymentId p) "PAY-" = false)
    (Huser : is_Some (users !! PaymentModel.passengerId p))
    (Hamount : fle (PaymentModel.amount p) f0 = false)
    (Hstrategy : PaymentModel.paymentStrategy p = Some s)
    (Hmade : PaymentStrategy.createPaymentStrategy type details = Ok s)
    (Hdate : DateTime.isValid (PaymentModel.paymentDate p) = true)
    (Hyear : DateTime.year (PaymentModel.paymentDate p) <= INT_MAX)
    (Hsettled : PaymentModel.status p <> PaymentModel.PENDING) :
  PaymentModel.from_json users (PaymentModel.to_json p) = Ok p.
Proof. eapply PaymentModel_roundtrip; eassumption. Qed.

Lemma PaymentModel_settled_roundtrip_witness :
  let p := PaymentModel.mk "PAY-41001" "PAS-30001" (f32_of_int 210)
             (Some (PaymentStrategy.PaypalPayment "bob@paypal.com"))
             (DateTime.mk 2025 1 1 12 0) PaymentModel.REFUNDED in
  PaymentModel.from_json (users Example.world) (PaymentModel.to_json p) = Ok p.
Proof.
  intros p.
  apply (PaymentModel_settled_roundtrip (users Example.world) p
           (PaymentStrategy.PaypalPayment "bob@paypal.com") "paypal"
           (JObject [("email", JString "bob@paypal.com")])); try reflexivity.
  - cbn. eexists. reflexivity.
  - cbn. unfold INT_MAX. lia.
  - discriminate.
Defined.

(** The test [amount <= 0] of the constructor fails for the positive
    numbers and for NaN, which compares with nothing. *)
Lemma fle_zero_false (x : float) :
  fle x f0 = false <-> x = S754_nan \/ flt f0 x = true.
Proof.
  unfold fle, flt, f0. destruct x as [sx | sx | | sx m e]; try destruct sx; cbn;
    split; intros H; try discriminate H; try reflexivity; auto;
    destruct H as [H | H]; discriminate H.
Qed.

(** X13: [PaymentService::createPayment] never throws: it returns no
    payment and leaves the PaymentRepository as it was, or it returns a
    payment that it has stored under a new identifier "PAY-...", with the
    passenger, amount and strategy asked for, the date read from the clock
    and the status PENDING (or it does not return, when the generator never
    draws a free identifier). The amount of a returned payment has failed
    the test [amount <= 0]: it is greater than 0 or it is NaN. *)
Theorem createPayment_outcomes (passengerId : string) (amount : float) (method : string)
    (details : JSON) (w w' : World) (r : outcome (option PaymentModel.t))
    (Hcall : PaymentService.createPayment passengerId amount method details w = (r, w')) :
  (r = Ok None \/ r = Diverge \/ exists p, r = Ok (Some p)) /\
  ((forall p, r <> Ok (Some p)) -> payments w' = payments w) /\
  (forall p, r = Ok (Some p) ->
     exists s,
       PaymentStrategy.createPaymentStrategy method details = Ok s /\
       p = PaymentModel.mk (PaymentModel.paymentId p) passengerId amount (Some s) (now w)
             PaymentModel.PENDING /\
       lacks_prefix (PaymentModel.paymentId p) "PAY-" = false /\
       payments w !! PaymentModel.paymentId p = None /\
       payments w' = <[PaymentModel.paymentId p := p]> (payments w) /\
       is_Some (users w !! passengerId) /\ fle amount f0 = false /\
       (amount = S754_nan \/ flt f0 amount = true)).
Proof.
  split; [eapply createPayment_result; eassumption |]. split.
  - apply (createPayment_frame _ _ _ _ _ _ _ Hcall).
  - intros p ->.
    destruct (createPayment_Some _ _ _ _ _ _ _ Hcall)
      as (s & ds & Hs & Hp & Hid & Hnew & Huser & Hamount & ->).
    exists s. repeat split; try assumption. apply fle_zero_false. exact Hamount.
Qed.

Lemma createPayment_outcomes_witness :
  (exists p w',
     PaymentService.createPayment "PAS-30001" (f32_of_int 210) "cash" JNull Example.world
     = (Ok (Some p), w') /\
     payments w' = <[PaymentModel.paymentId p := p]> (payments Example.world)) /\
  (exists p w',
     PaymentService.createPayment "PAS-30001" S754_nan "cash" JNull Example.world
     = (Ok (Some p), w') /\
     payments w' = <[PaymentModel.paymentId p := p]> (payments Example.world)).
Proof.
  split.
  - do 2 eexists. split; [reflexivity |].
    match goal with
    | |- payments ?w' = <[PaymentModel.paymentId ?p := _]> _ =>
        destruct (createPayment_outcomes "PAS-30001" (f32_of_int 210) "cash" JNull
                    Example.world w' (Ok (Some p)) eq_refl) as (_ & _ & Hsome);
        destruct (Hsome p eq_refl) as (s & _ & _ & _ & _ & Hstored & _); exact Hstored
    end.
  - do 2 eexists. split; [reflexivity |].
    match goal with
    | |- payments ?w' = <[PaymentModel.paymentId ?p := _]> _ =>
        destruct (createPayment_outcomes "PAS-30001" S754_nan "cash" JNull
                    Example.world w' (Ok (Some p)) eq_refl) as (_ & _ & Hsome);
        destruct (Hsome p eq_refl) as (s & _ & _ & _ & _ & Hstored & _); exact Hstored
    end.
Defined.

(** The messages of a strategy the factory has made. *)
Lemma factory_strategy_message_texts (to_string_double : float -> string) (type : string)
    (details : JSON) (s : PaymentStrategy.t) (amount : float) :
  PaymentStrategy.createPaymentStrategy type details = Ok s ->
  PaymentStrategy.processPayment to_string_double s amount
  = Ok (processed_message (to_string_double amount) s) /\
  PaymentStrategy.refundPayment to_string_double s amount
  = Ok (refunded_message (to_string_double amount) s).
Proof.
  intros Hmade. destruct s as [| number expiry cvv | email]; [split; reflexivity | |
                                                             split; reflexivity].
  assert (Hn : str_size number = 16%nat).
  { unfold PaymentStrategy.createPaymentStrategy in Hmade.
    destruct (String.eqb type "paypal").
    { inv_ok. unfold PaymentStrategy.PaypalPayment_ctor in Hmade. inv_ok.
      destruct (find_char_from _ _ _); [| discriminate]. inv_ok. discriminate. }
    destruct (String.eqb type "credit"); [| destruct (String.eqb type "cash"); discriminate].
    inv_ok. apply CreditPayment_ctor_Ok in Hmade as (Heq & Hn & _ & _).
    injection Heq as <- <- <-. exact Hn. }
  assert (Hmask : PaymentStrategy.maskCardNumber number
                  = Ok ("****-****-****-" ++ String.substring 12 4 number)).
  { unfold PaymentStrategy.maskCardNumber, substr_from, substr. rewrite Hn. reflexivity. }
  cbn [PaymentStrategy.processPayment PaymentStrategy.refundPayment processed_message
       refunded_message].
  rewrite Hmask. split; reflexivity.
Qed.

(** X14: [PaymentService::processPayment] and [refundPayment] on a stored
    payment whose strategy the factory makes return the message of that
    strategy for the amount of the payment (for cash, "Cash payment of
    <amount> processed successfully." and "Cash payment of <amount> refunded
    successfully.") and set the status of the stored payment to COMPLETED and
    to REFUNDED, whatever the status was before and changing nothing else; for
    an identifier that is not stored they return "Payment not found" and
    change nothing. *)
Theorem processPayment_sets_status (to_string_double : float -> string) (w : World)
    (paymentId : string) :
  (payments w !! paymentId = None ->
     PaymentService.processPayment to_string_double paymentId w
     = (Ok "Payment not found", w) /\
     PaymentService.refundPayment to_string_double paymentId w
     = (Ok "Payment not found", w)) /\
  (forall p s type details,
     payments w !! paymentId = Some p ->
     PaymentModel.paymentStrategy p = Some s ->
     PaymentStrategy.createPaymentStrategy type details = Ok s ->
     PaymentService.processPayment to_string_double paymentId w
     = (Ok (processed_message (to_string_double (PaymentModel.amount p)) s),
        with_payments w (<[paymentId := PaymentModel.with_status p PaymentModel.COMPLETED]>
                           (payments w))) /\
     PaymentService.refundPayment to_string_double paymentId w
     = (Ok (refunded_message (to_string_double (PaymentModel.amount p)) s),
        with_payments w (<[paymentId := PaymentModel.with_status p PaymentModel.REFUNDED]>
                           (payments w)))).
Proof.
  unfold PaymentService.processPayment, PaymentService.refundPayment, bind,
    PaymentRepository.findPaymentById, ret.
  split.
  - intros ->. split; reflexivity.
  - intros p s type details -> Hs Hmade.
    destruct (factory_strategy_message_texts to_string_double type details s
                (PaymentModel.amount p) Hmade) as [H1 H2].
    unfold PaymentModel.processPayment, PaymentModel.refundPayment.
    rewrite Hs, H1, H2. split; reflexivity.
Qed.

Lemma processPayment_sets_status_witness :
  exists w',
    PaymentService.refundPayment (fun _ => "210.000000") "PAY-41001" Example.booked
    = (Ok "Cash payment of 210.000000 refunded successfully.", w') /\
    option_map PaymentModel.status (payments w' !! "PAY-41001")
    = Some PaymentModel.REFUNDED.
Proof.
  destruct (proj2 (processPayment_sets_status (fun _ => "210.000000") Example.booked
                     "PAY-41001")
              (PaymentModel.mk "PAY-41001" "PAS-30001" (f32_of_int 210)
                 (Some PaymentStrategy.CashPayment) (DateTime.mk 2025 1 1 12 0)
                 PaymentModel.PENDING)
              PaymentStrategy.CashPayment "cash" JNull eq_refl eq_refl eq_refl)
    as (_ & Hrefund).
  eexists. split; [exact Hrefund |]. reflexivity.
Defined.

(** X15: the payment of a new booking cannot be read back from its JSON
    while it is PENDING; once [PaymentService::processPayment] has run on it,
    the stored payment is COMPLETED and is read back from its JSON as it is
    (the clock reading a valid date). *)
Theorem processed_payment_roundtrip (to_string_double : float -> string)
    (passengerId : string) (amount : float) (method : string) (details : JSON)
    (w w1 : World) (p : PaymentModel.t)
    (Hcreated : PaymentService.createPayment passengerId amount method details w
                = (Ok (Some p), w1))
    (Hclock : DateTime.isValid (now w) = true)
    (Hyear : DateTime.year (now w) <= INT_MAX) :
  (forall p', PaymentModel.from_json (users w1) (PaymentModel.to_json p) <> Ok p') /\
  exists message w2,
    let p2 := PaymentModel.with_status p PaymentModel.COMPLETED in
    PaymentService.processPayment to_string_double (PaymentModel.paymentId p) w1
    = (Ok message, w2) /\
    payments w2 !! PaymentModel.paymentId p = Some p2 /\
    PaymentModel.from_json (users w2) (PaymentModel.to_json p2) = Ok p2.
Proof.
  destruct (createPayment_Some _ _ _ _ _ _ _ Hcreated)
    as (s & ds & Hs & Hp & Hid & Hnew & Huser & Hamount & Hw1).
  assert (Hstored : payments w1 !! PaymentModel.paymentId p = Some p).
  { rewrite Hw1. cbn. apply lookup_insert_eq. }
  assert (Husers : users w1 = users w) by (rewrite Hw1; reflexivity).
  assert (Hstrategy : PaymentModel.paymentStrategy p = Some s) by (rewrite Hp; reflexivity).
  split.
  - apply PaymentModel_pending_not_read_back. rewrite Hp. reflexivity.
  - destruct (factory_strategy_returns to_string_double method details s
                (PaymentModel.amount p) Hs) as ((m1 & H1) & _ & _).
    exists m1,
      (with_payments w1
         (<[PaymentModel.paymentId p := PaymentModel.with_status p PaymentModel.COMPLETED]>
            (payments w1))).
    cbv zeta. split; [| split].
    + unfold PaymentService.processPayment, bind, PaymentRepository.findPaymentById.
      rewrite Hstored. unfold PaymentModel.processPayment. rewrite Hstrategy, H1.
      reflexivity.
    + cbn. apply lookup_insert_eq.
    + cbn [users with_payments]. rewrite Husers.
      apply (PaymentModel_roundtrip (users w) _ s method details);
        try assumption;
        rewrite Hp; cbn; first [assumption | reflexivity | discriminate].
Qed.

Lemma processed_payment_roundtrip_witness :
  let w1 := snd (PaymentService.createPayment "PAS-30001" (f32_of_int 210) "cash" JNull
                   Example.world) in
  exists message w2 p2,
    PaymentService.processPayment (fun _ => "210.000000") "PAY-41001" w1
    = (Ok message, w2) /\
    payments w2 !! "PAY-41001" = Some p2 /\
    PaymentModel.from_json (users w2) (PaymentModel.to_json p2) = Ok p2.
Proof.
  intros w1.
  destruct (processed_payment_roundtrip (fun _ => "210.000000") "PAS-30001" (f32_of_int 210)
              "cash" JNull Example.world w1
              (PaymentModel.mk "PAY-41001" "PAS-30001" (f32_of_int 210)
                 (Some PaymentStrategy.CashPayment) (DateTime.mk 2025 1 1 12 0)
                 PaymentModel.PENDING)
              eq_refl eq_refl ltac:(unfold INT_MAX; cbn; lia))
    as (_ & message & w2 & Hprocess & Hstored & Hread).
  exists message, w2. eexists. split; [exact Hprocess |]. split; [exact Hstored | exact Hread].
Defined.

(** X16: [PaymentRepository::deletePayment] never deletes: for a stored
    payment it returns false, for an identifier that is not stored it returns
    true, and in both cases the repository is as it was. *)
Theorem deletePayment_never_deletes (w : World) (paymentId : string) :
  (is_Some (payments w !! paymentId) ->
     PaymentRepository.deletePayment paymentId w = (Ok false, w)) /\
  (payments w !! paymentId = None ->
     PaymentRepository.deletePayment paymentId w = (Ok true, w)).
Proof.
  unfold PaymentRepository.deletePayment. split.
  - intros [p ->]. reflexivity.
  - intros Hnone. rewrite Hnone. rewrite delete_id by exact Hnone.
    destruct w; reflexivity.
Qed.

Lemma deletePayment_never_deletes_witness :
  PaymentRepository.deletePayment "PAY-41001" Example.booked = (Ok false, Example.booked) /\
  PaymentRepository.deletePayment "PAY-99999" Example.booked = (Ok true, Example.booked).
Proof.
  split.
  - apply (deletePayment_never_deletes Example.booked "PAY-41001"). eexists. reflexivity.
  - apply (deletePayment_never_deletes Example.booked "PAY-99999"). reflexivity.
Defined.

(** ** Bookings: refusals, price, payment, cancellation *)

(** X17: [ReservationService::addReservation] returns no reservation
    and changes nothing when the passenger identifier is not that of a stored
    user with the role and the class of a passenger, or when the flight is
    not stored; for a stored passenger and flight and a seat that
    [isValidSeat] rejects it throws invalid_argument, again changing
    nothing. *)
Theorem addReservation_refusals (w : World)
    (flightId seatNumber passengerId paymentMethod : string) (paymentDetails : JSON) :
  let call := ReservationService.addReservation flightId seatNumber passengerId
                paymentMethod paymentDetails w in
  (users w !! passengerId = None -> call = (Ok None, w)) /\
  (forall user,
     users w !! passengerId = Some user ->
     UserModel.role user <> UserModel.Passenger \/ UserModel.as_Passenger user = None ->
     call = (Ok None, w)) /\
  (forall user loyaltyPoints,
     users w !! passengerId = Some user ->
     UserModel.role user = UserModel.Passenger ->
     UserModel.as_Passenger user = Some loyaltyPoints ->
     (flights w !! flightId = None -> call = (Ok None, w)) /\
     (forall flight,
        flights w !! flightId = Some flight ->
        FlightModel.isValidSeat (aircrafts w) flight seatNumber = false ->
        call = (Throw invalid_argument, w))).
Proof.
  intros call. subst call.
  unfold ReservationService.addReservation, bind, UserRepository.findUserById,
    FlightRepository.findFlightById, flight_ptr_getSeatStatus, ret.
  split; [| split].
  - intros ->. reflexivity.
  - intros user -> [Hrole | Hclass].
    + destruct (UserModel.role user); try reflexivity. congruence.
    + destruct (negb _); [reflexivity |]. rewrite Hclass. reflexivity.
  - intros user loyaltyPoints -> -> ->. cbn [UserModel.UserType_eqb negb]. split.
    + intros ->. reflexivity.
    + intros flight -> Hinvalid. rewrite isValidSeat_is_invalid in Hinvalid.
      apply negb_false_iff in Hinvalid.
      unfold FlightModel.getSeatStatus. rewrite Hinvalid. reflexivity.
Qed.

Lemma addReservation_refusals_witness :
  ReservationService.addReservation "FL-20001" "1D" "PAS-00000" "cash" JNull Example.world
  = (Ok None, Example.world) /\
  ReservationService.addReservation "FL-20001" "9Z" "PAS-30001" "cash" JNull Example.world
  = (Throw invalid_argument, Example.world).
Proof.
  split.
  - apply (addReservation_refusals Example.world "FL-20001" "1D" "PAS-00000" "cash" JNull).
    reflexivity.
  - apply (proj2 (proj2 (addReservation_refusals Example.world "FL-20001" "9Z" "PAS-30001"
                           "cash" JNull)) Example.passenger f0 eq_refl eq_refl eq_refl)
      with (flight := Example.flight); reflexivity.
Defined.

Lemma seat_code_price (numRows seatsPerRow : Z) (s : string) (row col : Z)
    (loyaltyPoints : float) :
  numRows <= INT_MAX ->
  seat_code numRows seatsPerRow s row col ->
  exists letter,
    str_back s = Some letter /\ code_of letter = col + 65 /\
    ReservationService.getSeatPrice s loyaltyPoints
    = Ok (seat_price (row + 1) letter loyaltyPoints).
Proof.
  intros Hrows (digits & letter & -> & Hne & Hdigits & Hrow & Hcol & -> & ->).
  exists letter. split; [apply str_back_app |]. split; [lia |].
  replace (digits_value digits - 1 + 1) with (digits_value digits) by lia.
  apply (getSeatPrice_row _ (digits_value digits) letter).
  - destruct digits; discriminate.
  - rewrite str_length_app. cbn [String.length].
    replace (String.length digits + 1 - 1)%nat with (String.length digits) by lia.
    rewrite substring_prefix, (stoi_digits digits Hne Hdigits).
    now replace (digits_value digits <=? INT_MAX) with true
      by (symmetry; apply Z.leb_le; lia).
  - apply str_back_app.
Qed.

(** X18: [getSeatPrice] does not throw on a seat that [isValidSeat]
    accepts: for the row and column that [getSeatIndices] gives it returns
    the price of row + 1 and of the letter of that column. *)
Theorem valid_seat_is_priced
    (aircrafts : gmap string AircraftModel.t) (f : FlightModel.t) (a : AircraftModel.t)
    (s : string) (loyaltyPoints : float)
    (Hfound : aircrafts !! FlightModel.aircraftId f = Some a)
    (Hrows : AircraftModel.numOfRows a <= INT_MAX)
    (Hvalid : FlightModel.isValidSeat aircrafts f s = true) :
  exists row col letter,
    FlightModel.getSeatIndices aircrafts f s = (row, col) /\
    str_back s = Some letter /\ code_of letter = col + 65 /\
    ReservationService.getSeatPrice s loyaltyPoints
    = Ok (seat_price (row + 1) letter loyaltyPoints).
Proof.
  rewrite isValidSeat_is_invalid in Hvalid. apply negb_true_iff in Hvalid.
  destruct (valid_seat_indices _ _ _ Hvalid)
    as (a' & row & col & Hfound' & Hij & _ & _ & Hcode).
  rewrite Hfound in Hfound'. injection Hfound' as <-.
  destruct (seat_code_price _ _ _ _ _ loyaltyPoints Hrows Hcode)
    as (letter & Hback & Hletter & Hprice).
  exists row, col, letter. auto.
Qed.

Lemma valid_seat_is_priced_witness :
  exists row col letter,
    FlightModel.getSeatIndices (aircrafts Example.world) Example.flight "03D" = (row, col) /\
    str_back "03D" = Some letter /\ code_of letter = col + 65 /\
    ReservationService.getSeatPrice "03D" f0 = Ok (seat_price (row + 1) letter f0).
Proof.
  apply (valid_seat_is_priced (aircrafts Example.world) Example.flight Example.aircraft
           "03D" f0 eq_refl); [| reflexivity].
  unfold INT_MAX. cbn. lia.
Defined.

(** X19: a booking that [addReservation] returns has stored exactly one
    new payment: a PENDING payment of the passenger, of the amount
    [getSeatPrice] gives for the seat and the loyalty points the passenger
    had, under the identifier the CONFIRMED reservation carries. *)
Theorem booking_stores_pending_payment
    (w w' : World) (flightId seatNumber passengerId paymentMethod : string)
    (paymentDetails : JSON) (r : ReservationModel.t)
    (Hbooked : ReservationService.addReservation flightId seatNumber passengerId
                 paymentMethod paymentDetails w = (Ok (Some r), w')) :
  ReservationModel.status r = ReservationModel.CONFIRMED /\
  exists user loyaltyPoints price p,
    users w !! passengerId = Some user /\
    UserModel.as_Passenger user = Some loyaltyPoints /\
    ReservationService.getSeatPrice seatNumber loyaltyPoints = Ok price /\
    payments w !! ReservationModel.paymentId r = None /\
    payments w' = <[ReservationModel.paymentId r := p]> (payments w) /\
    PaymentModel.paymentId p = ReservationModel.paymentId r /\
    PaymentModel.passengerId p = passengerId /\
    PaymentModel.amount p = price /\
    PaymentModel.status p = PaymentModel.PENDING /\
    PaymentModel.paymentDate p = now w.
Proof.
  destruct (addReservation_Some _ _ _ _ _ _ _ _ Hbooked)
    as (user & lp & f & f' & price & payment & w1 & Huser & Hlp & _ & _ & Hprice &
        Hpay & _ & _ & _ & _ & _ & _ & Hpayments & Hr).
  split; [rewrite Hr; reflexivity |].
  destruct (createPayment_Some _ _ _ _ _ _ _ Hpay)
    as (s & ds & _ & Hp & _ & Hnew & _ & _ & Hw1).
  assert (Hpid : ReservationModel.paymentId r = PaymentModel.paymentId payment)
    by (rewrite Hr; reflexivity).
  exists user, lp, price, payment. rewrite Hpid.
  repeat split; try assumption; try (rewrite Hp; reflexivity).
  rewrite Hpayments, Hw1. reflexivity.
Qed.

Lemma booking_stores_pending_payment_witness :
  exists p,
    payments Example.booked = <["PAY-41001" := p]> (payments Example.world) /\
    PaymentModel.status p = PaymentModel.PENDING.
Proof.
  destruct (booking_stores_pending_payment Example.world Example.booked "FL-20001" "1D"
              "PAS-30001" "cash" JNull
              (ReservationModel.mk "RES-41002" "FL-20001" "PAS-30001" "1D"
                 ReservationModel.CONFIRMED "PAY-41001") eq_refl)
    as (_ & user & lp & price & p & _ & _ & _ & _ & Hstored & _ & _ & _ & Hstatus & _).
  exists p. split; [exact Hstored | exact Hstatus].
Defined.

(** X20: [ReservationService::deleteReservation] never touches a
    payment or a user: whatever it returns, the payment of the cancelled
    booking stays in the PaymentRepository as it was (nothing is refunded)
    and the loyalty points of the passenger stay as the booking left
    them. *)
Theorem deleteReservation_keeps_payment (w w' : World) (reservationId : string)
    (r : outcome bool)
    (Hcall : ReservationService.deleteReservation reservationId w = (r, w')) :
  payments w' = payments w /\ users w' = users w /\ aircrafts w' = aircrafts w /\
  draws w' = draws w.
Proof.
  unfold ReservationService.deleteReservation, bind,
    ReservationRepository.findReservationById, FlightRepository.findFlightById,
    ReservationRepository.deleteReservation, flight_ptr_setSeatStatus, ret in Hcall.
  destruct (reservations w !! reservationId) as [res |] eqn:Hres.
  - destruct (flights w !! ReservationModel.flightId res) as [f |].
    + destruct (FlightModel.setSeatStatus _ _ _ _); cbn in Hcall;
        try rewrite Hres in Hcall; injection Hcall as <- <-; auto.
    + rewrite Hres in Hcall. injection Hcall as <- <-. auto.
  - injection Hcall as <- <-. auto.
Qed.

Lemma deleteReservation_keeps_payment_witness :
  exists w',
    ReservationService.deleteReservation "RES-41002" Example.booked = (Ok true, w') /\
    payments w' = payments Example.booked /\ users w' = users Example.booked.
Proof.
  eexists. split; [reflexivity |].
  match goal with
  | |- payments ?w' = _ /\ _ =>
      destruct (deleteReservation_keeps_payment Example.booked w' "RES-41002" (Ok true)
                  eq_refl) as (Hp & Hu & _)
  end.
  split; [exact Hp | exact Hu].
Defined.

(** ** Changing a booking *)

(** X21: [ReservationService::updateReservation] returns false and
    changes nothing when the reservation is not stored or its new flight is
    not stored; when neither the flight nor the seat differs from the stored
    reservation it replaces the stored reservation by the one given, checking
    no other field and touching no seat (also when the new status is
    CANCELLED); when the flight or the seat differs it returns false and
    changes nothing if the new seat reads as booked, and throws
    invalid_argument, changing nothing, if [isValidSeat] rejects the new
    seat. *)
Theorem updateReservation_without_move (w : World) (r : ReservationModel.t) :
  let call := ReservationService.updateReservation r w in
  (reservations w !! ReservationModel.reservationId r = None -> call = (Ok false, w)) /\
  (forall o,
     reservations w !! ReservationModel.reservationId r = Some o ->
     (flights w !! ReservationModel.flightId r = None -> call = (Ok false, w)) /\
     (forall f,
        flights w !! ReservationModel.flightId r = Some f ->
        (ReservationModel.flightId o = ReservationModel.flightId r ->
         ReservationModel.seatNumber o = ReservationModel.seatNumber r ->
         call = (Ok true,
                 with_reservations w
                   (<[ReservationModel.reservationId r := r]> (reservations w)))) /\
        (ReservationModel.flightId o <> ReservationModel.flightId r \/
         ReservationModel.seatNumber o <> ReservationModel.seatNumber r ->
         (FlightModel.getSeatStatus (aircrafts w) f (ReservationModel.seatNumber r) = Ok true ->
          call = (Ok false, w)) /\
         (FlightModel.isValidSeat (aircrafts w) f (ReservationModel.seatNumber r) = false ->
          call = (Throw invalid_argument, w))))).
Proof.
  intros call. subst call.
  unfold ReservationService.updateReservation, bind,
    ReservationRepository.findReservationById, FlightRepository.findFlightById,
    flight_ptr_getSeatStatus, ReservationRepository.updateReservation, ret.
  split.
  - intros ->. reflexivity.
  - intros o Ho. rewrite Ho. split.
    + intros ->. reflexivity.
    + intros f Hf. rewrite Hf. split.
      * intros -> ->. rewrite !String.eqb_refl. cbn. rewrite Ho. reflexivity.
      * intros Hchanged.
        assert (Hflag : negb (String.eqb (ReservationModel.flightId o)
                                (ReservationModel.flightId r))
                        || negb (String.eqb (ReservationModel.seatNumber o)
                                   (ReservationModel.seatNumber r)) = true).
        { apply orb_true_iff.
          destruct Hchanged as [H | H]; [left | right];
            apply negb_true_iff, String.eqb_neq; exact H. }
        rewrite Hflag. split.
        -- intros ->. reflexivity.
        -- intros Hinvalid. rewrite isValidSeat_is_invalid in Hinvalid.
           apply negb_false_iff in Hinvalid.
           unfold FlightModel.getSeatStatus. rewrite Hinvalid. reflexivity.
Qed.

Lemma updateReservation_without_move_witness :
  let cancelled := ReservationModel.mk "RES-41002" "FL-20001" "PAS-30001" "1D"
                     ReservationModel.CANCELLED "PAY-41001" in
  exists w' f,
    ReservationService.updateReservation cancelled Example.booked = (Ok true, w') /\
    reservations w' !! "RES-41002" = Some cancelled /\
    flights w' !! "FL-20001" = Some f /\
    FlightModel.getSeatStatus (aircrafts w') f "1D" = Ok true.
Proof.
  intros cancelled. do 2 eexists. split; [| split; [| split]].
  - exact (proj1 (proj2 (proj2 (updateReservation_without_move Example.booked cancelled)
                           (ReservationModel.mk "RES-41002" "FL-20001" "PAS-30001" "1D"
                              ReservationModel.CONFIRMED "PAY-41001") eq_refl)
                    (FlightModel.with_seatMap Example.flight
                       [[false; false; false; true]; replicate 4 false; replicate 4 false])
                    eq_refl) eq_refl eq_refl).
  - reflexivity.
  - reflexivity.
  - reflexivity.
Defined.

Lemma getSeatIndices_same_aircraft (aircrafts : gmap string AircraftModel.t)
    (f g : FlightModel.t) (s : string) :
  FlightModel.aircraftId f = FlightModel.aircraftId g ->
  FlightModel.getSeatIndices aircrafts f s = FlightModel.getSeatIndices aircrafts g s.
Proof. intros H. unfold FlightModel.getSeatIndices. rewrite H. reflexivity. Qed.

(** X22: when the flight or the seat of the reservation given differs
    from the stored one, the new seat reads as free and the old seat still
    decodes on its flight, [updateReservation] returns true, stores the
    reservation given, marks the new seat as booked and, unless it is the
    same cell of the same flight, the old seat as free; flights other than
    these two, the users and the payments stay as they were (the payment is
    not adjusted to the price of the new seat). *)
Theorem updateReservation_moves_seat (w : World) (r o : ReservationModel.t)
    (fnew fold : FlightModel.t) (b : bool)
    (Hstored : reservations w !! ReservationModel.reservationId r = Some o)
    (Hnew : flights w !! ReservationModel.flightId r = Some fnew)
    (Hchanged : ReservationModel.flightId o <> ReservationModel.flightId r \/
                ReservationModel.seatNumber o <> ReservationModel.seatNumber r)
    (Hfree : FlightModel.getSeatStatus (aircrafts w) fnew (ReservationModel.seatNumber r)
             = Ok false)
    (Hold : flights w !! ReservationModel.flightId o = Some fold)
    (Holdseat : FlightModel.getSeatStatus (aircrafts w) fold (ReservationModel.seatNumber o)
                = Ok b) :
  exists w',
    ReservationService.updateReservation r w = (Ok true, w') /\
    reservations w' = <[ReservationModel.reservationId r := r]> (reservations w) /\
    (exists f2,
       flights w' !! ReservationModel.flightId r = Some f2 /\
       FlightModel.getSeatStatus (aircrafts w') f2 (ReservationModel.seatNumber r) = Ok true) /\
    (ReservationModel.flightId o <> ReservationModel.flightId r \/
     FlightModel.getSeatIndices (aircrafts w) fold (ReservationModel.seatNumber o)
     <> FlightModel.getSeatIndices (aircrafts w) fnew (ReservationModel.seatNumber r) ->
     exists f1,
       flights w' !! ReservationModel.flightId o = Some f1 /\
       FlightModel.getSeatStatus (aircrafts w') f1 (ReservationModel.seatNumber o) = Ok false) /\
    (forall k, k <> ReservationModel.flightId r -> k <> ReservationModel.flightId o ->
               flights w' !! k = flights w !! k) /\
    users w' = users w /\ payments w' = payments w /\ aircrafts w' = aircrafts w.
Proof.
  set (ac := aircrafts w) in *.
  destruct (setSeatStatus_defined ac fold _ b false Holdseat) as [f1 Hset1].
  destruct (setSeatStatus_Ok ac fold f1 _ false Hset1) as (_ & Hf1 & _ & _ & Hread1).
  cbv zeta in Hf1.
  (* the flight behind the pointer [newFlight] after the old seat was freed *)
  set (fl1 := <[ReservationModel.flightId o := f1]> (flights w)).
  assert (Hg : exists g, fl1 !! ReservationModel.flightId r = Some g /\
                 FlightModel.getSeatStatus ac g (ReservationModel.seatNumber r) = Ok false /\
                 (ReservationModel.flightId o = ReservationModel.flightId r ->
                  g = f1 /\ fold = fnew)).
  { destruct (String.eqb_spec (ReservationModel.flightId o) (ReservationModel.flightId r))
      as [Heq | Hne].
    - exists f1. subst fl1. rewrite Heq, lookup_insert_eq. split; [reflexivity |].
      assert (fold = fnew) as -> by (rewrite Heq in Hold; congruence).
      split; [| auto].
      destruct (getSeatStatus_after_set ac fnew f1 _ false Hset1
                  (ReservationModel.seatNumber r)) as [Hsame Hother].
      destruct (decide (FlightModel.getSeatIndices ac fnew (ReservationModel.seatNumber r)
                        = FlightModel.getSeatIndices ac fnew (ReservationModel.seatNumber o)))
        as [Hi | Hi]; [exact (Hsame Hi) | rewrite (Hother Hi); exact Hfree].
    - exists fnew. subst fl1. rewrite lookup_insert_ne by exact Hne.
      split; [exact Hnew |]. split; [exact Hfree | contradiction]. }
  destruct Hg as (g & Hg & Hgfree & Hsameflight).
  destruct (setSeatStatus_defined ac g _ false true Hgfree) as [f2 Hset2].
  destruct (setSeatStatus_Ok ac g f2 _ true Hset2) as (_ & _ & _ & _ & Hread2).
  exists (with_flights
            (with_reservations w (<[ReservationModel.reservationId r := r]> (reservations w)))
            (<[ReservationModel.flightId r := f2]> fl1)).
  assert (Hflag : negb (String.eqb (ReservationModel.flightId o)
                          (ReservationModel.flightId r))
                  || negb (String.eqb (ReservationModel.seatNumber o)
                             (ReservationModel.seatNumber r)) = true).
  { apply orb_true_iff.
    destruct Hchanged as [H | H]; [left | right];
      apply negb_true_iff, String.eqb_neq; exact H. }
  split; [| split; [| split; [| split; [| split]]]].
  - unfold ReservationService.updateReservation, bind,
      ReservationRepository.findReservationById, FlightRepository.findFlightById,
      flight_ptr_getSeatStatus, ReservationRepository.updateReservation, ret.
    rewrite Hstored, Hnew, Hflag. fold ac. rewrite Hfree, Hstored.
    cbn [flights with_reservations]. rewrite Hold.
    unfold flight_ptr_setSeatStatus at 1. cbn [aircrafts with_reservations]. fold ac.
    rewrite Hset1.
    unfold ReservationService.flight_at_setSeatStatus, flight_ptr_setSeatStatus.
    cbn [flights aircrafts with_flights with_reservations]. fold ac. fold fl1.
    rewrite Hg, Hset2. reflexivity.
  - reflexivity.
  - exists f2. cbn [flights aircrafts with_flights with_reservations]. fold ac.
    split; [apply lookup_insert_eq | exact Hread2].
  - intros Hdistinct. cbn [flights aircrafts with_flights with_reservations]. fold ac.
    destruct (String.eqb_spec (ReservationModel.flightId o) (ReservationModel.flightId r))
      as [Heq | Hne].
    + destruct (Hsameflight Heq) as [-> ->].
      destruct Hdistinct as [Hd | Hd]; [contradiction |].
      exists f2. rewrite Heq, lookup_insert_eq. split; [reflexivity |].
      destruct (getSeatStatus_after_set ac f1 f2 _ true Hset2
                  (ReservationModel.seatNumber o)) as [_ Hother].
      rewrite Hother; [exact Hread1 |].
      rewrite Hf1, !getSeatIndices_with_seatMap. exact Hd.
    + exists f1. subst fl1.
      rewrite lookup_insert_ne by congruence. rewrite lookup_insert_eq.
      split; [reflexivity | exact Hread1].
  - intros k Hk1 Hk2. cbn [flights with_flights with_reservations]. subst fl1.
    rewrite !lookup_insert_ne by congruence. reflexivity.
  - repeat split.
Qed.

Lemma updateReservation_moves_seat_witness :
  exists w' f,
    ReservationService.updateReservation
      (ReservationModel.mk "RES-41002" "FL-20001" "PAS-30001" "2A"
         ReservationModel.CONFIRMED "PAY-41001") Example.booked = (Ok true, w') /\
    flights w' !! "FL-20001" = Some f /\
    FlightModel.getSeatStatus (aircrafts w') f "2A" = Ok true /\
    FlightModel.getSeatStatus (aircrafts w') f "1D" = Ok false.
Proof.
  destruct (updateReservation_moves_seat Example.booked
              (ReservationModel.mk "RES-41002" "FL-20001" "PAS-30001" "2A"
                 ReservationModel.CONFIRMED "PAY-41001")
              (ReservationModel.mk "RES-41002" "FL-20001" "PAS-30001" "1D"
                 ReservationModel.CONFIRMED "PAY-41001")
              (FlightModel.with_seatMap Example.flight
                 [[false; false; false; true]; replicate 4 false; replicate 4 false])
              (FlightModel.with_seatMap Example.flight
                 [[false; false; false; true]; replicate 4 false; replicate 4 false])
              true eq_refl eq_refl ltac:(right; discriminate) eq_refl eq_refl eq_refl)
    as (w' & Hcall & _ & (f2 & Hf2 & Hnewseat) & Holdseat & _).
  destruct Holdseat as (f1 & Hf1 & Hfreed); [right; discriminate |].
  exists w', f2. cbn in Hf1, Hf2. rewrite Hf2 in Hf1. injection Hf1 as ->.
  auto.
Defined.

(** X23: [ReservationModel::setSeatNumber] does not look at the status
    of the new seat: whenever the old and the new seat decode on the flight
    of the reservation it returns, whether the new seat was free or booked,
    with the new seat marked as booked and the old seat, unless it is the
    same cell, marked as free. When [isValidSeat] rejects the new seat it
    throws invalid_argument after it has freed the old seat and assigned the
    rejected seat to the reservation. *)
Theorem setSeatNumber_unchecked
    (aircrafts : gmap string AircraftModel.t) (flights : gmap string FlightModel.t)
    (self : ReservationModel.t) (f : FlightModel.t) (seatNumber : string) (b : bool)
    (Hflight : flights !! ReservationModel.flightId self = Some f)
    (Hold : FlightModel.getSeatStatus aircrafts f (ReservationModel.seatNumber self) = Ok b) :
  let self' :=
    ReservationModel.mk (ReservationModel.reservationId self)
      (ReservationModel.flightId self) (ReservationModel.passengerId self) seatNumber
      (ReservationModel.status self) (ReservationModel.paymentId self) in
  (forall b2,
     FlightModel.getSeatStatus aircrafts f seatNumber = Ok b2 ->
     exists f2,
       ReservationModel.setSeatNumber aircrafts flights self seatNumber
       = (Ok tt, self', <[ReservationModel.flightId self := f2]> flights) /\
       FlightModel.getSeatStatus aircrafts f2 seatNumber = Ok true /\
       (FlightModel.getSeatIndices aircrafts f (ReservationModel.seatNumber self)
        <> FlightModel.getSeatIndices aircrafts f seatNumber ->
        FlightModel.getSeatStatus aircrafts f2 (ReservationModel.seatNumber self)
        = Ok false)) /\
  (FlightModel.isValidSeat aircrafts f seatNumber = false ->
   exists f1,
     ReservationModel.setSeatNumber aircrafts flights self seatNumber
     = (Throw invalid_argument, self', <[ReservationModel.flightId self := f1]> flights) /\
     FlightModel.getSeatStatus aircrafts f1 (ReservationModel.seatNumber self) = Ok false).
Proof.
  intros self'.
  destruct (setSeatStatus_defined aircrafts f _ b false Hold) as [f1 Hset1].
  destruct (setSeatStatus_Ok aircrafts f f1 _ false Hset1) as (_ & Hf1 & _ & _ & Hread1).
  cbv zeta in Hf1.
  unfold ReservationModel.setSeatNumber. rewrite Hflight, Hset1. split.
  - intros b2 Hnew.
    assert (Hnew1 : exists b3, FlightModel.getSeatStatus aircrafts f1 seatNumber = Ok b3).
    { destruct (getSeatStatus_after_set aircrafts f f1 _ false Hset1 seatNumber)
        as [Hsame Hother].
      destruct (decide (FlightModel.getSeatIndices aircrafts f seatNumber
                        = FlightModel.getSeatIndices aircrafts f
                            (ReservationModel.seatNumber self))) as [Hi | Hi].
      - rewrite (Hsame Hi). eauto.
      - rewrite (Hother Hi). eauto. }
    destruct Hnew1 as [b3 Hnew1].
    destruct (setSeatStatus_defined aircrafts f1 _ b3 true Hnew1) as [f2 Hset2].
    destruct (setSeatStatus_Ok aircrafts f1 f2 _ true Hset2) as (_ & _ & _ & _ & Hread2).
    exists f2. rewrite Hset2. split; [reflexivity |]. split; [exact Hread2 |].
    intros Hdistinct.
    destruct (getSeatStatus_after_set aircrafts f1 f2 _ true Hset2
                (ReservationModel.seatNumber self)) as [_ Hother].
    rewrite Hother; [exact Hread1 |].
    rewrite Hf1, !getSeatIndices_with_seatMap. exact Hdistinct.
  - intros Hinvalid. rewrite isValidSeat_is_invalid in Hinvalid.
    apply negb_false_iff in Hinvalid.
    exists f1. split; [| exact Hread1].
    unfold FlightModel.setSeatStatus at 1.
    rewrite Hf1, getSeatIndices_with_seatMap, Hinvalid. reflexivity.
Qed.

Lemma setSeatNumber_unchecked_witness :
  let bobs := ReservationModel.mk "RES-41002" "FL-20001" "PAS-30001" "1D"
                ReservationModel.CONFIRMED "PAY-41001" in
  let taken :=
    <["FL-20001" := FlightModel.with_seatMap Example.flight
                      [[false; false; false; true]; [true; false; false; false];
                       replicate 4 false]]> (flights Example.booked) in
  exists f2,
    ReservationModel.setSeatNumber (aircrafts Example.booked) taken bobs "2A"
    = (Ok tt,
       ReservationModel.mk "RES-41002" "FL-20001" "PAS-30001" "2A"
         ReservationModel.CONFIRMED "PAY-41001",
       <["FL-20001" := f2]> taken) /\
    FlightModel.getSeatStatus (aircrafts Example.booked) f2 "2A" = Ok true.
Proof.
  intros bobs taken.
  destruct (proj1 (setSeatNumber_unchecked (aircrafts Example.booked) taken bobs
                     (FlightModel.with_seatMap Example.flight
                        [[false; false; false; true]; [true; false; false; false];
                         replicate 4 false])
                     "2A" true eq_refl eq_refl) true eq_refl)
    as (f2 & Hcall & Hread & _).
  exists f2. split; [exact Hcall | exact Hread].
Defined.

(** X24: [PassengerController::bookFlight] hands its arguments to
    [addReservation] in the order (passenger, flight, seat), where
    [addReservation] takes (flight, seat, passenger): the seat code is looked
    up as the passenger, so the call returns no reservation and changes
    nothing whenever the seat code is not the identifier of a stored user.
    [BookingManagerController::createReservation] passes them in the order
    [addReservation] takes. *)
Theorem bookFlight_swapped_arguments (w : World)
    (passengerId flightId seatNumber paymentType : string) (paymentDetails : JSON) :
  (users w !! seatNumber = None ->
   PassengerController.bookFlight passengerId flightId seatNumber paymentType
     paymentDetails w = (Ok None, w)) /\
  (forall bookingManagerId manager,
     users w !! bookingManagerId = Some manager ->
     UserModel.role manager = UserModel.BookingManager ->
     BookingManagerController.createReservation bookingManagerId passengerId flightId
       seatNumber paymentType paymentDetails w
     = ReservationService.addReservation flightId seatNumber passengerId paymentType
         paymentDetails w).
Proof.
  split.
  - intros Hnone.
    unfold PassengerController.bookFlight, PassengerController.authenticatePassenger,
      UserManagementService.getUserRole, bind, UserRepository.findUserById, ret.
    destruct (users w !! passengerId) as [user |]; [| reflexivity].
    destruct (negb _); [reflexivity |].
    unfold ReservationService.addReservation, bind, UserRepository.findUserById, ret.
    rewrite Hnone. reflexivity.
  - intros bookingManagerId manager Hm Hrole.
    unfold BookingManagerController.createReservation,
      BookingManagerController.authenticateBookingManager,
      UserManagementService.getUserRole, bind, UserRepository.findUserById, ret.
    rewrite Hm, Hrole. reflexivity.
Qed.

Lemma bookFlight_swapped_arguments_witness :
  PassengerController.bookFlight "PAS-30001" "FL-20001" "1D" "cash" JNull Example.world
  = (Ok None, Example.world) /\
  exists r w',
    ReservationService.addReservation "FL-20001" "1D" "PAS-30001" "cash" JNull Example.world
    = (Ok (Some r), w').
Proof.
  split.
  - apply (bookFlight_swapped_arguments Example.world "PAS-30001" "FL-20001" "1D" "cash"
             JNull). reflexivity.
  - exists (ReservationModel.mk "RES-41002" "FL-20001" "PAS-30001" "1D"
              ReservationModel.CONFIRMED "PAY-41001"), Example.booked.
    reflexivity.
Defined.

(** ** Aircraft administration *)

(** X25: an aircraft that [AircraftService::addAircraft] returns is
    stored under an identifier "AC-..." that no aircraft had, has the model,
    capacity and seats per row asked for and satisfies the invariant of
    [AircraftModel]; no flight is touched; the aircraft is read back from its
    JSON as it is (its capacity being an [int]). *)
Theorem addAircraft_stores_valid_aircraft
    (w w' : World) (model : string) (capacity numOfRowSeats : Z) (a : AircraftModel.t)
    (Hadded : AircraftService.addAircraft model capacity numOfRowSeats w
              = (Ok (Some a), w')) :
  a = AircraftModel.mk (AircraftModel.aircraftId a) model capacity numOfRowSeats
        (capacity / numOfRowSeats) /\
  AircraftModel.invariant a /\
  lacks_prefix (AircraftModel.aircraftId a) "AC-" = false /\
  aircrafts w !! AircraftModel.aircraftId a = None /\
  aircrafts w' = <[AircraftModel.aircraftId a := a]> (aircrafts w) /\
  flights w' = flights w /\
  (INT_MIN <= capacity <= INT_MAX ->
   AircraftModel.from_json (AircraftModel.to_json a) = Ok a).
Proof.
  unfold AircraftService.addAircraft, bind in Hadded.
  destruct (AircraftModel.ctor (aircrafts w) (draws w) model capacity numOfRowSeats)
    as [[a0 | | |] ds] eqn:Hctor; try discriminate.
  pose proof (ctor_invariant _ _ _ _ _ _ _ Hctor) as Hinv.
  unfold AircraftModel.ctor in Hctor.
  destruct (str_empty model) eqn:Hmodel; [discriminate |].
  cbn [throw_if obind] in Hctor.
  repeat match type of Hctor with
         | context [throw_if ?c _] => destruct c; cbn [throw_if obind] in Hctor;
                                      [discriminate |]
         end.
  destruct (generate_fresh_id _ _ (draws w)) as [[id | | |] ds'] eqn:Hid; try discriminate.
  cbn [obind] in Hctor. injection Hctor as <- <-.
  apply generate_fresh_id_Ok in Hid as (Hfree & d & _ & ->).
  apply bool_decide_eq_false in Hfree. rewrite is_Some_alt in Hfree.
  unfold AircraftRepository.addAircraft, AircraftRepository.findAircraftById, ret in Hadded.
  cbn in Hadded.
  destruct (aircrafts w !! ("AC-" ++ to_string d)) eqn:Hnew; [tauto |].
  cbn in Hadded. rewrite lookup_insert_eq in Hadded. injection Hadded as <- <-.
  pose proof Hinv as (Hc & Hn & Hmod & Hrows). cbn in Hc, Hn, Hmod, Hrows.
  split; [cbn; f_equal; exact Hrows |]. split; [exact Hinv |].
  split; [apply lacks_prefix_app |]. split; [exact Hnew |].
  split; [reflexivity |]. split; [reflexivity |].
  intros Hint. apply AircraftModel_roundtrip; try assumption.
  - apply lacks_prefix_app.
  - apply str_empty_false. exact Hmodel.
Qed.

Lemma addAircraft_stores_valid_aircraft_witness :
  exists a w',
    AircraftService.addAircraft "B737" 180 6 Example.world = (Ok (Some a), w') /\
    AircraftModel.invariant a /\
    AircraftModel.from_json (AircraftModel.to_json a) = Ok a.
Proof.
  do 2 eexists. split; [reflexivity |].
  match goal with
  | |- AircraftModel.invariant ?a /\ _ =>
      destruct (addAircraft_stores_valid_aircraft Example.world _ "B737" 180 6 a eq_refl)
        as (_ & Hinv & _ & _ & _ & _ & Hjson)
  end.
  split; [exact Hinv |]. apply Hjson. unfold INT_MIN, INT_MAX. lia.
Defined.

Lemma confirmAdmin_true (w : World) (adminId : string) (admin : UserModel.t) :
  users w !! adminId = Some admin -> UserModel.role admin = UserModel.Admin ->
  AdminController.confirmAdmin adminId w = (Ok true, w).
Proof.
  intros Hu Hrole.
  unfold AdminController.confirmAdmin, UserManagementService.getUserRole, bind,
    UserRepository.findUserById, ret.
  rewrite Hu, Hrole. reflexivity.
Qed.

(** X26: [AdminController::updateAircraft] by an administrator on a
    stored aircraft that satisfies the invariant sets the model, then the
    capacity, then the seats per row on the stored aircraft. The capacity is
    checked against the seats per row the aircraft still has: when it is
    not a positive multiple of them the call throws invalid_argument, with the
    model already replaced. In every outcome the stored aircraft satisfies
    the invariant, and no flight is touched, so the seat grids of the
    aircraft's flights keep their size. *)
Theorem updateAircraft_in_place (w w' : World) (adminId aircraftId model : string)
    (capacity numOfRowSeats : Z) (admin : UserModel.t) (a : AircraftModel.t)
    (r : outcome bool)
    (Hadmin : users w !! adminId = Some admin)
    (Hrole : UserModel.role admin = UserModel.Admin)
    (Hstored : aircrafts w !! aircraftId = Some a)
    (Hkey : AircraftModel.aircraftId a = aircraftId)
    (Hinv : AircraftModel.invariant a)
    (Hcall : AdminController.updateAircraft adminId aircraftId model capacity numOfRowSeats w
             = (r, w')) :
  flights w' = flights w /\
  (exists a', aircrafts w' !! aircraftId = Some a' /\ AircraftModel.invariant a' /\
              AircraftModel.model a' = model /\
              (r = Ok true ->
               a' = AircraftModel.mk aircraftId model capacity numOfRowSeats
                      (capacity / numOfRowSeats))) /\
  (r = Ok true \/ r = Throw invalid_argument) /\
  (capacity <= 0 \/ Z.rem capacity (AircraftModel.numOfRowSeats a) <> 0 ->
   r = Throw invalid_argument /\
   aircrafts w' = <[aircraftId := AircraftModel.setModel a model]> (aircrafts w)).
Proof.
  unfold AdminController.updateAircraft in Hcall. unfold bind at 1 in Hcall.
  rewrite (confirmAdmin_true w adminId admin Hadmin Hrole) in Hcall. cbn [negb] in Hcall.
  unfold bind, AircraftRepository.findAircraftById, AdminController.aircraft_ptr_set,
    AircraftService.updateAircraft, AircraftRepository.updateAircraft in Hcall.
  rewrite Hstored in Hcall.
  set (a1 := AircraftModel.setModel a model) in *.
  assert (Hinv1 : AircraftModel.invariant a1) by (apply setModel_invariant; exact Hinv).
  destruct (AircraftModel.setCapacity a1 capacity) as [a2 | e | |] eqn:Hcap.
  - pose proof (setCapacity_invariant _ _ _ Hinv1 Hcap) as Hinv2.
    assert (Hcap_ok : ~ (capacity <= 0 \/ Z.rem capacity (AircraftModel.numOfRowSeats a) <> 0)).
    { unfold AircraftModel.setCapacity in Hcap. inv_ok.
      repeat match goal with
             | H : negb _ = false |- _ => apply negb_false_iff in H
             | H : (_ =? _) = true |- _ => apply Z.eqb_eq in H
             | H : (_ <=? _) = false |- _ => apply Z.leb_gt in H
             end.
      cbn in *. lia. }
    assert (Ha2 : AircraftModel.aircraftId a2 = aircraftId /\ AircraftModel.model a2 = model).
    { unfold AircraftModel.setCapacity in Hcap. inv_ok. subst a2. cbn. auto. }
    destruct (AircraftModel.setNumOfRowSeats a2 numOfRowSeats) as [a3 | e | |] eqn:Hseats.
    + pose proof (setNumOfRowSeats_invariant _ _ _ Hinv2 Hseats) as Hinv3.
      assert (Ha3 : a3 = AircraftModel.mk aircraftId model capacity numOfRowSeats
                           (capacity / numOfRowSeats)).
      { destruct Hinv3 as (Hc3 & Hn3 & _ & Hrows3).
        unfold AircraftModel.setNumOfRowSeats in Hseats. inv_ok.
        unfold AircraftModel.setCapacity in Hcap. inv_ok. subst a2 a3. cbn in *.
        rewrite Hkey. f_equal. exact Hrows3. }
      cbn in Hcall.
      assert (Hid3 : AircraftModel.aircraftId a3 = aircraftId) by (rewrite Ha3; reflexivity).
      rewrite Hid3, lookup_insert_eq in Hcall. injection Hcall as <- <-. cbn.
      split; [reflexivity |]. split; [| split; [auto | tauto]].
      exists a3. rewrite lookup_insert_eq.
      split; [reflexivity |]. split; [exact Hinv3 |].
      split; [rewrite Ha3; reflexivity | intros _; exact Ha3].
    + cbn in Hcall. injection Hcall as <- <-. cbn.
      assert (He : e = invalid_argument).
      { unfold AircraftModel.setNumOfRowSeats, throw_if in Hseats.
        repeat match type of Hseats with
               | context [if ?c then _ else _] => destruct c; cbn [obind] in Hseats
               end; congruence. }
      subst e. split; [reflexivity |]. split; [| split; [auto | tauto]].
      exists a2. rewrite lookup_insert_eq. destruct Ha2.
      split; [reflexivity |]. split; [exact Hinv2 |]. split; [assumption | discriminate].
    + exfalso. unfold AircraftModel.setNumOfRowSeats, throw_if in Hseats.
      repeat match type of Hseats with
             | context [if ?c then _ else _] => destruct c; cbn [obind] in Hseats
             end; discriminate.
    + exfalso. unfold AircraftModel.setNumOfRowSeats, throw_if in Hseats.
      repeat match type of Hseats with
             | context [if ?c then _ else _] => destruct c; cbn [obind] in Hseats
             end; discriminate.
  - cbn in Hcall. injection Hcall as <- <-. cbn.
    assert (He : e = invalid_argument).
    { unfold AircraftModel.setCapacity, throw_if in Hcap.
      repeat match type of Hcap with
             | context [if ?c then _ else _] => destruct c; cbn [obind] in Hcap
             end; congruence. }
    subst e. split; [reflexivity |]. split; [| split; [auto | auto]].
    exists a1. rewrite lookup_insert_eq.
    split; [reflexivity |]. split; [exact Hinv1 |]. split; [reflexivity | discriminate].
  - exfalso. unfold AircraftModel.setCapacity, throw_if in Hcap.
    repeat match type of Hcap with
           | context [if ?c then _ else _] => destruct c; cbn [obind] in Hcap
           end; discriminate.
  - exfalso. unfold AircraftModel.setCapacity, throw_if in Hcap.
    repeat match type of Hcap with
           | context [if ?c then _ else _] => destruct c; cbn [obind] in Hcap
           end; discriminate.
Qed.

Lemma updateAircraft_in_place_witness :
  let admin := UserModel.mk "ADM-10001" "root" "secret" UserModel.Admin UserModel.AdminClass in
  let w := with_users Example.world (<["ADM-10001" := admin]> (users Example.world)) in
  exists w',
    AdminController.updateAircraft "ADM-10001" "AC-10001" "A321" 15 5 w
    = (Throw invalid_argument, w') /\
    aircrafts w' = <["AC-10001" := AircraftModel.setModel Example.aircraft "A321"]>
                     (aircrafts w).
Proof.
  intros admin w.
  destruct (AdminController.updateAircraft "ADM-10001" "AC-10001" "A321" 15 5 w)
    as [r w'] eqn:Hcall.
  assert (Hinv : AircraftModel.invariant Example.aircraft).
  { unfold AircraftModel.invariant. cbn. repeat split; try lia; reflexivity. }
  destruct (updateAircraft_in_place w w' "ADM-10001" "AC-10001" "A321" 15 5 admin
              Example.aircraft r eq_refl eq_refl eq_refl eq_refl Hinv Hcall)
    as (_ & _ & _ & Horder).
  destruct Horder as [-> Hstored]; [right; cbn; discriminate |].
  exists w'. split; [reflexivity | exact Hstored].
Defined.

(** ** Flight administration *)

(** X27: [FlightService::updateFlight(flightId, ...)] on a stored flight
    either returns false and changes nothing, or returns true and replaces
    origin, destination, times and aircraft of the stored flight, keeping its
    identifier, its crew and its seat map as they were, also when the aircraft
    changes. It returns true only for valid times with the arrival not [<=]
    the departure and an aircraft identifier that is empty or stored; an empty
    origin, destination and aircraft identifier, which the constructor
    refuses, are accepted. *)
Theorem updateFlight_keeps_seat_map (w w' : World)
    (flightId origin destination : string) (departureTime arrivalTime : DateTime.t)
    (aircraftId : string) (f : FlightModel.t) (r : outcome bool)
    (Hstored : flights w !! flightId = Some f)
    (Hkey : FlightModel.flightId f = flightId)
    (Hcall : FlightService.updateFlight flightId origin destination departureTime
               arrivalTime aircraftId w = (r, w')) :
  (r = Ok true \/ (r = Ok false /\ w' = w)) /\
  (r = Ok true ->
   w' = with_flights w
          (<[flightId := FlightModel.mk flightId origin destination departureTime
                           arrivalTime aircraftId (FlightModel.crewMemberIds f)
                           (FlightModel.seatMap f)]> (flights w)) /\
   DateTime.isValid departureTime = true /\ DateTime.isValid arrivalTime = true /\
   DateTime.le arrivalTime departureTime = false /\
   (aircraftId = "" \/ is_Some (aircrafts w !! aircraftId))) /\
  (origin = "" -> destination = "" -> aircraftId = "" ->
   DateTime.isValid departureTime = true -> DateTime.isValid arrivalTime = true ->
   DateTime.le arrivalTime departureTime = false ->
   r = Ok true).
Proof.
  unfold FlightService.updateFlight, bind, FlightRepository.findFlightById,
    AircraftRepository.findAircraftById, FlightRepository.updateFlight, ret in Hcall.
  rewrite Hstored in Hcall.
  destruct (negb (str_empty origin) && negb (str_empty destination)
            && String.eqb origin destination) eqn:Hsame.
  { injection Hcall as <- <-. split; [auto |]. split; [discriminate |].
    intros -> -> _ _ _ _. discriminate Hsame. }
  destruct (DateTime.isValid departureTime) eqn:Hdep; cbn [negb orb] in Hcall;
    [| injection Hcall as <- <-; split; [auto |]; split; [discriminate | congruence]].
  destruct (DateTime.isValid arrivalTime) eqn:Harr; cbn [negb orb] in Hcall;
    [| injection Hcall as <- <-; split; [auto |]; split; [discriminate | congruence]].
  destruct (DateTime.le arrivalTime departureTime) eqn:Hle;
    [injection Hcall as <- <-; split; [auto |]; split; [discriminate | congruence] |].
  destruct (negb (str_empty aircraftId)
            && match aircrafts w !! aircraftId with Some _ => false | None => true end)
    eqn:Hac.
  { injection Hcall as <- <-. split; [auto |]. split; [discriminate |].
    intros _ _ -> _ _ _. discriminate Hac. }
  cbn in Hcall. rewrite Hkey, lookup_insert_eq in Hcall. injection Hcall as <- <-.
  split; [auto |]. split; [| reflexivity]. intros _.
  split.
  - subst flightId. unfold with_flights. cbn. f_equal. apply insert_insert_eq.
  - repeat split.
    destruct aircraftId; [left; reflexivity | right].
    cbn in Hac. destruct (aircrafts w !! _); [eauto | discriminate].
Qed.

Lemma updateFlight_keeps_seat_map_witness :
  exists w' f',
    FlightService.updateFlight "FL-20001" "" "" (DateTime.mk 2025 1 5 9 30)
      (DateTime.mk 2025 1 5 14 0) "" Example.booked = (Ok true, w') /\
    flights w' !! "FL-20001" = Some f' /\
    FlightModel.seatMap f'
    = [[false; false; false; true]; replicate 4 false; replicate 4 false] /\
    FlightModel.isValidSeat (aircrafts w') f' "1D" = false.
Proof.
  destruct (FlightService.updateFlight "FL-20001" "" "" (DateTime.mk 2025 1 5 9 30)
              (DateTime.mk 2025 1 5 14 0) "" Example.booked) as [r w'] eqn:Hcall.
  destruct (updateFlight_keeps_seat_map Example.booked w' "FL-20001" "" ""
              (DateTime.mk 2025 1 5 9 30) (DateTime.mk 2025 1 5 14 0) ""
              (FlightModel.with_seatMap Example.flight
                 [[false; false; false; true]; replicate 4 false; replicate 4 false])
              r eq_refl eq_refl Hcall) as (_ & Htrue & Hempty).
  rewrite (Hempty eq_refl eq_refl eq_refl eq_refl eq_refl eq_refl) in *.
  destruct (Htrue eq_refl) as (-> & _).
  do 2 eexists. split; [reflexivity |]. split; [reflexivity |]. split; reflexivity.
Defined.

Lemma FlightModel_from_json_crew (aircrafts : gmap string AircraftModel.t)
    (crewMembers : gmap string CrewMemberModel.t) (json : JSON) (g : FlightModel.t) :
  FlightModel.from_json aircrafts crewMembers json = Ok g ->
  exists j, json_at json "crewMemberIds" = Ok j /\
            get_vector get_string j = Ok (FlightModel.crewMemberIds g).
Proof.
  intros H. unfold FlightModel.from_json in H. inv_ok.
  destruct (aircrafts !! _) as [ac |]; [| discriminate].
  inv_ok.
  match goal with
  | H : match ?m with [] => _ | _ => _ end = Ok _ |- _ =>
      destruct m as [| row0 rows]; [discriminate |]
  end.
  inv_ok. subst g. cbn. eauto.
Qed.

(** X28: [FlightService::addCrewToFlight(flightId, crewMemberId)]
    appends the identifier to the crew of a stored flight without looking it
    up: for an identifier that no crew member has it returns true, and the
    flight it leaves in the repository can no longer be constructed from its
    own JSON. *)
Theorem addCrewToFlight_unchecked (w : World) (flightId crewMemberId : string)
    (f : FlightModel.t)
    (Hstored : flights w !! flightId = Some f)
    (Hunknown : crewMembers w !! crewMemberId = None) :
  let f' := FlightModel.addCrewMemberId f crewMemberId in
  FlightService.addCrewToFlight flightId crewMemberId w
  = (Ok true, with_flights w (<[flightId := f']> (flights w))) /\
  forall g, FlightModel.from_json (aircrafts w) (crewMembers w) (FlightModel.to_json f')
            <> Ok g.
Proof.
  intros f'. split.
  - unfold FlightService.addCrewToFlight, bind, FlightRepository.findFlightById.
    rewrite Hstored. reflexivity.
  - intros g Hg.
    destruct (FlightModel_from_json_crew _ _ _ _ Hg) as (j & Hj & Hids).
    destruct (FlightModel_from_json_Ok _ _ _ _ Hg) as (_ & _ & _ & _ & _ & _ & _ & _ & Hall & _).
    cbn in Hj. injection Hj as <-.
    rewrite get_vector_strings in Hids. injection Hids as Hids.
    rewrite <- Hids in Hall. unfold FlightModel.all_exist in Hall.
    rewrite forallb_app in Hall. apply andb_true_iff in Hall as [_ Hlast].
    cbn in Hlast. rewrite Hunknown in Hlast.
    rewrite bool_decide_eq_false_2 in Hlast; [discriminate |].
    intros [x Hx]. discriminate Hx.
Qed.

Lemma addCrewToFlight_unchecked_witness :
  exists w' f',
    FlightService.addCrewToFlight "FL-20001" "CM-00000" Example.world = (Ok true, w') /\
    flights w' !! "FL-20001" = Some f' /\
    FlightModel.from_json (aircrafts w') (crewMembers w') (FlightModel.to_json f')
    = Throw invalid_argument.
Proof.
  destruct (addCrewToFlight_unchecked Example.world "FL-20001" "CM-00000" Example.flight
              eq_refl eq_refl) as [Hcall _].
  do 2 eexists. split; [exact Hcall |]. split; reflexivity.
Defined.

(** X29: a crew member with an identifier "CM-..." and a name that is
    not empty is read back from its JSON as it is, and so is every crew
    member the constructor returns, whose identifier no stored crew member
    had. *)
Theorem CrewMemberModel_roundtrip :
  (forall c,
     lacks_prefix (CrewMemberModel.crewId c) "CM-" = false ->
     CrewMemberModel.name c <> "" ->
     CrewMemberModel.from_json (CrewMemberModel.to_json c) = Ok c) /\
  (forall crewMembers draws draws' name role c,
     CrewMemberModel.ctor crewMembers draws name role = (Ok c, draws') ->
     crewMembers !! CrewMemberModel.crewId c = None /\
     CrewMemberModel.from_json (CrewMemberModel.to_json c) = Ok c).
Proof.
  assert (Hread : forall c,
             lacks_prefix (CrewMemberModel.crewId c) "CM-" = false ->
             CrewMemberModel.name c <> "" ->
             CrewMemberModel.from_json (CrewMemberModel.to_json c) = Ok c).
  { intros [id name role] Hid Hname. cbn in Hid, Hname.
    unfold CrewMemberModel.from_json, CrewMemberModel.to_json. cbn. rewrite Hid. cbn.
    destruct name; [congruence |]. cbn. destruct role; reflexivity. }
  split; [exact Hread |].
  intros crewMembers draws draws' name role c Hctor.
  unfold CrewMemberModel.ctor in Hctor.
  destruct (str_empty name) eqn:Hname; [discriminate |].
  destruct (generate_fresh_id _ _ draws) as [[id | | |] ds] eqn:Hid; try discriminate.
  cbn in Hctor. injection Hctor as <- <-.
  apply generate_fresh_id_Ok in Hid as (Hfree & d & _ & ->).
  apply bool_decide_eq_false in Hfree. rewrite is_Some_alt in Hfree.
  split.
  - cbn. destruct (crewMembers !! _); [tauto | reflexivity].
  - apply Hread; cbn; [apply lacks_prefix_app | apply str_empty_false; exact Hname].
Qed.

Lemma CrewMemberModel_roundtrip_witness :
  CrewMemberModel.from_json
    (CrewMemberModel.to_json
       (CrewMemberModel.mk "CM-50001" "Amelia" CrewMemberModel.Pilot))
  = Ok (CrewMemberModel.mk "CM-50001" "Amelia" CrewMemberModel.Pilot).
Proof.
  apply (proj1 CrewMemberModel_roundtrip
           (CrewMemberModel.mk "CM-50001" "Amelia" CrewMemberModel.Pilot));
    [reflexivity | discriminate].
Defined.

(** ** Loading a stored reservation *)

(** X30: constructing a reservation from the JSON that [to_json] wrote
    for it, its flight and passenger being stored and its seat decoding on the
    flight, marks the seat on the stored flight as booked for a CONFIRMED
    and as free for a CANCELLED reservation, and then returns the
    reservation as it was when its payment is stored; when its payment is
    not stored it throws invalid_argument, with the seat already marked. *)
Theorem ReservationModel_reload
    (aircrafts : gmap string AircraftModel.t) (users : gmap string UserModel.t)
    (flights : gmap string FlightModel.t) (payments : gmap string PaymentModel.t)
    (r : ReservationModel.t) (f : FlightModel.t) (b0 : bool)
    (Hid : lacks_prefix (ReservationModel.reservationId r) "RES-" = false)
    (Hflight : flights !! ReservationModel.flightId r = Some f)
    (Huser : is_Some (users !! ReservationModel.passengerId r))
    (Hseat : FlightModel.getSeatStatus aircrafts f (ReservationModel.seatNumber r) = Ok b0) :
  exists f',
    FlightModel.setSeatStatus aircrafts f (ReservationModel.seatNumber r)
      (ReservationModel.is_confirmed (ReservationModel.status r)) = Ok f' /\
    (is_Some (payments !! ReservationModel.paymentId r) ->
     ReservationModel.from_json aircrafts users flights payments (ReservationModel.to_json r)
     = (Ok r, <[ReservationModel.flightId r := f']> flights)) /\
    (payments !! ReservationModel.paymentId r = None ->
     ReservationModel.from_json aircrafts users flights payments (ReservationModel.to_json r)
     = (Throw invalid_argument, <[ReservationModel.flightId r := f']> flights)).
Proof.
  destruct (setSeatStatus_defined aircrafts f _ b0
              (ReservationModel.is_confirmed (ReservationModel.status r)) Hseat)
    as [f' Hset].
  exists f'. split; [exact Hset |].
  destruct r as [id fid pid seat st pay]. cbn in *.
  assert (Hf : bool_decide (is_Some (flights !! fid)) = true)
    by (apply bool_decide_eq_true_2; eauto).
  assert (Hu : bool_decide (is_Some (users !! pid)) = true)
    by (apply bool_decide_eq_true_2; exact Huser).
  assert (Hstatus : (if String.eqb (if ReservationModel.is_confirmed st
                                    then "CONFIRMED" else "CANCELLED") "CONFIRMED"
                     then Ok ReservationModel.CONFIRMED
                     else if String.eqb (if ReservationModel.is_confirmed st
                                         then "CONFIRMED" else "CANCELLED") "CANCELLED"
                          then Ok ReservationModel.CANCELLED
                          else Throw invalid_argument) = Ok st)
    by (destruct st; reflexivity).
  unfold ReservationModel.from_json, ReservationModel.to_json.
  cbn. rewrite Hid. cbn. rewrite Hf. cbn. rewrite Hu. cbn. rewrite Hstatus. cbn.
  rewrite Hflight, Hset. cbn. split.
  - intros Hpay. rewrite (bool_decide_eq_true_2 _ Hpay). reflexivity.
  - intros Hpay. rewrite bool_decide_eq_false_2; [reflexivity |].
    rewrite Hpay. intros [x Hx]. discriminate Hx.
Qed.

Lemma ReservationModel_reload_witness :
  exists f',
    ReservationModel.from_json (aircrafts Example.world) (users Example.world)
      (flights Example.world) (payments Example.world)
      (ReservationModel.to_json
         (ReservationModel.mk "RES-50001" "FL-20001" "PAS-30001" "2C"
            ReservationModel.CONFIRMED "PAY-00000"))
    = (Throw invalid_argument, <["FL-20001" := f']> (flights Example.world)) /\
    FlightModel.getSeatStatus (aircrafts Example.world) f' "2C" = Ok true.
Proof.
  destruct (ReservationModel_reload (aircrafts Example.world) (users Example.world)
              (flights Example.world) (payments Example.world)
              (ReservationModel.mk "RES-50001" "FL-20001" "PAS-30001" "2C"
                 ReservationModel.CONFIRMED "PAY-00000")
              Example.flight false eq_refl eq_refl ltac:(eexists; reflexivity) eq_refl)
    as (f' & Hset & _ & Hthrow).
  exists f'. split; [apply Hthrow; reflexivity |].
  cbn in Hset. injection Hset as <-. reflexivity.
Defined.
